(** * Plant simulator: reactor, grid, controllers, scenarios and metrics

    A shallow embedding of the physics models ([models/reactor_model.py],
    [models/grid_model.py], [models/turbine_model.py]), the inner regulator
    ([environment/reactor_controller.py]), the controller interface
    ([controllers/base_controller.py], [controllers/pid_controller.py]), the
    scenario library ([analysis/scenario_definitions.py]), the wrapper of
    the metrics engine ([analysis/metrics_engine.py]), the simulation
    helper and the PID objective of the optimization suite
    ([optimization_suite/optimization_utils.py],
    [optimization_suite/pid_global_optimizer.py]) and the command-line
    overrides of [analysis/parameter_manager.py].

    Numbers.  A Python [float] is modelled by an exact rational [Q]; a
    decimal literal denotes its decimal value ([0.005] is [5/1000]).
    Rounding, overflow, infinities and NaN are outside of this model, except
    where the code itself produces the undefined value ([np.nan] in the
    metrics engine), which has a constructor of its own.  Equality of
    numbers is [Qeq] ([==]). *)

From Stdlib Require Import QArith ZArith List String Bool Lia Lqa.
Import ListNotations.
Open Scope Q_scope.

(* ================================================================= *)
(** ** Python runtime *)

Module Py.

(** The exception classes the modelled code can raise. *)
Inductive exn : Type :=
| ZeroDivisionError
| ValueError
| TypeError
| KeyError
| IndexError
| AttributeError.

(** The outcome of a call: a value, a raised exception, or [NonFinite]
    when numpy would store [inf] or [nan] in an array (an array divided
    by zero only warns): such a value has no rational counterpart. *)
Inductive outcome (A : Type) : Type :=
| Ok (a : A)
| Raise (e : exn)
| NonFinite.
Arguments Ok {A} a.
Arguments Raise {A} e.
Arguments NonFinite {A}.

Definition bind {A B : Type} (m : outcome A) (k : A -> outcome B) : outcome B :=
  match m with
  | Ok a => k a
  | Raise e => Raise e
  | NonFinite => NonFinite
  end.

(** [a < b] and [a <= b] on floats, as booleans. *)
Definition Qltb (a b : Q) : bool :=
  match a ?= b with Lt => true | _ => false end.
Definition Qleb (a b : Q) : bool :=
  match a ?= b with Gt => false | _ => true end.

(** [a / b] on Python floats: raises when [b] is zero.  (A numpy scalar
    divided by zero would warn and give [inf] or [nan] instead; either
    way the call leaves the rational model, and no theorem below rests
    on which of the two happens.) *)
Definition div (a b : Q) : outcome Q :=
  if Qeq_bool b 0 then Raise ZeroDivisionError else Ok (a / b).

(** The builtin [max(a, b)]: [a] unless [b > a]. *)
Definition max (a b : Q) : Q := if Qltb a b then b else a.

(** [int(x)] of a float: truncation towards zero. *)
Definition int (x : Q) : Z := Z.quot (Qnum x) (Zpos (Qden x)).

End Py.

Import Py.

Declare Scope py_scope.
Notation "x <- m ;; k" := (Py.bind m (fun x => k))
  (at level 61, m at next level, right associativity) : py_scope.
Open Scope py_scope.

(* ================================================================= *)
(** ** numpy: one-dimensional float arrays *)

Module np.

Definition ndarray : Type := list Q.

(** [np.pi], the double nearest to the circle constant, exactly. *)
Definition pi : Q := 884279719003555 # 281474976710656.

Fixpoint zip_with (f : Q -> Q -> Q) (a b : ndarray) : ndarray :=
  match a, b with
  | x :: a', y :: b' => f x y :: zip_with f a' b'
  | _, _ => []
  end.

(** Broadcasting of two one-dimensional operands: equal lengths go
    elementwise, a length-one operand is stretched, anything else is a
    [ValueError]. *)
Definition broadcast (f : Q -> Q -> Q) (a b : ndarray) : outcome ndarray :=
  if Nat.eqb (List.length a) (List.length b) then Ok (zip_with f a b)
  else match a, b with
       | [x], _ => Ok (map (fun y => f x y) b)
       | _, [y] => Ok (map (fun x => f x y) a)
       | _, _ => Raise ValueError
       end.

Definition mul (a b : ndarray) : outcome ndarray := broadcast Qmult a b.
Definition sub (a b : ndarray) : outcome ndarray := broadcast Qminus a b.

(** [a / b]: a zero divisor yields [inf] or [nan]. *)
Definition div (a b : ndarray) : outcome ndarray :=
  r <- broadcast (fun _ y => y) a b ;;
  if existsb (fun y => Qeq_bool y 0) r then NonFinite
  else broadcast Qdiv a b.

(** Array and scalar. *)
Definition scale (a : ndarray) (k : Q) : ndarray := map (fun x => x * k) a.
Definition div_scalar (a : ndarray) (k : Q) : outcome ndarray :=
  match a with
  | [] => Ok []
  | _ => if Qeq_bool k 0 then NonFinite else Ok (map (fun x => x / k) a)
  end.

(** [a += b] in place: the result must have the shape of [a]. *)
Definition iadd (a b : ndarray) : outcome ndarray :=
  if Nat.eqb (List.length a) (List.length b) then Ok (zip_with Qplus a b)
  else match b with
       | [y] => Ok (map (fun x => x + y) a)
       | _ => Raise ValueError
       end.

Definition sum (a : ndarray) : Q := fold_left Qplus a 0.

Definition zeros_like (a : ndarray) : ndarray := map (fun _ => 0) a.

(** [np.clip(x, lo, hi)] is [minimum(maximum(x, lo), hi)]. *)
Definition clip (x lo hi : Q) : Q :=
  let m := if Qltb x lo then lo else x in
  if Qltb hi m then hi else m.

End np.

(* ================================================================= *)
(** ** models/reactor_model.py *)

Module ReactorModel.

(** The keys read from [params] by [__init__]; a missing key (the
    [KeyError] that [__init__] logs and re-raises) is excluded by the
    record type. *)
Record Params : Type := mkParams {
  p_beta_i : np.ndarray;
  p_lambda_i : np.ndarray;
  p_Lambda : Q;
  p_beta_total : Q;
  p_alpha_f : Q;
  p_alpha_c : Q;
  p_C_f : Q;
  p_C_c : Q;
  p_Omega : Q;
  p_P0 : Q;
  p_T_inlet : Q;
  p_T_coolant0 : Q;
  p_T_fuel0 : Q
}.

Record t : Type := mk {
  beta_i : np.ndarray;
  lambda_i : np.ndarray;
  Lambda : Q;
  beta_total : Q;
  alpha_f : Q;
  alpha_c : Q;
  C_f : Q;
  C_c : Q;
  Omega : Q;
  P0 : Q;
  T_inlet : Q;
  T_coolant0 : Q;
  T_fuel0 : Q;
  power_level : Q;
  precursor_concentrations : np.ndarray;
  T_fuel : Q;
  T_moderator : Q
}.

Definition init (params : Params) : t :=
  {| beta_i := p_beta_i params;
     lambda_i := p_lambda_i params;
     Lambda := p_Lambda params;
     beta_total := p_beta_total params;
     alpha_f := p_alpha_f params;
     alpha_c := p_alpha_c params;
     C_f := p_C_f params;
     C_c := p_C_c params;
     Omega := p_Omega params;
     P0 := p_P0 params;
     T_inlet := p_T_inlet params;
     T_coolant0 := p_T_coolant0 params;
     T_fuel0 := p_T_fuel0 params;
     power_level := 0;
     precursor_concentrations := np.zeros_like (p_beta_i params);
     T_fuel := 0;
     T_moderator := 0 |}.

(** The four fields [reset] and [step] assign. *)
Definition with_state (self : t) (p : Q) (c : np.ndarray) (tf tm : Q) : t :=
  {| beta_i := beta_i self;
     lambda_i := lambda_i self;
     Lambda := Lambda self;
     beta_total := beta_total self;
     alpha_f := alpha_f self;
     alpha_c := alpha_c self;
     C_f := C_f self;
     C_c := C_c self;
     Omega := Omega self;
     P0 := P0 self;
     T_inlet := T_inlet self;
     T_coolant0 := T_coolant0 self;
     T_fuel0 := T_fuel0 self;
     power_level := p;
     precursor_concentrations := c;
     T_fuel := tf;
     T_moderator := tm |}.

Definition reset (self : t) (initial_power_fraction : Q) : outcome t :=
  let power := initial_power_fraction in
  let tf := T_fuel0 self * initial_power_fraction in
  let tm := T_coolant0 self * initial_power_fraction in
  if Qltb (1 # 1000000000) (Lambda self) then
    r <- np.div (beta_i self) (np.scale (lambda_i self) (Lambda self)) ;;
    Ok (with_state self power (np.scale r power) tf tm)
  else
    Ok (with_state self power
          (np.zeros_like (precursor_concentrations self)) tf tm).

(** [d(Power)/dt], from the reactivity and the state it is given. *)
Definition dp_dt (self : t) (total_reactivity lambda_c_sum : Q) : outcome Q :=
  k <- Py.div (total_reactivity - beta_total self) (Lambda self) ;;
  Ok (k * power_level self + lambda_c_sum).

(** [d(Precursors)/dt], with the power it is given. *)
Definition dc_dt (self : t) (power : Q) : outcome np.ndarray :=
  bl <- np.div_scalar (beta_i self) (Lambda self) ;;
  dec <- np.mul (lambda_i self) (precursor_concentrations self) ;;
  np.sub (np.scale bl power) dec.

Definition total_reactivity (self : t) (rod_reactivity : Q) : Q :=
  let delta_T_f := T_fuel self - T_fuel0 self in
  let delta_T_c := T_moderator self - T_coolant0 self in
  let rho_feedback := alpha_f self * delta_T_f + alpha_c self * delta_T_c in
  rho_feedback + rod_reactivity.

(** [step] returns the new object state and the thermal power in MW. *)
Definition step (self : t) (dt rod_reactivity : Q) : outcome (t * Q) :=
  let rho := total_reactivity self rod_reactivity in
  lc <- np.mul (lambda_i self) (precursor_concentrations self) ;;
  let lambda_c_sum := np.sum lc in
  dp <- dp_dt self rho lambda_c_sum ;;
  let power1 := power_level self + dp * dt in
  dc <- dc_dt self power1 ;;
  prec1 <- np.iadd (precursor_concentrations self) (np.scale dc dt) ;;
  let generated_power_mw := power1 * P0 self in
  inv_f <- Py.div 1 (C_f self) ;;
  let dtf_dt :=
    inv_f * (generated_power_mw - Omega self * (T_fuel self - T_moderator self)) in
  let tf1 := T_fuel self + dtf_dt * dt in
  inv_c <- Py.div 1 (C_c self) ;;
  let dtc_dt := inv_c * (Omega self * (tf1 - T_moderator self)) in
  let tm1 := T_moderator self + dtc_dt * dt in
  let power2 := Py.max 0 power1 in
  Ok (with_state self power2 prec1 tf1 tm1, power2 * P0 self).

(** A run: [reset], then one [step] per [(dt, rod_reactivity)] input;
    the thermal powers returned are collected in call order. *)
Fixpoint steps (self : t) (inputs : list (Q * Q)) : outcome (t * list Q) :=
  match inputs with
  | [] => Ok (self, [])
  | (dt, rod) :: rest =>
      r <- step self dt rod ;;
      r' <- steps (fst r) rest ;;
      Ok (fst r', snd r :: snd r')
  end.

Definition run (params : Params) (initial_power_fraction : Q)
    (inputs : list (Q * Q)) : outcome (t * list Q) :=
  m <- reset (init params) initial_power_fraction ;;
  steps m inputs.

(** A valid configuration: the divisors of [reset] and [step] are not
    zero, one decay constant per delay group, and a non-negative nominal
    power. *)
Definition valid (params : Params) : bool :=
  negb (Qeq_bool (p_Lambda params) 0)
  && negb (Qeq_bool (p_C_f params) 0)
  && negb (Qeq_bool (p_C_c params) 0)
  && Nat.eqb (List.length (p_beta_i params)) (List.length (p_lambda_i params))
  && forallb (fun l => negb (Qeq_bool l 0)) (p_lambda_i params)
  && Qleb 0 (p_P0 params).

(** The same of an object, with the shape of its precursor array. *)
Definition well_formed (self : t) : bool :=
  negb (Qeq_bool (Lambda self) 0)
  && negb (Qeq_bool (C_f self) 0)
  && negb (Qeq_bool (C_c self) 0)
  && Nat.eqb (List.length (beta_i self)) (List.length (lambda_i self))
  && Nat.eqb (List.length (precursor_concentrations self))
       (List.length (lambda_i self))
  && Qleb 0 (P0 self).

End ReactorModel.

(* ================================================================= *)
(** ** models/grid_model.py *)

Module GridModel.

(** A load profile: [(time_s, step) -> demand_MW]; like every Python
    callable it may raise. *)
Definition load_profile : Type := Q -> Z -> outcome Q.

Record t : Type := mk {
  H : Q;
  D : Q;
  f_nominal : Q;
  S_base : Q;
  frequency : Q;
  omega_pu : Q;
  delta : Q;
  current_demand : Q;
  load_profile_func : option load_profile
}.

(** [grid_params] carries the four swing-equation keys; [sim_params] is
    not read. *)
Definition init (H D f_nominal S_base : Q) : t :=
  {| H := H; D := D; f_nominal := f_nominal; S_base := S_base;
     frequency := f_nominal;
     omega_pu := 1;
     delta := 0;
     current_demand := 0;
     load_profile_func := None |}.

Definition reset (self : t) (initial_load_mw : Q) : t :=
  {| H := H self; D := D self; f_nominal := f_nominal self;
     S_base := S_base self;
     frequency := f_nominal self;
     omega_pu := 1;
     delta := 0;
     current_demand := initial_load_mw;
     load_profile_func := Some (fun time_s step => Ok initial_load_mw) |}.

Definition set_load_profile (self : t) (load_func : load_profile) : t :=
  {| H := H self; D := D self; f_nominal := f_nominal self;
     S_base := S_base self;
     frequency := frequency self;
     omega_pu := omega_pu self;
     delta := delta self;
     current_demand := current_demand self;
     load_profile_func := Some load_func |}.

(** The two divisors of [step] are not zero. *)
Definition valid (self : t) : bool :=
  negb (Qeq_bool (S_base self) 0) && negb (Qeq_bool (2 * H self) 0).

(** Step 1 of [step]: the demand read from the active profile; calling
    the [None] left by [__init__] is a [TypeError]. *)
Definition demand (self : t) (time_s : Q) (step_num : Z) : outcome Q :=
  match load_profile_func self with
  | Some f => f time_s step_num
  | None => Raise TypeError
  end.

(** Steps 2 and 3 of [step]: the per-unit speed derivative. *)
Definition d_omega_pu_dt (self : t) (mechanical_power_mw demand_mw : Q)
    : outcome Q :=
  p_m_pu <- Py.div mechanical_power_mw (S_base self) ;;
  p_e_pu <- Py.div demand_mw (S_base self) ;;
  inv <- Py.div 1 (2 * H self) ;;
  Ok (inv * (p_m_pu - p_e_pu - D self * (omega_pu self - 1))).

Definition step (self : t) (dt mechanical_power_mw time_s : Q) (step_num : Z)
    : outcome t :=
  demand_mw <- demand self time_s step_num ;;
  d_omega <- d_omega_pu_dt self mechanical_power_mw demand_mw ;;
  let omega1 := omega_pu self + d_omega * dt in
  let frequency1 := omega1 * f_nominal self in
  let d_delta_dt := (omega1 - 1) * 2 * np.pi * f_nominal self in
  Ok {| H := H self; D := D self; f_nominal := f_nominal self;
        S_base := S_base self;
        frequency := frequency1;
        omega_pu := omega1;
        delta := delta self + d_delta_dt * dt;
        current_demand := demand_mw;
        load_profile_func := load_profile_func self |}.

(** A run: one [step] per [(dt, mechanical_power_mw, time_s, step_num)]
    input, in order. *)
Fixpoint steps (self : t) (inputs : list (Q * Q * Q * Z)) : outcome t :=
  match inputs with
  | [] => Ok self
  | (dt, mechanical_power_mw, time_s, step_num) :: rest =>
      self' <- step self dt mechanical_power_mw time_s step_num ;;
      steps self' rest
  end.

End GridModel.

(* ================================================================= *)
(** ** models/turbine_model.py *)

Module TurbineModel.

Record t : Type := mk {
  eta_transfer : Q;
  tau_delay : Q;
  tau_t : Q;
  tau_v : Q;
  omega_nominal_rpm : Q;
  mechanical_power : Q;
  valve_position : Q;
  speed_rpm : Q
}.

(** [coupling_params] gives [eta_transfer] and, optionally, [tau_delay]
    (2.0 when absent); [turbine_params] the other three keys. *)
Definition init (eta_transfer : Q) (tau_delay : option Q)
    (tau_t tau_v omega_nominal_rpm : Q) : t :=
  {| eta_transfer := eta_transfer;
     tau_delay := match tau_delay with Some d => d | None => 2 end;
     tau_t := tau_t;
     tau_v := tau_v;
     omega_nominal_rpm := omega_nominal_rpm;
     mechanical_power := 0;
     valve_position := 8 # 10;
     speed_rpm := omega_nominal_rpm |}.

Definition with_state (self : t) (mechanical_power valve_position speed_rpm : Q)
    : t :=
  {| eta_transfer := eta_transfer self;
     tau_delay := tau_delay self;
     tau_t := tau_t self;
     tau_v := tau_v self;
     omega_nominal_rpm := omega_nominal_rpm self;
     mechanical_power := mechanical_power;
     valve_position := valve_position;
     speed_rpm := speed_rpm |}.

Definition reset (self : t) (initial_mech_power initial_valve_pos : Q) : t :=
  with_state self initial_mech_power initial_valve_pos (omega_nominal_rpm self).

(** Step 1 of [step]: the valve after the actuator lag and the clamp. *)
Definition valve_after (self : t) (dt valve_command : Q) : outcome Q :=
  inv_v <- Py.div 1 (tau_v self) ;;
  let dv_dt := inv_v * (valve_command - valve_position self) in
  Ok (np.clip (valve_position self + dv_dt * dt) 0 1).

(** Step 2 of [step]: the steam power throttled by the valve. *)
Definition effective_steam_power (self : t) (valve thermal_power_mw : Q) : Q :=
  valve * (eta_transfer self * thermal_power_mw).

(** [step] returns the new object state and the mechanical power. *)
Definition step (self : t) (dt thermal_power_mw valve_command : Q)
    : outcome (t * Q) :=
  valve <- valve_after self dt valve_command ;;
  let steam := effective_steam_power self valve thermal_power_mw in
  inv_t <- Py.div 1 (tau_t self) ;;
  let dp_mech_dt := inv_t * (steam - mechanical_power self) in
  let mech := mechanical_power self + dp_mech_dt * dt in
  Ok (with_state self mech valve (speed_rpm self), mech).

(** A run: one [step] per [(dt, thermal_power_mw, valve_command)]. *)
Fixpoint steps (self : t) (inputs : list (Q * Q * Q)) : outcome t :=
  match inputs with
  | [] => Ok self
  | (dt, thermal_power_mw, valve_command) :: rest =>
      r <- step self dt thermal_power_mw valve_command ;;
      steps (fst r) rest
  end.

End TurbineModel.

(* ================================================================= *)
(** ** environment/reactor_controller.py *)

Module ReactorController.

Record t : Type := mk {
  kp : Q;
  ki : Q;
  dt : Q;
  setpoint : Q;
  _integral : Q;
  _reactivity_limits : Q * Q
}.

Definition init (dt : Q) : t :=
  {| kp := 8 # 100000;
     ki := 2 # 100000;
     dt := dt;
     setpoint := 3065 # 10;
     _integral := 0;
     _reactivity_limits := (- (5 # 1000), 5 # 1000) |}.

Definition reset (self : t) (setpoint : Q) : t :=
  {| kp := kp self; ki := ki self; dt := dt self;
     setpoint := setpoint;
     _integral := 0;
     _reactivity_limits := _reactivity_limits self |}.

Definition with_integral (self : t) (i : Q) : t :=
  {| kp := kp self; ki := ki self; dt := dt self;
     setpoint := setpoint self;
     _integral := i;
     _reactivity_limits := _reactivity_limits self |}.

(** [step] returns the new object state and the rod reactivity. *)
Definition step (self : t) (current_moderator_temp : Q) : t * Q :=
  if Qleb (dt self) 0 then (self, 0)
  else
    let error := setpoint self - current_moderator_temp in
    let integral := np.clip (_integral self + error * dt self) (-(5)) 5 in
    let reactivity_output := kp self * error + ki self * integral in
    (with_integral self integral,
     np.clip reactivity_output
       (fst (_reactivity_limits self)) (snd (_reactivity_limits self))).

(** A run: one [step] per moderator temperature; the rod reactivities
    returned are collected in call order. *)
Fixpoint steps (self : t) (temps : list Q) : t * list Q :=
  match temps with
  | [] => (self, [])
  | temp :: rest =>
      let r := step self temp in
      let r' := steps (fst r) rest in
      (fst r', snd r :: snd r')
  end.

End ReactorController.

(* ================================================================= *)
(** ** Python values and dictionaries *)

Module PyVal.

#[local] Set Warnings "-register-all".

(** The values a configuration or a scenario holds.  [VList] stands for
    a tuple or a list; [VFunc] for a load-profile closure.  Dictionary
    keys are strings. *)
Inductive value : Type :=
| VNone
| VBool (b : bool)
| VInt (z : Z)
| VFloat (q : Q)
| VStr (s : string)
| VList (l : list value)
| VDict (d : list (string * value))
| VFunc (f : Q -> Z -> outcome Q).

(** A [dict] with string keys, in insertion order. *)
Definition dict (V : Type) : Type := list (string * V).

Fixpoint dict_get {V : Type} (k : string) (d : dict V) : option V :=
  match d with
  | [] => None
  | (k', v) :: d' => if String.eqb k k' then Some v else dict_get k d'
  end.

Definition dict_mem {V : Type} (k : string) (d : dict V) : bool :=
  match dict_get k d with Some _ => true | None => false end.

(** [d[k] = v]: the value of an existing key is replaced in place, a new
    key goes last. *)
Fixpoint dict_set {V : Type} (k : string) (v : V) (d : dict V) : dict V :=
  match d with
  | [] => [(k, v)]
  | (k', v') :: d' =>
      if String.eqb k k' then (k', v) :: d' else (k', v') :: dict_set k v d'
  end.

Definition keys {V : Type} (d : dict V) : list string := map fst d.

(** Membership and absence of duplicates in a list of keys, decided. *)
Definition key_in (k : string) (l : list string) : bool :=
  existsb (String.eqb k) l.

Fixpoint distinct (l : list string) : bool :=
  match l with
  | [] => true
  | k :: rest => negb (key_in k rest) && distinct rest
  end.

(** The number a value stands for in arithmetic ([bool] is an [int]). *)
Definition as_number (v : value) : option Q :=
  match v with
  | VBool b => Some (if b then 1 else 0)
  | VInt z => Some (inject_Z z)
  | VFloat q => Some q
  | _ => None
  end.

(** [v[k]] for a string key [k]. *)
Definition getitem (v : value) (k : string) : outcome value :=
  match v with
  | VDict d =>
      match dict_get k d with
      | Some x => Ok x
      | None => Raise KeyError
      end
  | _ => Raise TypeError
  end.

(** [v.get(k, default)]: only a [dict] has the method. *)
Definition get (v : value) (k : string) (default : value) : outcome value :=
  match v with
  | VDict d =>
      Ok (match dict_get k d with Some x => x | None => default end)
  | _ => Raise AttributeError
  end.

(** An operand of float arithmetic: anything but a number is a
    [TypeError]. *)
Definition operand (v : value) : outcome Q :=
  match as_number v with
  | Some x => Ok x
  | None => Raise TypeError
  end.

(** [v * q] and [n / v] with a float constant on the other side. *)
Definition mul (v : value) (q : Q) : outcome Q :=
  x <- operand v ;; Ok (x * q).

Definition rdiv (n : Q) (v : value) : outcome Q :=
  x <- operand v ;; Py.div n x.

End PyVal.

Import PyVal.

(* ================================================================= *)
(** ** analysis/scenario_definitions.py *)

Module Scenarios.

Local Open Scope string_scope.

Definition constant_load (load_mw : Q) : GridModel.load_profile :=
  fun time_s step => Ok load_mw.

Definition gradual_load_change (initial final start_t duration : Q)
    : GridModel.load_profile :=
  let duration := if Qleb duration (1 # 1000000) then 1 # 1000000 else duration in
  fun time_s step =>
    if Qltb time_s start_t then Ok initial
    else if Qltb time_s (start_t + duration) then
      let fraction := (time_s - start_t) / duration in
      Ok (initial + (final - initial) * fraction)
    else Ok final.

Definition step_load_change (initial final step_t : Q)
    : GridModel.load_profile :=
  fun time_s step => if Qleb step_t time_s then Ok final else Ok initial.

(** The loop of [multi_step_load_profile.profile]: the last entry
    reached before the first one whose start time lies ahead. *)
Fixpoint multi_step_scan (steps : list (Q * Q)) (time_s current_load : Q) : Q :=
  match steps with
  | [] => current_load
  | (load, start_time) :: rest =>
      if Qleb start_time time_s then multi_step_scan rest time_s load
      else current_load
  end.

(** [steps[0][0]] of an empty list is an [IndexError], at call time. *)
Definition multi_step_load_profile (steps : list (Q * Q))
    : GridModel.load_profile :=
  fun time_s step =>
    match steps with
    | [] => Raise IndexError
    | (load0, _) :: _ => Ok (multi_step_scan steps time_s load0)
    end.

(** The [try] block at the head of [get_scenarios]: the three values
    read from [core_config]. *)
Definition read_core_config (core_config : dict value)
    : outcome (value * value * value) :=
  simulation <- getitem (VDict core_config) "simulation" ;;
  sim_dt <- getitem simulation "dt" ;;
  ic <- get (VDict core_config) "initial_conditions" (VDict []) ;;
  initial_load_base <- get ic "electrical_load_mw" (VFloat (30085 # 10)) ;;
  coupling <- get (VDict core_config) "coupling" (VDict []) ;;
  eta_base <- get coupling "eta_transfer" (VFloat (98 # 100)) ;;
  Ok (sim_dt, initial_load_base, eta_base).

(** [int(n / sim_dt)]. *)
Definition steps_for (n : Q) (sim_dt : value) : outcome value :=
  q <- rdiv n sim_dt ;;
  Ok (VInt (Py.int q)).

(** The scenario dictionary as the assignments of [get_scenarios] build
    it, before the final loop.  The profile builders are pure and convert
    their arguments only when called, so what is kept of the evaluation
    order is the order of the operations that can raise: [500 / sim_dt]
    (first scenario), [initial_load_base * 0.9] (second scenario) and
    [eta_base * 0.90] (last scenario). *)
Definition scenario_definitions (sim_dt initial_load_base eta_base : value)
    : outcome (dict (dict value)) :=
  let scenarios : dict (dict value) := [] in
  n500 <- steps_for 500 sim_dt ;;
  load90 <- mul initial_load_base (9 # 10) ;;
  load <- operand initial_load_base ;;
  let scenarios := dict_set "baseline_steady_state"
    [("description", VStr "Baseline steady-state operation at 90% power.");
     ("load_profile_func", VFunc (constant_load load));
     ("max_steps", n500);
     ("reset_options", VDict [("initial_power_level", VFloat (9 # 10))])]
    scenarios in
  n400 <- steps_for 400 sim_dt ;;
  let scenarios := dict_set "gradual_load_increase_10pct"
    [("description", VStr "Gradual load ramp from 90% to 100%.");
     ("load_profile_func", VFunc (gradual_load_change load90 load 20 300));
     ("max_steps", n400);
     ("reset_options", VDict [("initial_power_level", VFloat (9 # 10))])]
    scenarios in
  let load105 := load * (105 # 100) in
  n300 <- steps_for 300 sim_dt ;;
  let scenarios := dict_set "sudden_load_increase_5pct"
    [("description", VStr "Sudden +5% load increase from nominal.");
     ("load_profile_func", VFunc (step_load_change load load105 20));
     ("max_steps", n300)]
    scenarios in
  n1800 <- steps_for 1800 sim_dt ;;
  let scenarios := dict_set "steady_state_efficiency_probe"
    [("description",
      VStr "RL Drill: A long, quiet hold to enforce control efficiency.");
     ("load_profile_func", VFunc (constant_load load));
     ("max_steps", n1800);
     ("is_efficiency_probe", VBool true)]
    scenarios in
  let scenarios := dict_set "deceptive_sensor_noise"
    [("description",
      VStr "Adversarial Test: High, dynamic sensor noise during a load ramp.");
     ("load_profile_func", VFunc (gradual_load_change load90 load 20 300));
     ("max_steps", n400);
     ("reset_options", VDict [("initial_power_level", VFloat (9 # 10))]);
     ("adversarial_noise",
      VDict [("active", VBool true);
             ("initial_magnitude", VFloat (5 # 100));
             ("final_magnitude", VFloat (15 # 100));
             ("bias_magnitude", VFloat 8)]);
     ("is_adversarial_drill", VBool true)]
    scenarios in
  let scenarios := dict_set "parameter_randomization_drills"
    [("description",
      VStr "RL Drill: Train against randomized physics for generalization.");
     ("load_profile_func", VFunc (constant_load load));
     ("max_steps", n400);
     ("is_domain_randomization_drill", VBool true);
     ("is_adversarial_drill", VBool true)]
    scenarios in
  let scenarios := dict_set "cascading_grid_fault_and_recovery"
    [("description",
      VStr "Adversarial Drill: A cascading grid fault followed by recovery demand.");
     ("load_profile_func",
      VFunc (multi_step_load_profile
               [(load, 0);
                (load * (8 # 10), 20);
                (load * (85 # 100), 120);
                (load * (105 # 100), 150)]));
     ("max_steps", n500);
     ("env_modifications",
      VList [VDict [("type", VStr "grid_power_imbalance");
                    ("imbalance_mw", VFloat 50);
                    ("start_time", VFloat 20);
                    ("end_time", VFloat 25)]]);
     ("is_adversarial_drill", VBool true)]
    scenarios in
  let load110 := load * (11 # 10) in
  eta90 <- mul eta_base (90 # 100) ;;
  let scenarios := dict_set "combined_challenge_final_exam"
    [("description",
      VStr "Final Exam: Compound failure with grid fault, component degradation, and noise.");
     ("load_profile_func", VFunc (step_load_change load load110 20));
     ("max_steps", n400);
     ("env_modifications",
      VList [VDict [("type", VStr "parameter_ramp");
                    ("parameter_path", VList [VStr "coupling"; VStr "eta_transfer"]);
                    ("start_value", eta_base);
                    ("end_value", VFloat eta90);
                    ("start_time", VFloat 50);
                    ("duration", VFloat 150)]]);
     ("adversarial_noise",
      VDict [("active", VBool true);
             ("initial_magnitude", VFloat (2 # 100));
             ("final_magnitude", VFloat (5 # 100));
             ("bias_magnitude", VFloat 2)]);
     ("is_adversarial_drill", VBool true)]
    scenarios in
  Ok scenarios.

(** The final loop: a scenario without [reset_options] gets an empty
    one. *)
Definition ensure_reset_options (scenarios : dict (dict value))
    : dict (dict value) :=
  map (fun entry : string * dict value =>
         let (name, config_dict) := entry in
         if dict_mem "reset_options" config_dict then (name, config_dict)
         else (name, dict_set "reset_options" (VDict []) config_dict))
      scenarios.

Definition get_scenarios (core_config : dict value)
    : outcome (dict (dict value)) :=
  match read_core_config core_config with
  | Raise KeyError => Ok []
  | Raise e => Raise e
  | NonFinite => NonFinite
  | Ok (sim_dt, initial_load_base, eta_base) =>
      scenarios <- scenario_definitions sim_dt initial_load_base eta_base ;;
      Ok (ensure_reset_options scenarios)
  end.

End Scenarios.

(* ================================================================= *)
(** ** controllers/base_controller.py *)

Module BaseController.

(** What [BaseController.__init__] stores. *)
Record t : Type := mk {
  config : dict value;
  dt : Q
}.

(** [isinstance(config, dict)]. *)
Definition is_mapping (v : value) : bool :=
  match v with VDict _ => true | _ => false end.

(** A mapping with at least one key. *)
Definition is_nonempty_mapping (v : value) : bool :=
  match v with VDict (_ :: _) => true | _ => false end.

(** The time step passes the guard
    [not isinstance(dt, (float, int)) or dt <= 0]: it is a [float] or an
    [int] (a [bool] is an [int]) and [dt <= 0] is false. *)
Definition is_positive_number (v : value) : bool :=
  match v with
  | VBool _ | VInt _ | VFloat _ =>
      match as_number v with
      | Some q => negb (Qleb q 0)
      | None => false
      end
  | _ => false
  end.

Definition init (config dt : value) : outcome t :=
  match config with
  | VDict d =>
      if is_positive_number dt then
        match as_number dt with
        | Some q => Ok {| config := d; dt := q |}
        | None => Raise ValueError
        end
      else Raise ValueError
  | _ => Raise TypeError
  end.

(** The constructor of a controller class: [super().__init__(config, dt)]
    first, then the body [rest] of the subclass. *)
Definition subclass_init {A : Type} (rest : t -> outcome A)
    (config dt : value) : outcome A :=
  base <- init config dt ;;
  rest base.

End BaseController.

(* ================================================================= *)
(** ** controllers/pid_controller.py *)

Module PIDController.

Local Open Scope string_scope.

Definition MEASUREMENT_OBS_INDEX : nat := 4.

Record t : Type := mk {
  config : dict value;
  dt : Q;
  kp : Q;
  ki : Q;
  kd : Q;
  setpoint : Q;
  output_min : Q;
  output_max : Q;
  deriv_filter_tau : Q;
  use_filter : bool;
  _integral : Q;
  _previous_error : Q;
  _derivative_state : Q
}.

Section WithParser.

(** The parser behind [float(s)] of a string [s] is not modelled: it is
    a parameter, which raises [ValueError] on an unparsable string. *)
Variable str_to_float : string -> outcome Q.

(** The builtin [float(v)]. *)
Definition float (v : value) : outcome Q :=
  match v with
  | VBool _ | VInt _ | VFloat _ =>
      match as_number v with
      | Some q => Ok q
      | None => Raise TypeError
      end
  | VStr s => str_to_float s
  | _ => Raise TypeError
  end.

(** [v[i]] for the integer literals [0] and [1].  The keys of a
    dictionary are strings, so an integer is never among them. *)
Definition getitem_int (v : value) (i : nat) : outcome value :=
  match v with
  | VList l =>
      match nth_error l i with
      | Some x => Ok x
      | None => Raise IndexError
      end
  | VStr s =>
      match String.get i s with
      | Some c => Ok (VStr (String c EmptyString))
      | None => Raise IndexError
      end
  | VDict _ => Raise KeyError
  | _ => Raise TypeError
  end.

(** [float(d.get(k, default))]. *)
Definition float_get (d : dict value) (k : string) (default : Q) : outcome Q :=
  match dict_get k d with
  | Some v => float v
  | None => Ok default
  end.

(** The body of [PIDController.__init__] after the call of the base
    constructor. *)
Definition init_body (base : BaseController.t) : outcome t :=
  let config := BaseController.config base in
  let dt := BaseController.dt base in
  kp <- float_get config "kp" (20 # 100) ;;
  ki <- float_get config "ki" (4 # 100) ;;
  kd <- float_get config "kd" (5 # 100) ;;
  setpoint <- float_get config "setpoint" 1800 ;;
  let output_limits :=
    match dict_get "output_limits" config with
    | Some v => v
    | None => VList [VFloat 0; VFloat 1]
    end in
  lo <- getitem_int output_limits 0 ;;
  output_min <- float lo ;;
  hi <- getitem_int output_limits 1 ;;
  output_max <- float hi ;;
  if Qleb output_max output_min then Raise ValueError
  else
    deriv_filter_tau <- float_get config "deriv_filter_tau" (5 # 100) ;;
    let use_filter :=
      if Qltb 0 dt then Qltb (dt * (15 # 10)) deriv_filter_tau else false in
    Ok {| config := config; dt := dt;
          kp := kp; ki := ki; kd := kd; setpoint := setpoint;
          output_min := output_min; output_max := output_max;
          deriv_filter_tau := deriv_filter_tau;
          use_filter := use_filter;
          _integral := 0;
          _previous_error := 0;
          _derivative_state := 0 |}.

Definition init (config dt : value) : outcome t :=
  BaseController.subclass_init init_body config dt.

(** [update_parameters] assigns [kp], [ki], [kd] in turn; a [float]
    that raises leaves the earlier assignments in place, so the object
    is returned together with the exception, if any.  A [float] that
    yields [inf] or [nan] is assigned like any other: the object then
    holds a gain that has no rational counterpart, and the result is
    [NonFinite]. *)
Definition with_gains (self : t) (kp' ki' kd' : Q) : t :=
  {| config := config self; dt := dt self;
     kp := kp'; ki := ki'; kd := kd'; setpoint := setpoint self;
     output_min := output_min self; output_max := output_max self;
     deriv_filter_tau := deriv_filter_tau self;
     use_filter := use_filter self;
     _integral := _integral self;
     _previous_error := _previous_error self;
     _derivative_state := _derivative_state self |}.

Definition update_parameters (self : t) (new_params : dict value)
    : outcome (t * option exn) :=
  match float_get new_params "kp" (kp self) with
  | Ok kp' =>
      match float_get new_params "ki" (ki self) with
      | Ok ki' =>
          match float_get new_params "kd" (kd self) with
          | Ok kd' => Ok (with_gains self kp' ki' kd', None)
          | Raise e => Ok (with_gains self kp' ki' (kd self), Some e)
          | NonFinite => NonFinite
          end
      | Raise e => Ok (with_gains self kp' (ki self) (kd self), Some e)
      | NonFinite => NonFinite
      end
  | Raise e => Ok (self, Some e)
  | NonFinite => NonFinite
  end.

End WithParser.

Definition with_state (self : t) (integral previous_error derivative_state : Q)
    : t :=
  {| config := config self; dt := dt self;
     kp := kp self; ki := ki self; kd := kd self; setpoint := setpoint self;
     output_min := output_min self; output_max := output_max self;
     deriv_filter_tau := deriv_filter_tau self;
     use_filter := use_filter self;
     _integral := integral;
     _previous_error := previous_error;
     _derivative_state := derivative_state |}.

Definition reset (self : t) : t := with_state self 0 0 0.

(** The [try] of [step] on a one-dimensional observation:
    [observation[4]], or the setpoint when the index is out of range. *)
Definition measurement (self : t) (observation : np.ndarray) : Q :=
  match nth_error observation MEASUREMENT_OBS_INDEX with
  | Some x => x
  | None => setpoint self
  end.

Definition error (self : t) (observation : np.ndarray) : Q :=
  setpoint self - measurement self observation.

(** [step] returns the new object state and the control output. *)
Definition step (self : t) (observation : np.ndarray) : outcome (t * Q) :=
  if Qleb (dt self) 0 then
    Ok (self, (5 # 10) * (output_max self + output_min self))
  else
    let error := error self observation in
    let p_term := kp self * error in
    raw_derivative <- Py.div (error - _previous_error self) (dt self) ;;
    ds <- (if use_filter self then
             d <- Py.div (raw_derivative - _derivative_state self)
                    (deriv_filter_tau self) ;;
             Ok (_derivative_state self + d * dt self)
           else Ok (_derivative_state self)) ;;
    let effective_derivative := if use_filter self then ds else raw_derivative in
    let d_term := kd self * effective_derivative in
    let output_before_i := p_term + d_term in
    let is_at_max_and_saturating :=
      Qleb (output_max self) output_before_i && Qltb 0 error in
    let is_at_min_and_saturating :=
      Qleb output_before_i (output_min self) && Qltb error 0 in
    let integral :=
      if negb is_at_max_and_saturating && negb is_at_min_and_saturating
      then _integral self + error * dt self
      else _integral self in
    let i_term := ki self * integral in
    let output_unclamped := p_term + i_term + d_term in
    let output_final :=
      np.clip output_unclamped (output_min self) (output_max self) in
    Ok (with_state self integral error ds, output_final).

Definition get_parameters (self : t) : dict value :=
  [("kp", VFloat (kp self)); ("ki", VFloat (ki self));
   ("kd", VFloat (kd self)); ("setpoint", VFloat (setpoint self))].

(** The calls a driver makes on a controller object. *)
Inductive call : Type :=
| CallStep (observation : np.ndarray)
| CallReset
| CallUpdate (new_params : dict value).

(** A sequence of calls; an exception of [update_parameters] is caught
    by the driver and the object kept as it is then, one of [step] ends
    the run.  Once [update_parameters] has stored an [inf] or [nan] gain
    the run is [NonFinite]. *)
Fixpoint calls (str_to_float : string -> outcome Q) (self : t)
    (cs : list call) : outcome t :=
  match cs with
  | [] => Ok self
  | CallStep observation :: rest =>
      r <- step self observation ;;
      calls str_to_float (fst r) rest
  | CallReset :: rest => calls str_to_float (reset self) rest
  | CallUpdate new_params :: rest =>
      r <- update_parameters str_to_float self new_params ;;
      calls str_to_float (fst r) rest
  end.

End PIDController.

(* ================================================================= *)
(** ** analysis/metrics_engine.py *)

Module MetricsEngine.

Local Open Scope string_scope.

(** A metric value: a finite float, an infinity or [np.nan]. *)
Inductive metric : Type :=
| NaN
| Inf (negative : bool)
| Num (q : Q).

Definition METRIC_KEYS : list string :=
  ["transient_severity_score"; "grid_load_following_index";
   "agility_response_time_index"; "integrated_thermal_margin_violation_c_s";
   "thermal_transient_burden"; "core_power_oscillation_index";
   "max_rotor_angle_deviation_rad"; "negative_damping_events";
   "control_policy_entropy";
   "max_overshoot_speed_pct"; "max_undershoot_speed_pct"; "iae_freq_hz_s";
   "ise_freq_hz_s";
   "time_over_fuel_temp_limit_s"; "time_over_speed_limit_s";
   "time_outside_freq_limit_s";
   "total_time_unsafe_s"; "max_fuel_temp_c"; "max_speed_rpm";
   "max_freq_deviation_hz";
   "min_freq_nadir_hz"; "control_effort_valve_abs_sum";
   "control_effort_valve_sq_sum";
   "valve_reversals"].

(** A pandas DataFrame: its columns by name, and the length of its
    index (a frame without columns may still have rows). *)
Record DataFrame : Type := mkDataFrame {
  columns : dict (list metric);
  index_len : nat
}.

(** [results_df.empty]: some axis has length zero. *)
Definition empty (df : DataFrame) : bool :=
  Nat.eqb (index_len df) 0 || Nat.eqb (List.length (columns df)) 0.

Record t : Type := mk {
  config : dict value;
  safety_limits : value
}.

Definition init (core_config : dict value) : t :=
  {| config := core_config;
     safety_limits :=
       match dict_get "safety_limits" core_config with
       | Some v => v
       | None => VDict []
       end |}.

(** [{key: np.nan for key in self.METRIC_KEYS}]. *)
Definition nan_metrics : dict metric :=
  fold_left (fun d key => dict_set key NaN d) METRIC_KEYS [].

(** The robustness check at the head of [calculate]. *)
Definition too_short (results_df : DataFrame) : bool :=
  empty results_df
  || negb (dict_mem "time_s" (columns results_df))
  || Nat.ltb (index_len results_df) 20.

(** What one statement of the [try] block does to one metric: assigns a
    value, leaves the metric alone (its guard was false), or raises. *)
Inductive effect : Type :=
| Assigned (v : metric)
| Skipped
| Raised (e : exn).

(** The metrics in the order the [try] block assigns them. *)
Definition ASSIGNMENTS : list string :=
  ["grid_load_following_index"; "agility_response_time_index";
   "integrated_thermal_margin_violation_c_s"; "thermal_transient_burden";
   "core_power_oscillation_index"; "max_rotor_angle_deviation_rad";
   "negative_damping_events"; "control_policy_entropy";
   "max_freq_deviation_hz"; "min_freq_nadir_hz"; "max_speed_rpm";
   "max_fuel_temp_c"; "max_overshoot_speed_pct"; "max_undershoot_speed_pct";
   "iae_freq_hz_s"; "ise_freq_hz_s"; "control_effort_valve_abs_sum";
   "control_effort_valve_sq_sum"; "valve_reversals";
   "transient_severity_score"; "time_over_fuel_temp_limit_s";
   "time_over_speed_limit_s"; "time_outside_freq_limit_s";
   "total_time_unsafe_s"].

Section WithKernels.

(** The numeric kernels (pandas selections, Simpson quadrature,
    standard deviation, histogram entropy) are not modelled: they are
    parameters, free to assign any value, to skip or to raise any
    exception.  [setup] stands for the reads at the head of the [try]
    block ([time], [dt], [f_nominal], [target_speed_rpm]); [kernel key]
    for the statement that computes [metrics[key]], which sees the
    engine, the frame, the scenario and the metrics assigned so far. *)
Variable setup : t -> DataFrame -> option exn.
Variable kernel :
  string -> t -> DataFrame -> dict value -> dict metric -> effect.

(** The statements of the [try] block, in order; the first exception
    ends the block. *)
Fixpoint assign_all (self : t) (results_df : DataFrame)
    (scenario_config : dict value) (keys : list string)
    (metrics : dict metric) : outcome (dict metric) :=
  match keys with
  | [] => Ok metrics
  | key :: rest =>
      match kernel key self results_df scenario_config metrics with
      | Assigned v =>
          assign_all self results_df scenario_config rest
            (dict_set key v metrics)
      | Skipped =>
          assign_all self results_df scenario_config rest metrics
      | Raised e => Raise e
      end
  end.

Definition try_block (self : t) (results_df : DataFrame)
    (scenario_config : dict value) (metrics : dict metric)
    : outcome (dict metric) :=
  match setup self results_df with
  | Some e => Raise e
  | None => assign_all self results_df scenario_config ASSIGNMENTS metrics
  end.

(** [except Exception] catches every member of [exn]. *)
Definition calculate (self : t) (results_df : DataFrame)
    (scenario_config : dict value) : outcome (dict metric) :=
  let metrics := nan_metrics in
  if too_short results_df then Ok metrics
  else
    match try_block self results_df scenario_config metrics with
    | Ok m => Ok m
    | Raise _ => Ok nan_metrics
    | NonFinite => Ok nan_metrics
    end.

End WithKernels.

(** Every value of the mapping is [np.nan]. *)
Definition all_nan (metrics : dict metric) : bool :=
  forallb (fun kv : string * metric =>
             match snd kv with NaN => true | _ => false end) metrics.

End MetricsEngine.

(* ================================================================= *)
(** ** Calls and special float values *)

Module PyCall.

(** Binding the arguments of a call to a function that has neither
    defaults nor [*args] or [**kwargs]: the positional arguments take the
    first parameters, every keyword must name one of the remaining
    parameters, once, and every remaining parameter must be named. *)
Definition accepts (parameters : list string) (positional : nat)
    (keywords : list string) : bool :=
  Nat.leb positional (List.length parameters)
  && forallb (fun k => key_in k (skipn positional parameters)) keywords
  && distinct keywords
  && forallb (fun p => key_in p keywords) (skipn positional parameters).

(** A call: the body runs when the arguments bind, and the call raises
    [TypeError] before it when they do not. *)
Definition call {A : Type} (parameters : list string) (positional : nat)
    (keywords : list string) (body : outcome A) : outcome A :=
  if accepts parameters positional keywords then body else Raise TypeError.

End PyCall.

Module PyFloat.

Import MetricsEngine.

(** Arithmetic on floats with the special values; rounding and overflow
    are not modelled. *)
Definition neg (a : metric) : metric :=
  match a with
  | NaN => NaN
  | Inf s => Inf (negb s)
  | Num x => Num (- x)
  end.

Definition add (a b : metric) : metric :=
  match a, b with
  | NaN, _ | _, NaN => NaN
  | Inf s, Inf t => if Bool.eqb s t then Inf s else NaN
  | Inf s, Num _ | Num _, Inf s => Inf s
  | Num x, Num y => Num (x + y)
  end.

Definition sub (a b : metric) : metric := add a (neg b).

Definition mul (a b : metric) : metric :=
  match a, b with
  | NaN, _ | _, NaN => NaN
  | Inf s, Inf t => Inf (xorb s t)
  | Inf s, Num x | Num x, Inf s =>
      if Qeq_bool x 0 then NaN else Inf (xorb s (Qltb x 0))
  | Num x, Num y => Num (x * y)
  end.

(** [a > q]. *)
Definition gt (a : metric) (q : Q) : bool :=
  match a with
  | NaN => false
  | Inf s => negb s
  | Num x => Qltb q x
  end.

(** [np.isfinite(a)]. *)
Definition isfinite (a : metric) : bool :=
  match a with Num _ => true | _ => false end.

End PyFloat.

(* ================================================================= *)
(** ** optimization_suite/optimization_utils.py *)

Module OptimizationUtils.

Local Open Scope string_scope.

(** [error_message]: a literal, or [str(e)] of a caught exception. *)
Inductive message : Type :=
| Text (s : string)
| OfException (e : exn).

Record output_results : Type := mkOutput {
  completed_successfully : bool;
  termination_reason : string;
  metrics : dict MetricsEngine.metric;
  raw_results_df : MetricsEngine.DataFrame;
  error_message : option message
}.

(** [pd.DataFrame()]. *)
Definition empty_frame : MetricsEngine.DataFrame :=
  {| MetricsEngine.columns := []; MetricsEngine.index_len := 0 |}.

(** The parameters of the function, in order. *)
Definition PARAMETERS : list string :=
  ["base_core_config"; "scenario_config"; "controller_name";
   "controller_instance"].

(** The parameters of [MetricsEngine.calculate] after [self]. *)
Definition CALCULATE_PARAMETERS : list string :=
  ["results_df"; "scenario_config"].

(** [MetricsEngine(v)] for an arbitrary value [v]: [__init__] calls
    [v.get]. *)
Definition metrics_engine_of (v : value) : outcome MetricsEngine.t :=
  match v with
  | VDict d => Ok (MetricsEngine.init d)
  | _ => Raise AttributeError
  end.

Section WithEnvironment.

(** The numeric kernels of the metrics engine, as before. *)
Variable setup : MetricsEngine.t -> MetricsEngine.DataFrame -> option exn.
Variable kernel :
  string -> MetricsEngine.t -> MetricsEngine.DataFrame -> dict value ->
  dict MetricsEngine.metric -> MetricsEngine.effect.

(** The controller object is of any class: [reset_controller] is the
    exception its [reset] raises, if it has one and it raises. *)
Variable reset_controller : option exn.

(** [ScenarioExecutor.execute] drives the plant environment
    ([environment/pwr_gym_env.py], which is not part of these sources):
    the frame it returns is a parameter, given the scenario library of
    the executor, the display name, the scenario and the controller
    name. *)
Variable execute :
  dict (dict value) -> value -> dict value -> string ->
  outcome MetricsEngine.DataFrame.

(** The [except Exception] branch, from the results [out] reached so
    far. *)
Definition failed (out : output_results) (e : exn) : output_results :=
  {| completed_successfully := false;
     termination_reason := "Exception during execution";
     metrics := metrics out;
     raw_results_df := raw_results_df out;
     error_message := Some (OfException e) |}.

(** What the [try] block leaves in [output_results]: the results
    together with the exception that ended the block, if any. *)
Definition try_block (base_core_config scenario_config : dict value)
    (controller_name : string) (out0 : output_results)
    : output_results * option exn :=
  let scenario_display_name :=
    match dict_get "name" scenario_config with
    | Some v => v
    | None => VStr "UnnamedScenario"
    end in
  (* ScenarioExecutor.__init__ reads the scenario library *)
  match Scenarios.get_scenarios base_core_config with
  | Raise e => (out0, Some e)
  | NonFinite => (out0, None)
  | Ok all_scenario_definitions =>
  match metrics_engine_of
          (match dict_get "metrics_config" base_core_config with
           | Some v => v
           | None => VDict []
           end) with
  | Raise e => (out0, Some e)
  | NonFinite => (out0, None)
  | Ok metrics_engine =>
  match reset_controller with
  | Some e => (out0, Some e)
  | None =>
  match execute all_scenario_definitions scenario_display_name
          scenario_config controller_name with
  | Raise e => (out0, Some e)
  | NonFinite => (out0, None)
  | Ok results_df =>
      let out1 :=
        {| completed_successfully := completed_successfully out0;
           termination_reason := termination_reason out0;
           metrics := metrics out0;
           raw_results_df := results_df;
           error_message := error_message out0 |} in
      if MetricsEngine.empty results_df
         || Nat.ltb (MetricsEngine.index_len results_df) 2
      then
        ({| completed_successfully := completed_successfully out1;
            termination_reason := "Insufficient Data / Early Failure";
            metrics := metrics out1;
            raw_results_df := raw_results_df out1;
            error_message := Some (Text "Simulation returned no valid data.") |},
         None)
      else
        (* metrics_engine.calculate(results_df, safety_limits, scenario_config) *)
        match PyCall.call CALCULATE_PARAMETERS 3 []
                (MetricsEngine.calculate setup kernel metrics_engine
                   results_df scenario_config) with
        | Raise e => (out1, Some e)
        | NonFinite => (out1, None)
        | Ok metrics_dict =>
            let unsafe :=
              match dict_get "total_time_unsafe_s" metrics_dict with
              | Some v => v
              | None => MetricsEngine.Num 0
              end in
            if PyFloat.gt unsafe (1 # 1000000) then
              ({| completed_successfully := false;
                  termination_reason := "Safety Limit Violation";
                  metrics := metrics_dict;
                  raw_results_df := raw_results_df out1;
                  error_message := error_message out1 |}, None)
            else
              ({| completed_successfully := true;
                  termination_reason := "Completed Nominally";
                  metrics := metrics_dict;
                  raw_results_df := raw_results_df out1;
                  error_message := error_message out1 |}, None)
        end
  end end end end.

(** [finally: return output_results]. *)
Definition run_single_sim_and_extract_detailed_metrics
    (base_core_config scenario_config : dict value) (controller_name : string)
    : output_results :=
  let out0 :=
    {| completed_successfully := false;
       termination_reason := "Unknown";
       metrics := [];
       raw_results_df := empty_frame;
       error_message := None |} in
  match try_block base_core_config scenario_config controller_name out0 with
  | (out, Some e) => failed out e
  | (out, None) => out
  end.

End WithEnvironment.

End OptimizationUtils.

(* ================================================================= *)
(** ** optimization_suite/pid_global_optimizer.py *)

Module PidGlobalOptimizer.

Local Open Scope string_scope.

Import MetricsEngine.

(** The keywords of the call of
    [run_single_sim_and_extract_detailed_metrics] in the objective. *)
Definition CALL_KEYWORDS : list string :=
  ["base_core_config"; "scenario_name"; "scenario_config";
   "controller_name"; "controller_instance"].

(** The head of the objective: [core_params] (it must have [get]) and
    the cost weights. *)
Definition read_config (full_base_config : dict value)
    : outcome (dict value * value) :=
  core_params <- getitem (VDict full_base_config) "CORE_PARAMETERS" ;;
  reporting <- get core_params "reporting" (VDict []) ;;
  criteria <- get reporting "comparison_criteria" (VDict []) ;;
  cost_weights <- get criteria "crs_metrics" (VDict []) ;;
  match core_params with
  | VDict d => Ok (d, cost_weights)
  | _ => Raise AttributeError
  end.

(** [dict(zip(param_names, map(float, params_vector)))]. *)
Fixpoint zip_params (param_names : list string) (params_vector : np.ndarray)
    (acc : dict value) : dict value :=
  match param_names, params_vector with
  | name :: names, x :: xs => zip_params names xs (dict_set name (VFloat x) acc)
  | _, _ => acc
  end.

(** [{**a, **b}]. *)
Definition merge (a b : dict value) : dict value :=
  fold_left (fun d kv => dict_set (fst kv) (snd kv) d) b a.

(** [v.copy()] followed by [{**copy, ...}]: a mapping is needed. *)
Definition copy_mapping (v : value) : outcome (dict value) :=
  match v with
  | VDict d => Ok d
  | VList _ => Raise TypeError
  | _ => Raise AttributeError
  end.

(** [metrics.get(key, default) * cost_weights.get(group, {}).get(key, w)];
    the weight must be a number. *)
Definition weighted (metrics : dict metric) (cost_weights : value)
    (group key : string) (default w : Q) : outcome metric :=
  g <- get cost_weights group (VDict []) ;;
  weight <- get g key (VFloat w) ;;
  x <- operand weight ;;
  Ok (PyFloat.mul
        (match dict_get key metrics with Some m => m | None => Num default end)
        (Num x)).

Section WithEnvironment.

Variable setup : MetricsEngine.t -> MetricsEngine.DataFrame -> option exn.
Variable kernel :
  string -> MetricsEngine.t -> MetricsEngine.DataFrame -> dict value ->
  dict MetricsEngine.metric -> MetricsEngine.effect.
Variable str_to_float : string -> outcome Q.

(** [ScenarioExecutor.execute] with a PID controller, as in
    [OptimizationUtils]. *)
Variable execute :
  PIDController.t -> dict (dict value) -> value -> dict value -> string ->
  outcome MetricsEngine.DataFrame.

(** The [try] block of the loop for one scenario: the cost to add, and
    whether the scenario counts as a failure. *)
Definition scenario_cost (core_params : dict value) (cost_weights : value)
    (current_pid_params : dict value) (scenario_name : string)
    (scenario_config : dict value) : outcome (metric * bool) :=
  controllers <- get (VDict core_params) "controllers" (VDict []) ;;
  pid <- get controllers "PID" (VDict []) ;;
  base_pid_config <- copy_mapping pid ;;
  let pid_instance_config := merge base_pid_config current_pid_params in
  simulation <- get (VDict core_params) "simulation" (VDict []) ;;
  sim_dt <- get simulation "dt" (VFloat (2 # 100)) ;;
  controller_instance <-
    PIDController.init str_to_float (VDict pid_instance_config) sim_dt ;;
  sim_results <-
    PyCall.call OptimizationUtils.PARAMETERS 0 CALL_KEYWORDS
      (Ok (OptimizationUtils.run_single_sim_and_extract_detailed_metrics
             setup kernel None (execute controller_instance)
             core_params scenario_config
             (String.append "PID_opt_" scenario_name))) ;;
  if negb (OptimizationUtils.completed_successfully sim_results)
     || match OptimizationUtils.metrics sim_results with
        | [] => true
        | _ => false
        end
  then Ok (Num 1000000, true)
  else
    let metrics := OptimizationUtils.metrics sim_results in
    c1 <- weighted metrics cost_weights "lower_is_better"
            "transient_severity_score" 10 (25 # 100) ;;
    c2 <- weighted metrics cost_weights "lower_is_better"
            "thermal_transient_burden" 100 (20 # 100) ;;
    c3 <- weighted metrics cost_weights "lower_is_better"
            "control_effort_valve_sq_sum" 1 (15 # 100) ;;
    c4 <- weighted metrics cost_weights "higher_is_better"
            "grid_load_following_index" 0 (30 # 100) ;;
    Ok (PyFloat.sub (PyFloat.add (PyFloat.add c1 c2) c3) c4, false).

(** The loop: an exception of the [try] block costs 1,000,000 and counts
    as a failure. *)
Fixpoint total_cost (core_params : dict value) (cost_weights : value)
    (current_pid_params : dict value) (scenarios_to_run : dict (dict value))
    (total : metric) (num_failures : nat) : metric * nat :=
  match scenarios_to_run with
  | [] => (total, num_failures)
  | (scenario_name, scenario_config) :: rest =>
      match scenario_cost core_params cost_weights current_pid_params
              scenario_name scenario_config with
      | Ok (cost, failure) =>
          total_cost core_params cost_weights current_pid_params rest
            (PyFloat.add total cost)
            (if failure then S num_failures else num_failures)
      | _ =>
          total_cost core_params cost_weights current_pid_params rest
            (PyFloat.add total (Num 1000000)) (S num_failures)
      end
  end.

Definition _pid_objective_function (params_vector : np.ndarray)
    (full_base_config : dict value) (scenarios_to_run : dict (dict value))
    (param_names : list string) : outcome Q :=
  cfg <- read_config full_base_config ;;
  let current_pid_params := zip_params param_names params_vector [] in
  let r := total_cost (fst cfg) (snd cfg) current_pid_params scenarios_to_run
             (Num 0) 0 in
  let total :=
    PyFloat.add (fst r) (Num (inject_Z (Z.of_nat (snd r)) * 500000)) in
  match total with
  | Num q => Ok q
  | _ => Ok 1000000000000
  end.

End WithEnvironment.

End PidGlobalOptimizer.

(* ================================================================= *)
(** ** analysis/parameter_manager.py *)

Module ParameterManager.

Local Open Scope string_scope.

(** [key in container] for a string [key]: a key of a mapping, an element
    of a sequence (only a string equals a string), a substring of a
    string; anything else is not iterable. *)
Definition contains (container : value) (key : string) : outcome bool :=
  match container with
  | VDict d => Ok (dict_mem key d)
  | VList l =>
      Ok (existsb (fun x => match x with
                            | VStr s => String.eqb s key
                            | _ => false
                            end) l)
  | VStr s =>
      Ok (match String.index 0 key s with Some _ => true | None => false end)
  | _ => Raise TypeError
  end.

Section WithEquality.

(** [a != b] on configuration values is Python's; it is a parameter. *)
Variable py_ne : value -> value -> bool.

(** One turn of the loop of [update_with_cli_args] on the target
    mapping. *)
Definition override (rl_params_target : dict value) (cli_key : string)
    (cli_value : value) : dict value :=
  match cli_value with
  | VNone => rl_params_target
  | _ =>
      match dict_get cli_key rl_params_target with
      | Some original_value =>
          if py_ne original_value cli_value
          then dict_set cli_key cli_value rl_params_target
          else rl_params_target
      | None => rl_params_target
      end
  end.

(** The loop on a target that is a mapping: it cannot raise. *)
Definition override_all (rl_params_target cli_args_dict : dict value)
    : dict value :=
  fold_left (fun target kv => override target (fst kv) (snd kv))
    cli_args_dict rl_params_target.

(** The loop on a target of another type: [in] may hold, and [get] is
    then missing; the target itself is never assigned. *)
Fixpoint probe (rl_params_target : value) (cli_args_dict : dict value)
    : outcome unit :=
  match cli_args_dict with
  | [] => Ok tt
  | (cli_key, cli_value) :: rest =>
      match cli_value with
      | VNone => probe rl_params_target rest
      | _ =>
          present <- contains rl_params_target cli_key ;;
          if present then Raise AttributeError
          else probe rl_params_target rest
      end
  end.

(** [update_with_cli_args] returns the parameters after the in-place
    update of [params['CORE_PARAMETERS']['rl_training_adv']]. *)
Definition update_with_cli_args (params cli_args_dict : dict value)
    : outcome (dict value) :=
  match dict_get "CORE_PARAMETERS" params with
  | None => Ok params
  | Some core =>
      present <- contains core "rl_training_adv" ;;
      if negb present then Ok params
      else
        rl_params_target <- getitem core "rl_training_adv" ;;
        match core, rl_params_target with
        | VDict core_d, VDict target =>
            Ok (dict_set "CORE_PARAMETERS"
                  (VDict (dict_set "rl_training_adv"
                            (VDict (override_all target cli_args_dict)) core_d))
                  params)
        | _, _ =>
            _ <- probe rl_params_target cli_args_dict ;;
            Ok params
        end
  end.

End WithEquality.

End ParameterManager.

(* ================================================================= *)
(** ** Point kinetics, as the design document words it

    These definitions follow the document, not the code: one forward
    (explicit) Euler step of the point-kinetics equations, every
    derivative evaluated at the state at the start of the step.  They are
    what [ReactorModel.step] is compared with. *)

Module PointKinetics.

(** The weighted sum of precursor decay, [sum of lambda_i * C_i]. *)
Fixpoint decay_sum (lambdas concentrations : list Q) : Q :=
  match lambdas, concentrations with
  | l :: ls, c :: cs => l * c + decay_sum ls cs
  | _, _ => 0
  end.

(** The power derivative: [((rho - beta_total) / Lambda) * P] plus the
    decay sum. *)
Definition power_derivative (m : ReactorModel.t) (rho : Q) : Q :=
  ((rho - ReactorModel.beta_total m) / ReactorModel.Lambda m)
    * ReactorModel.power_level m
  + decay_sum (ReactorModel.lambda_i m) (ReactorModel.precursor_concentrations m).

(** The derivative of one precursor group at power [P]: production
    [(beta_i / Lambda) * P] minus decay [lambda_i * C_i]. *)
Definition precursor_derivative (Lambda P beta lambda c : Q) : Q :=
  (beta / Lambda) * P - lambda * c.

(** One Euler step of every group, production taken at power [P]. *)
Fixpoint advance_precursors (Lambda P dt : Q) (betas lambdas cs : list Q)
    : list Q :=
  match betas, lambdas, cs with
  | b :: bs, l :: ls, c :: cs' =>
      (c + precursor_derivative Lambda P b l c * dt)
        :: advance_precursors Lambda P dt bs ls cs'
  | _, _, _ => []
  end.

(** The explicit Euler step: power and precursors advanced from the
    start-of-step state [m]. *)
Definition euler_power (m : ReactorModel.t) (dt rod_reactivity : Q) : Q :=
  ReactorModel.power_level m
  + power_derivative m (ReactorModel.total_reactivity m rod_reactivity) * dt.

Definition euler_precursors (m : ReactorModel.t) (dt : Q) : list Q :=
  advance_precursors (ReactorModel.Lambda m) (ReactorModel.power_level m) dt
    (ReactorModel.beta_i m) (ReactorModel.lambda_i m)
    (ReactorModel.precursor_concentrations m).

End PointKinetics.

(* ================================================================= *)
(** ** Invariants *)

(** What [ReactorModel.valid] gives, carried by the object through
    [reset] and [step], together with the shape of the precursor array. *)
Record reactor_wf (m : ReactorModel.t) : Prop := {
  wf_Lambda : Qeq_bool (ReactorModel.Lambda m) 0 = false;
  wf_C_f : Qeq_bool (ReactorModel.C_f m) 0 = false;
  wf_C_c : Qeq_bool (ReactorModel.C_c m) 0 = false;
  wf_groups : List.length (ReactorModel.beta_i m)
              = List.length (ReactorModel.lambda_i m);
  wf_precursors : List.length (ReactorModel.precursor_concentrations m)
                  = List.length (ReactorModel.lambda_i m);
  wf_P0 : 0 <= ReactorModel.P0 m
}.

(** What [PIDController.__init__] establishes and no method disturbs. *)
Record pid_inv (c : PIDController.t) : Prop := {
  inv_dt : 0 < PIDController.dt c;
  inv_limits : PIDController.output_min c < PIDController.output_max c;
  inv_tau : PIDController.use_filter c = true ->
            ~ PIDController.deriv_filter_tau c == 0
}.

(** The [reset_options] a scenario definition gives, if any, is a
    mapping. *)
Definition reset_options_is_mapping (definition : dict value) : Prop :=
  match dict_get "reset_options"%string definition with
  | Some (VDict _) | None => True
  | Some _ => False
  end.

(** A grid object running on the constant fallback profile that
    [GridModel.reset] installs. *)
Record grid_on_fallback (L : Q) (g : GridModel.t) : Prop := {
  fb_valid : GridModel.valid g = true;
  fb_profile : GridModel.load_profile_func g = Some (fun _ _ => Ok L);
  fb_demand : GridModel.current_demand g = L;
  fb_frequency : GridModel.frequency g == GridModel.omega_pu g * GridModel.f_nominal g
}.

(** The fields of a PID controller that only [__init__] writes. *)
Definition pid_frame (c : PIDController.t) :=
  (PIDController.config c, PIDController.dt c, PIDController.setpoint c,
   PIDController.output_min c, PIDController.output_max c,
   PIDController.deriv_filter_tau c, PIDController.use_filter c).

(** A scenario specification with the three entries every consumer
    reads: a description string, a load-profile function and an integer
    step budget. *)
Definition spec_has_required_fields (spec : dict value) : Prop :=
  (exists s, dict_get "description"%string spec = Some (VStr s))
  /\ (exists f, dict_get "load_profile_func"%string spec = Some (VFunc f))
  /\ (exists n, dict_get "max_steps"%string spec = Some (VInt n)).

(* ================================================================= *)
(** ** Concrete inputs *)

Module Examples.

(** A one-group core: beta 650 pcm, decay constant 0.08 1/s, prompt
    generation time 20 microseconds, 3000 MW nominal. *)
Definition reactor_params : ReactorModel.Params :=
  {| ReactorModel.p_beta_i := [65 # 10000];
     ReactorModel.p_lambda_i := [8 # 100];
     ReactorModel.p_Lambda := 2 # 100000;
     ReactorModel.p_beta_total := 65 # 10000;
     ReactorModel.p_alpha_f := - (2 # 100000);
     ReactorModel.p_alpha_c := - (1 # 10000);
     ReactorModel.p_C_f := 26;
     ReactorModel.p_C_c := 70;
     ReactorModel.p_Omega := 6;
     ReactorModel.p_P0 := 3000;
     ReactorModel.p_T_inlet := 290;
     ReactorModel.p_T_coolant0 := 3065 # 10;
     ReactorModel.p_T_fuel0 := 800 |}.

(** The core after [reset(1.0)]: power 1, precursors at equilibrium
    ([0.0065 / (0.08 * 0.00002) = 4062.5]), no temperature feedback. *)
Definition reactor_at_full_power : ReactorModel.t :=
  ReactorModel.with_state (ReactorModel.init reactor_params)
    1 [(65 # 10000) / ((8 # 100) * (2 # 100000)) * 1] (800 * 1) ((3065 # 10) * 1).

(** A grid at rest with a constant 3000 MW load. *)
Definition grid_at_rest : GridModel.t :=
  GridModel.reset (GridModel.init 4 1 60 3500) 3000.

Definition constant_3000 : GridModel.load_profile := fun time_s step => Ok 3000.

(** A core configuration with a 0.02 s time step and a 3000 MW load. *)
Definition core_config : dict value :=
  [("simulation"%string, VDict [("dt"%string, VFloat (2 # 100))]);
   ("initial_conditions"%string,
    VDict [("electrical_load_mw"%string, VFloat 3000)])].

Definition scenarios : dict (dict value) :=
  match Scenarios.get_scenarios core_config with
  | Ok s => s
  | _ => []
  end.

Definition sudden_spec : dict value :=
  match dict_get "sudden_load_increase_5pct"%string scenarios with
  | Some spec => spec
  | None => []
  end.

(** A configuration whose ['simulation'] mapping lacks ['dt']. *)
Definition config_without_dt : dict value :=
  [("simulation"%string, VDict [("duration"%string, VFloat 500)])].

(** No string is a number. *)
Definition no_parse : string -> outcome Q := fun _ => Raise ValueError.

(** [PIDController({'kp': 0.3}, 0.02)]. *)
Definition pid_config : value := VDict [("kp"%string, VFloat (3 # 10))].

Definition pid : PIDController.t :=
  {| PIDController.config := [("kp"%string, VFloat (3 # 10))];
     PIDController.dt := 2 # 100;
     PIDController.kp := 3 # 10;
     PIDController.ki := 4 # 100;
     PIDController.kd := 5 # 100;
     PIDController.setpoint := 1800;
     PIDController.output_min := 0;
     PIDController.output_max := 1;
     PIDController.deriv_filter_tau := 5 # 100;
     PIDController.use_filter := true;
     PIDController._integral := 0;
     PIDController._previous_error := 0;
     PIDController._derivative_state := 0 |}.

(** A full observation, a reset, a change of gains. *)
Definition pid_history : list PIDController.call :=
  [PIDController.CallStep [1; 1; 1; 1; 1790; 1; 1];
   PIDController.CallReset;
   PIDController.CallUpdate [("ki"%string, VFloat (1 # 10))]].

(** A turbine with a 0.5 s valve lag and a 0.3 s power lag, at 80 %
    valve opening. *)
Definition turbine : TurbineModel.t :=
  TurbineModel.reset (TurbineModel.init (98 # 100) None (3 # 10) (5 # 10) 1800)
    2800 (8 # 10).

(** A full observation, then a change of gains: the integral and the
    previous error are not zero afterwards. *)
Definition pid_driven_history : list PIDController.call :=
  [PIDController.CallStep [1; 1; 1; 1; 1790; 1; 1];
   PIDController.CallUpdate [("ki"%string, VFloat (1 # 10))]].

Definition pid_driven : PIDController.t :=
  match PIDController.calls no_parse pid pid_driven_history with
  | Ok c => c
  | _ => pid
  end.

(** The PID controller after its history of calls. *)
Definition pid_after_history : PIDController.t :=
  match PIDController.calls no_parse pid pid_history with
  | Ok c => c
  | _ => pid
  end.

(** A configuration whose time step is zero. *)
Definition config_zero_dt : dict value :=
  [("simulation"%string, VDict [("dt"%string, VFloat 0)])].

(** Kernels that assign nothing, and a frame of 20 rows with a time
    column. *)
Definition idle_setup : MetricsEngine.t -> MetricsEngine.DataFrame -> option exn :=
  fun _ _ => None.

Definition idle_kernel :
  string -> MetricsEngine.t -> MetricsEngine.DataFrame -> dict value ->
  dict MetricsEngine.metric -> MetricsEngine.effect :=
  fun _ _ _ _ _ => MetricsEngine.Skipped.

Definition frame_20 : MetricsEngine.DataFrame :=
  {| MetricsEngine.columns :=
       [("time_s"%string, repeat (MetricsEngine.Num 0) 20)];
     MetricsEngine.index_len := 20 |}.

(** An executor that returns the 20-row frame. *)
Definition execute_20 :
  PIDController.t -> dict (dict value) -> value -> dict value -> string ->
  outcome MetricsEngine.DataFrame :=
  fun _ _ _ _ _ => Ok frame_20.

(** A full configuration around [core_config]. *)
Definition full_config : dict value :=
  [("CORE_PARAMETERS"%string, VDict core_config)].

(** Parameters with an RL section, and CLI arguments: one override, one
    [None], one unknown key. *)
Definition rl_section : dict value :=
  [("total_timesteps"%string, VInt 1000); ("seed"%string, VInt 7)].

Definition manager_params : dict value :=
  [("CORE_PARAMETERS"%string,
    VDict [("rl_training_adv"%string, VDict rl_section)])].

Definition cli_args : dict value :=
  [("total_timesteps"%string, VInt 5000); ("seed"%string, VNone);
   ("verbose"%string, VBool true)].

(** Values differ unless they are the same integer. *)
Definition int_ne (a b : value) : bool :=
  match a, b with
  | VInt x, VInt y => negb (Z.eqb x y)
  | _, _ => true
  end.

End Examples.

(* ================================================================= *)
(** * Properties *)

(** ** Comparisons and outcomes *)

Lemma Qltb_lt (a b : Q) : Qltb a b = true <-> a < b.
Proof.
  unfold Qltb. rewrite Qlt_alt. destruct (a ?= b); split; congruence.
Qed.

Lemma Qltb_ge (a b : Q) : Qltb a b = false <-> b <= a.
Proof.
  unfold Qltb. rewrite Qle_alt, <- Qgt_alt, Qlt_alt.
  destruct (a ?= b); split; congruence.
Qed.

Lemma Qleb_le (a b : Q) : Qleb a b = true <-> a <= b.
Proof.
  unfold Qleb. rewrite Qle_alt. destruct (a ?= b); split; congruence.
Qed.

Lemma Qleb_gt (a b : Q) : Qleb a b = false <-> b < a.
Proof.
  unfold Qleb. rewrite (Qgt_alt a b).
  destruct (a ?= b); split; congruence.
Qed.

Lemma Qeq_bool_false (a b : Q) : Qeq_bool a b = false <-> ~ a == b.
Proof.
  split.
  - intros H E. apply Qeq_bool_iff in E. congruence.
  - intros H. destruct (Qeq_bool a b) eqn:E; [|reflexivity].
    apply Qeq_bool_iff in E. contradiction.
Qed.

Lemma py_div_ok (a b : Q) : Qeq_bool b 0 = false -> Py.div a b = Ok (a / b).
Proof. intros H. unfold Py.div. now rewrite H. Qed.

Lemma py_max_lower (a b : Q) : a <= Py.max a b.
Proof.
  unfold Py.max. destruct (Qltb a b) eqn:E.
  - apply Qltb_lt in E. lra.
  - lra.
Qed.

(** ** numpy on operands of one shape *)

Lemma zip_with_length f (a b : np.ndarray) :
  List.length a = List.length b ->
  List.length (np.zip_with f a b) = List.length a.
Proof.
  revert b. induction a as [|x a IH]; intros [|y b] H; simpl in *;
    try discriminate; auto.
Qed.

Lemma broadcast_same f (a b : np.ndarray) :
  List.length a = List.length b ->
  np.broadcast f a b = Ok (np.zip_with f a b).
Proof.
  intros H. unfold np.broadcast. now rewrite H, Nat.eqb_refl.
Qed.

Lemma iadd_same (a b : np.ndarray) :
  List.length a = List.length b ->
  np.iadd a b = Ok (np.zip_with Qplus a b).
Proof.
  intros H. unfold np.iadd. now rewrite H, Nat.eqb_refl.
Qed.

Lemma scale_length (a : np.ndarray) k :
  List.length (np.scale a k) = List.length a.
Proof. apply length_map. Qed.

Lemma div_scalar_ok (a : np.ndarray) k :
  Qeq_bool k 0 = false ->
  np.div_scalar a k = Ok (map (fun x => x / k) a).
Proof.
  intros H. unfold np.div_scalar. rewrite H. now destruct a.
Qed.

(** ** The reactor *)

Lemma step_total (m : ReactorModel.t) (dt rod : Q) :
  reactor_wf m ->
  exists m' out,
    ReactorModel.step m dt rod = Ok (m', out)
    /\ reactor_wf m'
    /\ 0 <= ReactorModel.power_level m'
    /\ out == ReactorModel.power_level m' * ReactorModel.P0 m'.
Proof.
  intros [HL Hf Hc Hg Hp HP].
  unfold ReactorModel.step, ReactorModel.dp_dt, ReactorModel.dc_dt, np.mul, np.sub.
  rewrite (broadcast_same _ _ _ (eq_sym Hp)). cbn [Py.bind].
  rewrite (py_div_ok _ _ HL). cbn [Py.bind].
  rewrite (div_scalar_ok _ _ HL). cbn [Py.bind].
  rewrite broadcast_same.
  2:{ rewrite scale_length, length_map, zip_with_length; auto. }
  cbn [Py.bind].
  rewrite iadd_same.
  2:{ rewrite scale_length, zip_with_length.
      - rewrite scale_length, length_map. congruence.
      - rewrite scale_length, length_map, zip_with_length; auto. }
  cbn [Py.bind].
  rewrite (py_div_ok _ _ Hf), (py_div_ok _ _ Hc). cbn [Py.bind].
  eexists _, _. split; [reflexivity|].
  split; [|split].
  - constructor; simpl; auto.
    rewrite zip_with_length; auto.
    rewrite scale_length, zip_with_length.
    + rewrite scale_length, length_map. congruence.
    + rewrite scale_length, length_map, zip_with_length; auto.
  - simpl. apply py_max_lower.
  - simpl. reflexivity.
Qed.

Lemma zip_with_second (a b : np.ndarray) :
  List.length a = List.length b -> np.zip_with (fun _ y => y) a b = b.
Proof.
  revert b. induction a as [|x a IH]; intros [|y b] H; simpl in *;
    try discriminate; auto.
  f_equal. apply IH. congruence.
Qed.

Lemma scaled_divisors_nonzero (l : np.ndarray) (k : Q) :
  Qeq_bool k 0 = false ->
  forallb (fun x => negb (Qeq_bool x 0)) l = true ->
  existsb (fun y => Qeq_bool y 0) (np.scale l k) = false.
Proof.
  intros Hk. induction l as [|x l IH]; simpl; intros H; [reflexivity|].
  apply andb_true_iff in H. destruct H as [Hx Hl].
  rewrite (IH Hl), orb_false_r.
  apply Qeq_bool_false. intros E.
  apply Qmult_integral in E. destruct E as [E|E].
  - apply negb_true_iff, Qeq_bool_false in Hx. contradiction.
  - apply Qeq_bool_false in Hk. contradiction.
Qed.

Lemma valid_fields (params : ReactorModel.Params) :
  ReactorModel.valid params = true ->
  Qeq_bool (ReactorModel.p_Lambda params) 0 = false
  /\ Qeq_bool (ReactorModel.p_C_f params) 0 = false
  /\ Qeq_bool (ReactorModel.p_C_c params) 0 = false
  /\ List.length (ReactorModel.p_beta_i params)
     = List.length (ReactorModel.p_lambda_i params)
  /\ forallb (fun l => negb (Qeq_bool l 0)) (ReactorModel.p_lambda_i params) = true
  /\ 0 <= ReactorModel.p_P0 params.
Proof.
  unfold ReactorModel.valid. intros H.
  repeat (apply andb_true_iff in H; destruct H as [H ?]).
  repeat split; try (now apply negb_true_iff); auto.
  - now apply Nat.eqb_eq.
  - now apply Qleb_le.
Qed.

Lemma reset_total (params : ReactorModel.Params) (ipf : Q) :
  ReactorModel.valid params = true ->
  exists m,
    ReactorModel.reset (ReactorModel.init params) ipf = Ok m
    /\ reactor_wf m
    /\ ReactorModel.power_level m = ipf.
Proof.
  intros H. destruct (valid_fields _ H) as (HL & Hf & Hc & Hg & Hl & HP).
  unfold ReactorModel.reset. cbn [ReactorModel.init ReactorModel.Lambda
    ReactorModel.beta_i ReactorModel.lambda_i ReactorModel.precursor_concentrations].
  destruct (Qltb _ _).
  - unfold np.div.
    rewrite !broadcast_same by (now rewrite scale_length).
    cbn [Py.bind].
    rewrite zip_with_second by (now rewrite scale_length).
    rewrite (scaled_divisors_nonzero _ _ HL Hl).
    eexists. split; [reflexivity|]. split; [|reflexivity].
    constructor; simpl; auto.
    rewrite scale_length, zip_with_length; rewrite ?scale_length; auto.
  - eexists. split; [reflexivity|]. split; [|reflexivity].
    constructor; simpl; auto.
    unfold np.zeros_like. now rewrite !length_map.
Qed.

Lemma steps_total (inputs : list (Q * Q)) :
  forall m, reactor_wf m -> 0 <= ReactorModel.power_level m ->
  exists m' outs,
    ReactorModel.steps m inputs = Ok (m', outs)
    /\ 0 <= ReactorModel.power_level m'
    /\ Forall (fun out => 0 <= out) outs.
Proof.
  induction inputs as [|[dt rod] rest IH]; intros m Hwf Hp.
  - exists m, []. simpl. auto.
  - destruct (step_total m dt rod Hwf) as (m1 & out & E & Hwf1 & Hp1 & Hout).
    destruct (IH m1 Hwf1 Hp1) as (m2 & outs & E2 & Hp2 & Houts).
    exists m2, (out :: outs). simpl. rewrite E. cbn [Py.bind fst snd].
    rewrite E2. cbn [Py.bind fst snd]. split; [reflexivity|].
    split; [assumption|]. constructor; [|assumption].
    rewrite Hout. apply Qmult_le_0_compat; [assumption|].
    apply (wf_P0 _ Hwf1).
Qed.

(** C1.  For every valid reactor configuration, every non-negative
    initial power fraction and every sequence of [(dt, rod_reactivity)]
    inputs (of any sign, in particular every [dt > 0]), the run [reset]
    followed by one [step] per input completes, the power fraction stored
    at its end is non-negative, and so is every thermal power returned on
    the way.  Every prefix of a run is a run, so this holds after any
    number of steps. *)
Theorem reactor_power_nonneg (params : ReactorModel.Params)
    (initial_power_fraction : Q) (inputs : list (Q * Q)) :
  ReactorModel.valid params = true ->
  0 <= initial_power_fraction ->
  exists m outs,
    ReactorModel.run params initial_power_fraction inputs = Ok (m, outs)
    /\ 0 <= ReactorModel.power_level m
    /\ Forall (fun out => 0 <= out) outs.
Proof.
  intros Hv Hp.
  destruct (reset_total params initial_power_fraction Hv) as (m0 & E & Hwf & Hp0).
  unfold ReactorModel.run. rewrite E. cbn [Py.bind].
  apply steps_total; [assumption|]. now rewrite Hp0.
Qed.

(** ** The grid *)

Lemma py_div_nonzero (a b : Q) : ~ b == 0 -> Py.div a b = Ok (a / b).
Proof. intros H. apply py_div_ok. now apply Qeq_bool_false. Qed.

(** C4.  In a grid object whose divisors [S_base] and [2 * H] are not
    zero, whose per-unit speed is 1 and which is handed a mechanical power
    equal to the demand its active load profile returns at that call: the
    per-unit speed derivative [step] computes is 0, [step] completes, and
    afterwards the per-unit speed is still 1 and the frequency is the
    nominal frequency. *)
Theorem grid_swing_equilibrium (g : GridModel.t) (f : GridModel.load_profile)
    (dt mechanical_power_mw time_s : Q) (step_num : Z) (demand_mw : Q) :
  GridModel.valid g = true ->
  GridModel.load_profile_func g = Some f ->
  f time_s step_num = Ok demand_mw ->
  GridModel.omega_pu g == 1 ->
  mechanical_power_mw == demand_mw ->
  (exists d,
     GridModel.d_omega_pu_dt g mechanical_power_mw demand_mw = Ok d
     /\ d == 0)
  /\ exists g',
       GridModel.step g dt mechanical_power_mw time_s step_num = Ok g'
       /\ GridModel.omega_pu g' == 1
       /\ GridModel.frequency g' == GridModel.f_nominal g'.
Proof.
  intros Hv Hf Hd Hw Hm.
  unfold GridModel.valid in Hv. apply andb_true_iff in Hv.
  destruct Hv as [HS HH].
  apply negb_true_iff in HS, HH.
  assert (HS' : ~ GridModel.S_base g == 0) by now apply Qeq_bool_false.
  assert (Hz : exists d,
     GridModel.d_omega_pu_dt g mechanical_power_mw demand_mw = Ok d
     /\ d == 0).
  { unfold GridModel.d_omega_pu_dt.
    rewrite !(py_div_ok _ _ HS), (py_div_ok _ _ HH). cbn [Py.bind].
    eexists. split; [reflexivity|].
    rewrite Hw, Hm. field. split; [exact HS'|].
    apply Qeq_bool_false in HH. intros E. apply HH. rewrite E. ring. }
  split; [exact Hz|].
  destruct Hz as (d & Ed & Hd0).
  unfold GridModel.step, GridModel.demand. rewrite Hf, Hd. cbn [Py.bind].
  rewrite Ed. cbn [Py.bind].
  eexists. split; [reflexivity|]. simpl. rewrite Hd0, Hw. split; ring.
Qed.

(** ** The inner regulator *)

Lemma clip_bounds (x lo hi : Q) :
  lo <= hi -> lo <= np.clip x lo hi /\ np.clip x lo hi <= hi.
Proof.
  intros H. unfold np.clip.
  destruct (Qltb x lo) eqn:E1.
  - destruct (Qltb hi lo) eqn:E2.
    + apply Qltb_lt in E2. lra.
    + lra.
  - apply Qltb_ge in E1.
    destruct (Qltb hi x) eqn:E2.
    + lra.
    + apply Qltb_ge in E2. lra.
Qed.

(** C5.  Whatever the time step, the setpoint, the stored integral and the
    moderator temperature, the rod reactivity [ReactorController.step]
    returns lies in [[-0.005, 0.005]]. *)
Theorem reactor_controller_output_clamped (dt setpoint integral temp : Q) :
  let c := ReactorController.with_integral
             (ReactorController.reset (ReactorController.init dt) setpoint)
             integral in
  - (5 # 1000) <= snd (ReactorController.step c temp)
  /\ snd (ReactorController.step c temp) <= 5 # 1000.
Proof.
  intros c. unfold ReactorController.step.
  destruct (Qleb _ _).
  - simpl. lra.
  - cbn [snd]. apply clip_bounds. simpl. lra.
Qed.

(** ** The kinetics update of the reactor *)

Lemma well_formed_wf (m : ReactorModel.t) :
  ReactorModel.well_formed m = true -> reactor_wf m.
Proof.
  unfold ReactorModel.well_formed. intros H.
  repeat (apply andb_true_iff in H; destruct H as [H ?]).
  match goal with
  | HP : Qleb _ _ = true, Hc : (_ =? _)%nat = true, Hg : (_ =? _)%nat = true |- _ =>
      apply Qleb_le in HP; apply Nat.eqb_eq in Hc, Hg
  end.
  constructor; try (now apply negb_true_iff); assumption.
Qed.

Lemma fold_sum_acc (xs : list Q) (a : Q) :
  fold_left Qplus xs a == a + fold_left Qplus xs 0.
Proof.
  revert a. induction xs as [|x xs IH]; intros a; simpl.
  - ring.
  - rewrite (IH (a + x)), (IH (0 + x)). ring.
Qed.

Lemma np_sum_decay (ls cs : list Q) :
  np.sum (np.zip_with Qmult ls cs) == PointKinetics.decay_sum ls cs.
Proof.
  unfold np.sum. revert cs.
  induction ls as [|l ls IH]; intros [|c cs]; simpl; try reflexivity.
  rewrite fold_sum_acc, IH. ring.
Qed.

Lemma step_precursors (L P dt : Q) (bs ls cs : list Q) :
  np.zip_with Qplus cs
    (np.scale
       (np.zip_with Qminus (np.scale (map (fun x => x / L) bs) P)
          (np.zip_with Qmult ls cs)) dt)
  = PointKinetics.advance_precursors L P dt bs ls cs.
Proof.
  revert ls cs. induction bs as [|b bs IH]; intros [|l ls] [|c cs];
    simpl; try reflexivity.
  f_equal. apply IH.
Qed.

Lemma advance_precursors_power (L P P' dt : Q) (bs ls cs : list Q) :
  P == P' ->
  Forall2 Qeq (PointKinetics.advance_precursors L P dt bs ls cs)
              (PointKinetics.advance_precursors L P' dt bs ls cs).
Proof.
  intros E. revert ls cs. induction bs as [|b bs IH]; intros [|l ls] [|c cs];
    simpl; try constructor.
  - unfold PointKinetics.precursor_derivative. rewrite E. reflexivity.
  - apply IH.
Qed.

Lemma py_max_eq (a b b' : Q) : b == b' -> Py.max a b == Py.max a b'.
Proof.
  intros E. unfold Py.max.
  destruct (Qltb a b) eqn:E1, (Qltb a b') eqn:E2;
    try apply Qltb_lt in E1; try apply Qltb_lt in E2;
    try apply Qltb_ge in E1; try apply Qltb_ge in E2; lra.
Qed.

(** C3, as amended.  On a well-formed reactor object [step] completes;
    the power it stores is the forward Euler value (the power derivative
    taken at the start-of-step state) clamped at 0 from below; every
    precursor group is advanced by [dt] times its derivative, production
    taken at the already advanced, unclamped power and decay at the
    start-of-step concentration. *)
Theorem reactor_kinetics_update (m : ReactorModel.t) (dt rod_reactivity : Q) :
  ReactorModel.well_formed m = true ->
  exists m' out,
    ReactorModel.step m dt rod_reactivity = Ok (m', out)
    /\ ReactorModel.power_level m'
       == Py.max 0 (PointKinetics.euler_power m dt rod_reactivity)
    /\ Forall2 Qeq (ReactorModel.precursor_concentrations m')
         (PointKinetics.advance_precursors (ReactorModel.Lambda m)
            (PointKinetics.euler_power m dt rod_reactivity) dt
            (ReactorModel.beta_i m) (ReactorModel.lambda_i m)
            (ReactorModel.precursor_concentrations m)).
Proof.
  intros Hwf. apply well_formed_wf in Hwf.
  destruct Hwf as [HL Hf Hc Hg Hp HP].
  unfold ReactorModel.step, ReactorModel.dp_dt, ReactorModel.dc_dt, np.mul, np.sub.
  rewrite (broadcast_same _ _ _ (eq_sym Hp)). cbn [Py.bind].
  rewrite (py_div_ok _ _ HL). cbn [Py.bind].
  rewrite (div_scalar_ok _ _ HL). cbn [Py.bind].
  rewrite broadcast_same
    by (rewrite scale_length, length_map, zip_with_length; auto).
  cbn [Py.bind].
  rewrite iadd_same.
  2:{ rewrite scale_length, zip_with_length.
      - rewrite scale_length, length_map. congruence.
      - rewrite scale_length, length_map, zip_with_length; auto. }
  cbn [Py.bind].
  rewrite (py_div_ok _ _ Hf), (py_div_ok _ _ Hc). cbn [Py.bind].
  eexists _, _. split; [reflexivity|].
  assert (E : ReactorModel.power_level m
      + ((ReactorModel.total_reactivity m rod_reactivity - ReactorModel.beta_total m)
           / ReactorModel.Lambda m * ReactorModel.power_level m
         + np.sum (np.zip_with Qmult (ReactorModel.lambda_i m)
                     (ReactorModel.precursor_concentrations m))) * dt
      == PointKinetics.euler_power m dt rod_reactivity).
  { unfold PointKinetics.euler_power, PointKinetics.power_derivative.
    rewrite np_sum_decay. reflexivity. }
  cbn [ReactorModel.power_level ReactorModel.precursor_concentrations
       ReactorModel.with_state].
  split.
  - apply py_max_eq. exact E.
  - rewrite step_precursors. apply advance_precursors_power. exact E.
Qed.

(** C3 as stated fails.  From the core at full power, one step of 0.02 s
    with the rod reactivity at -0.005: the forward Euler power is -4 and
    the stored one 0; the forward Euler precursor concentration stays at
    4062.5 (production and decay balance at the start of the step) and the
    stored one is 4030. *)
Lemma kinetics_step_not_explicit_euler :
  exists m' out,
    ReactorModel.step Examples.reactor_at_full_power (2 # 100) (- (5 # 1000))
      = Ok (m', out)
    /\ PointKinetics.euler_power Examples.reactor_at_full_power
         (2 # 100) (- (5 # 1000)) == - (4)
    /\ ReactorModel.power_level m' == 0
    /\ Forall2 Qeq
         (PointKinetics.euler_precursors Examples.reactor_at_full_power (2 # 100))
         [40625 # 10]
    /\ Forall2 Qeq (ReactorModel.precursor_concentrations m') [4030]
    /\ ~ (ReactorModel.power_level m'
          == PointKinetics.euler_power Examples.reactor_at_full_power
               (2 # 100) (- (5 # 1000)))
    /\ ~ Forall2 Qeq (ReactorModel.precursor_concentrations m')
           (PointKinetics.euler_precursors Examples.reactor_at_full_power (2 # 100)).
Proof.
  remember (ReactorModel.step Examples.reactor_at_full_power
              (2 # 100) (- (5 # 1000))) as r eqn:Er.
  vm_compute in Er. subst r.
  eexists _, _. split; [reflexivity|].
  cbn [ReactorModel.power_level ReactorModel.precursor_concentrations].
  split; [vm_compute; reflexivity|].
  split; [vm_compute; reflexivity|].
  split; [apply Forall2_cons; [vm_compute; reflexivity | apply Forall2_nil]|].
  split; [apply Forall2_cons; [vm_compute; reflexivity | apply Forall2_nil]|].
  split.
  - intros E. vm_compute in E. discriminate E.
  - intros E. inversion E as [|? ? ? ? E1 _]; subst.
    vm_compute in E1. discriminate E1.
Qed.

(** ** The scenario library *)

Lemma dict_get_set_same {V : Type} (k : string) (v : V) (d : dict V) :
  dict_get k (dict_set k v d) = Some v.
Proof.
  induction d as [|[k' v'] d IH]; simpl.
  - now rewrite String.eqb_refl.
  - destruct (String.eqb k k') eqn:E; simpl; rewrite E; auto.
Qed.

Lemma steps_for_ok (n : Q) (sim_dt : value) (d : Q) :
  as_number sim_dt = Some d -> ~ d == 0 ->
  Scenarios.steps_for n sim_dt = Ok (VInt (Py.int (n / d))).
Proof.
  intros Hd Hz. unfold Scenarios.steps_for, rdiv, operand. rewrite Hd.
  cbn [Py.bind]. now rewrite (py_div_nonzero _ _ Hz).
Qed.

(** With a usable time step and numeric base values the assignments of
    [get_scenarios] all complete. *)
Lemma scenario_definitions_ok (sim_dt initial_load_base eta_base : value)
    (d L e : Q) :
  as_number sim_dt = Some d -> ~ d == 0 ->
  as_number initial_load_base = Some L ->
  as_number eta_base = Some e ->
  exists scenarios,
    Scenarios.scenario_definitions sim_dt initial_load_base eta_base = Ok scenarios
    /\ exists description max_steps,
         dict_get "sudden_load_increase_5pct"%string scenarios
         = Some [("description"%string, description);
                 ("load_profile_func"%string,
                  VFunc (Scenarios.step_load_change L (L * (105 # 100)) 20));
                 ("max_steps"%string, max_steps)].
Proof.
  intros Hd Hz HL He. unfold Scenarios.scenario_definitions.
  rewrite !(steps_for_ok _ _ _ Hd Hz). unfold mul, operand.
  rewrite HL, He. cbn [Py.bind].
  eexists. split; [reflexivity|].
  eexists _, _. reflexivity.
Qed.

Lemma dict_get_in {V : Type} (k : string) (v : V) (d : dict V) :
  dict_get k d = Some v -> In (k, v) d.
Proof.
  induction d as [|[k' v'] d IH]; simpl; [discriminate|].
  destruct (String.eqb k k') eqn:E.
  - apply String.eqb_eq in E. intros [= ->]. left. now subst.
  - intros H. right. auto.
Qed.

Lemma ensure_reset_options_get (name : string) (scenarios : dict (dict value)) :
  dict_get name (Scenarios.ensure_reset_options scenarios)
  = match dict_get name scenarios with
    | Some definition =>
        Some (if dict_mem "reset_options"%string definition then definition
              else dict_set "reset_options"%string (VDict []) definition)
    | None => None
    end.
Proof.
  induction scenarios as [|[k definition] rest IH]; [reflexivity|].
  unfold Scenarios.ensure_reset_options in *. cbn [map].
  destruct (dict_mem _ definition) eqn:E; cbn [dict_get];
    destruct (String.eqb name k); auto; now rewrite E.
Qed.

Lemma definitions_reset_options (sim_dt initial_load_base eta_base : value)
    (scenarios : dict (dict value)) :
  Scenarios.scenario_definitions sim_dt initial_load_base eta_base = Ok scenarios ->
  Forall (fun entry => reset_options_is_mapping (snd entry)) scenarios.
Proof.
  unfold Scenarios.scenario_definitions.
  destruct (Scenarios.steps_for 500 sim_dt); try discriminate.
  destruct (mul initial_load_base _); try discriminate.
  destruct (operand initial_load_base); try discriminate.
  destruct (Scenarios.steps_for 400 sim_dt); try discriminate.
  destruct (Scenarios.steps_for 300 sim_dt); try discriminate.
  destruct (Scenarios.steps_for 1800 sim_dt); try discriminate.
  destruct (mul eta_base _); try discriminate.
  cbn [Py.bind]. intros [= <-].
  repeat constructor.
Qed.

(** C7.  When [core_config] yields a non-zero numeric time step and
    numeric base values, [get_scenarios] returns a library holding
    ['sudden_load_increase_5pct'], whose load profile returns the initial
    load [L] at every time before 20 s and [1.05 * L] at every time from
    20 s on, whatever the step index. *)
Theorem sudden_load_increase_profile (core_config : dict value)
    (sim_dt initial_load_base eta_base : value) (d L e : Q) :
  Scenarios.read_core_config core_config = Ok (sim_dt, initial_load_base, eta_base) ->
  as_number sim_dt = Some d -> ~ d == 0 ->
  as_number initial_load_base = Some L ->
  as_number eta_base = Some e ->
  exists scenarios spec f,
    Scenarios.get_scenarios core_config = Ok scenarios
    /\ dict_get "sudden_load_increase_5pct"%string scenarios = Some spec
    /\ dict_get "load_profile_func"%string spec = Some (VFunc f)
    /\ forall (time_s : Q) (step : Z),
         (time_s < 20 -> f time_s step = Ok L)
         /\ (20 <= time_s -> f time_s step = Ok (L * (105 # 100))).
Proof.
  intros Hr Hd Hz HL He.
  destruct (scenario_definitions_ok _ _ _ d L e Hd Hz HL He)
    as (defined & Edef & description & max_steps & Eget).
  unfold Scenarios.get_scenarios. rewrite Hr, Edef. cbn [Py.bind].
  eexists _, _, _. split; [reflexivity|].
  rewrite ensure_reset_options_get, Eget.
  split; [reflexivity|]. split; [reflexivity|].
  intros time_s step. unfold Scenarios.step_load_change. split; intros Ht.
  - destruct (Qleb 20 time_s) eqn:E; [|reflexivity].
    apply Qleb_le in E. lra.
  - apply Qleb_le in Ht. now rewrite Ht.
Qed.

(** C8.  Every scenario specification [get_scenarios] returns binds
    ['reset_options'] to a mapping, and to the empty one when the
    definition of the scenario (the dictionary assigned under its name
    before the final loop) has no such key. *)
Theorem scenarios_carry_reset_options (core_config : dict value)
    (scenarios : dict (dict value)) (name : string) (spec : dict value) :
  Scenarios.get_scenarios core_config = Ok scenarios ->
  dict_get name scenarios = Some spec ->
  exists reset_options,
    dict_get "reset_options"%string spec = Some (VDict reset_options)
    /\ forall sim_dt initial_load_base eta_base defined definition,
         Scenarios.read_core_config core_config
           = Ok (sim_dt, initial_load_base, eta_base) ->
         Scenarios.scenario_definitions sim_dt initial_load_base eta_base
           = Ok defined ->
         dict_get name defined = Some definition ->
         dict_mem "reset_options"%string definition = false ->
         reset_options = [].
Proof.
  unfold Scenarios.get_scenarios.
  destruct (Scenarios.read_core_config core_config)
    as [[[sim_dt initial_load_base] eta_base]|err|] eqn:Er.
  - destruct (Scenarios.scenario_definitions sim_dt initial_load_base eta_base)
      as [defined| |] eqn:Edef; cbn [Py.bind]; try discriminate.
    intros [= <-]. rewrite ensure_reset_options_get.
    destruct (dict_get name defined) as [definition|] eqn:Eget; [|discriminate].
    intros [= <-].
    pose proof (definitions_reset_options _ _ _ _ Edef) as Hall.
    rewrite Forall_forall in Hall.
    specialize (Hall _ (dict_get_in _ _ _ Eget)). cbn [snd] in Hall.
    unfold reset_options_is_mapping in Hall. unfold dict_mem.
    destruct (dict_get "reset_options"%string definition) as [v|] eqn:Ero.
    + destruct v; try contradiction. rewrite Ero.
      eexists. split; [reflexivity|].
      intros ? ? ? ? definition' [= <- <- <-] Edef' Eget'.
      rewrite Edef in Edef'. injection Edef' as <-.
      rewrite Eget in Eget'. injection Eget' as <-.
      now rewrite Ero.
    + rewrite dict_get_set_same. exists []. split; [reflexivity|]. reflexivity.
  - destruct err; try discriminate. intros [= <-]. discriminate.
  - discriminate.
Qed.

(** C10.  When [core_config] has no ['simulation'] key, or its
    ['simulation'] mapping has no ['dt'] key, [get_scenarios] returns the
    empty mapping. *)
Theorem get_scenarios_missing_key (core_config : dict value) :
  dict_get "simulation"%string core_config = None
  \/ (exists simulation,
        dict_get "simulation"%string core_config = Some (VDict simulation)
        /\ dict_get "dt"%string simulation = None) ->
  Scenarios.get_scenarios core_config = Ok [].
Proof.
  intros [H | (simulation & Hs & Hdt)];
    unfold Scenarios.get_scenarios, Scenarios.read_core_config, getitem.
  - now rewrite H.
  - rewrite Hs. cbn [Py.bind]. now rewrite Hdt.
Qed.

(** ** Controllers *)

Lemma base_init_dt (config dt : value) (base : BaseController.t) :
  BaseController.init config dt = Ok base -> 0 < BaseController.dt base.
Proof.
  unfold BaseController.init, BaseController.is_positive_number.
  destruct config; try discriminate.
  destruct dt; try discriminate;
    (destruct (as_number _) as [x|] eqn:Ex; [|discriminate]);
    (destruct (Qleb x 0) eqn:El; [discriminate|]);
    intros [= <-]; cbn [BaseController.dt]; now apply Qleb_gt.
Qed.

Lemma pid_init_inv parse (config dt : value) (c : PIDController.t) :
  PIDController.init parse config dt = Ok c -> pid_inv c.
Proof.
  unfold PIDController.init, BaseController.subclass_init.
  destruct (BaseController.init config dt) as [base| |] eqn:Eb; try discriminate.
  apply base_init_dt in Eb. cbn [Py.bind]. unfold PIDController.init_body.
  repeat (match goal with
          | |- context [Py.bind ?m _] => destruct m; try discriminate; cbn [Py.bind]
          end).
  all: destruct (Qleb _ _) eqn:El; try discriminate.
  intros [= <-]. constructor; cbn.
  - exact Eb.
  - now apply Qleb_gt.
  - destruct (Qltb 0 _); [|discriminate].
    intros Ht%Qltb_lt E. rewrite E in Ht. nra.
Qed.

Lemma pid_step_total (c : PIDController.t) (observation : np.ndarray) :
  pid_inv c ->
  exists c' out,
    PIDController.step c observation = Ok (c', out)
    /\ pid_inv c'
    /\ PIDController._previous_error c' = PIDController.error c observation
    /\ PIDController.output_min c <= out
    /\ out <= PIDController.output_max c.
Proof.
  intros [Hdt Hlim Htau]. unfold PIDController.step.
  destruct (Qleb (PIDController.dt c) 0) eqn:E0.
  { apply Qleb_le in E0. lra. }
  rewrite py_div_nonzero by lra. cbn [Py.bind].
  destruct (PIDController.use_filter c) eqn:Ef.
  - rewrite (py_div_nonzero _ _ (Htau eq_refl)). cbn [Py.bind].
    eexists _, _. split; [reflexivity|].
    split; [constructor; cbn; auto; now rewrite Ef|].
    split; [reflexivity|]. apply clip_bounds. lra.
  - cbn [Py.bind].
    eexists _, _. split; [reflexivity|].
    split; [constructor; cbn; auto; now rewrite Ef|].
    split; [reflexivity|]. apply clip_bounds. lra.
Qed.

Lemma pid_update_inv parse (c : PIDController.t) (new_params : dict value)
    (r : PIDController.t * option exn) :
  PIDController.update_parameters parse c new_params = Ok r ->
  pid_inv c ->
  pid_inv (fst r)
  /\ PIDController.setpoint (fst r) = PIDController.setpoint c
  /\ PIDController.output_min (fst r) = PIDController.output_min c
  /\ PIDController.output_max (fst r) = PIDController.output_max c.
Proof.
  unfold PIDController.update_parameters. intros E [Hdt Hlim Htau].
  destruct (PIDController.float_get parse new_params "kp" _);
    [destruct (PIDController.float_get parse new_params "ki" _);
       [destruct (PIDController.float_get parse new_params "kd" _)| |]| |];
    try discriminate; injection E as <-;
    (split; [constructor; cbn; auto | cbn; auto]).
Qed.

Lemma pid_step_keeps (c c' : PIDController.t) (observation : np.ndarray) (out : Q) :
  PIDController.step c observation = Ok (c', out) ->
  PIDController.setpoint c' = PIDController.setpoint c
  /\ PIDController.output_min c' = PIDController.output_min c
  /\ PIDController.output_max c' = PIDController.output_max c.
Proof.
  unfold PIDController.step. intros E.
  destruct (Qleb _ _); [now injection E as <- _|].
  repeat (match type of E with
          | context [Py.bind ?m _] =>
              destruct m; try discriminate; cbn [Py.bind] in E
          end).
  injection E as <- _. cbn. auto.
Qed.

(** What a sequence of calls keeps of a controller. *)
Lemma pid_calls_inv parse (cs : list PIDController.call) :
  forall c c', pid_inv c ->
  PIDController.calls parse c cs = Ok c' ->
  pid_inv c'
  /\ PIDController.setpoint c' = PIDController.setpoint c
  /\ PIDController.output_min c' = PIDController.output_min c
  /\ PIDController.output_max c' = PIDController.output_max c.
Proof.
  induction cs as [|[observation | | new_params] rest IH]; intros c c' Hc; simpl.
  - intros [= <-]. auto.
  - destruct (pid_step_total c observation Hc) as (c1 & out & E & H1 & _).
    rewrite E. cbn [Py.bind fst]. intros E'.
    destruct (IH _ _ H1 E') as (H' & Hs & Hlo & Hhi).
    destruct (pid_step_keeps _ _ _ _ E) as (Hk1 & Hk2 & Hk3).
    rewrite <- Hk1, <- Hk2, <- Hk3. auto.
  - assert (Hr : pid_inv (PIDController.reset c)).
    { destruct Hc. constructor; cbn; auto. }
    intros E'. destruct (IH _ _ Hr E') as (H' & Hs & Hlo & Hhi). auto.
  - destruct (PIDController.update_parameters parse c new_params) as [r| |] eqn:Eu;
      try discriminate.
    cbn [Py.bind]. intros E'.
    destruct (pid_update_inv parse c new_params r Eu Hc) as (Hr & Hk1 & Hk2 & Hk3).
    destruct (IH _ _ Hr E') as (H' & Hs & Hlo & Hhi).
    rewrite <- Hk1, <- Hk2, <- Hk3. auto.
Qed.

Lemma float_get_finite parse (d : dict value) (k : string) (default : Q) :
  (forall s, parse s <> NonFinite) ->
  PIDController.float_get parse d k default <> NonFinite.
Proof.
  intros Hp. unfold PIDController.float_get, PIDController.float.
  destruct (dict_get k d) as [v|]; [|discriminate].
  destruct v; cbn; try discriminate. apply Hp.
Qed.

(** No call of a run raises; with a parser that yields finite numbers
    only, every run ends with a controller object. *)
Lemma pid_calls_total parse (cs : list PIDController.call) :
  (forall s, parse s <> NonFinite) ->
  forall c, pid_inv c -> exists c', PIDController.calls parse c cs = Ok c'.
Proof.
  intros Hp.
  induction cs as [|[observation | | new_params] rest IH]; intros c Hc; simpl.
  - now exists c.
  - destruct (pid_step_total c observation Hc) as (c1 & out & E & H1 & _).
    rewrite E. cbn [Py.bind fst]. now apply IH.
  - apply IH. destruct Hc. constructor; cbn; auto.
  - assert (exists r, PIDController.update_parameters parse c new_params = Ok r)
      as [r Eu].
    { unfold PIDController.update_parameters.
      pose proof (float_get_finite parse new_params "kp" (PIDController.kp c) Hp).
      pose proof (float_get_finite parse new_params "ki" (PIDController.ki c) Hp).
      pose proof (float_get_finite parse new_params "kd" (PIDController.kd c) Hp).
      destruct (PIDController.float_get parse new_params "kp" _);
        [destruct (PIDController.float_get parse new_params "ki" _);
           [destruct (PIDController.float_get parse new_params "kd" _)| |]| |];
        try contradiction; eauto. }
    rewrite Eu. cbn [Py.bind]. apply IH.
    now destruct (pid_update_inv parse c new_params r Eu Hc).
Qed.




(** C6, as amended.  A controller class whose constructor begins with
    the base constructor (as [PIDController] does) raises at once when
    the configuration is not a mapping or the time step fails the guard
    of the base constructor (it is not a [float] or an [int], or it is
    [<= 0]: a non-positive time step in particular).  The exception is
    [TypeError] when the configuration is not a mapping, whatever the
    time step, and [ValueError] when the configuration is a mapping and
    the time step is the fault.  Nothing of the subclass runs. *)
Theorem controller_construction_rejects (A : Type)
    (rest : BaseController.t -> outcome A)
    (str_to_float : string -> outcome Q) (config dt : value) :
  BaseController.is_mapping config = false
  \/ BaseController.is_positive_number dt = false ->
  exists e,
    e = (if BaseController.is_mapping config then ValueError else TypeError)
    /\ BaseController.init config dt = Raise e
    /\ BaseController.subclass_init rest config dt = Raise e
    /\ PIDController.init str_to_float config dt = Raise e.
Proof.
  intros H.
  assert (E : BaseController.init config dt
              = Raise (if BaseController.is_mapping config
                       then ValueError else TypeError)).
  { unfold BaseController.init. destruct config; try reflexivity.
    destruct H as [H|H]; [discriminate|]. now rewrite H. }
  eexists. split; [reflexivity|].
  unfold PIDController.init, BaseController.subclass_init.
  rewrite E. auto.
Qed.

(** C6 as stated fails: the empty mapping is not a non-empty mapping, and
    [PIDController] is constructed from it, every gain at its default. *)
Lemma pid_accepts_empty_config :
  BaseController.is_nonempty_mapping (VDict []) = false
  /\ exists c,
       PIDController.init (fun _ => Raise ValueError) (VDict []) (VFloat (2 # 100))
       = Ok c
       /\ PIDController.kp c == 2 # 10
       /\ PIDController.output_min c == 0
       /\ PIDController.output_max c == 1.
Proof.
  split; [reflexivity|].
  eexists. split; [reflexivity|]. cbn. repeat split; reflexivity.
Qed.

(** ** The metrics engine *)

Lemma keys_dict_set_present {V : Type} (k : string) (v : V) (d : dict V) :
  In k (keys d) -> keys (dict_set k v d) = keys d.
Proof.
  unfold keys. induction d as [|[k' v'] d IH]; simpl; [contradiction|].
  intros [->|H].
  - now rewrite String.eqb_refl.
  - destruct (String.eqb k k') eqn:E; simpl; [reflexivity|].
    now rewrite IH.
Qed.

Lemma assign_all_keys setup_kernel self df sc (ks : list string) :
  forall metrics metrics',
    Forall (fun k => In k (keys metrics)) ks ->
    MetricsEngine.assign_all setup_kernel self df sc ks metrics = Ok metrics' ->
    keys metrics' = keys metrics.
Proof.
  induction ks as [|k ks IH]; intros metrics metrics' Hin; simpl.
  - now intros [= <-].
  - inversion Hin as [|? ? Hk Hks]; subst.
    destruct (setup_kernel k self df sc metrics) as [v| |e]; try discriminate.
    + intros E. apply IH in E.
      * now rewrite E, keys_dict_set_present.
      * rewrite keys_dict_set_present by assumption. assumption.
    + now apply IH.
Qed.

Lemma key_in_In (k : string) (l : list string) : key_in k l = true <-> In k l.
Proof.
  unfold key_in. rewrite existsb_exists. split.
  - intros (x & Hx & E). apply String.eqb_eq in E. now subst.
  - intros H. exists k. split; [assumption | apply String.eqb_refl].
Qed.

Lemma distinct_NoDup (l : list string) : distinct l = true -> NoDup l.
Proof.
  induction l as [|k l IH]; simpl; intros H; constructor.
  - apply andb_true_iff in H. destruct H as [H _].
    apply negb_true_iff in H. intros Hin. apply key_in_In in Hin. congruence.
  - apply IH. apply andb_true_iff in H. tauto.
Qed.

Lemma nan_metrics_keys : keys MetricsEngine.nan_metrics = MetricsEngine.METRIC_KEYS.
Proof. reflexivity. Qed.

Lemma assignments_are_metric_keys :
  Forall (fun k => In k (keys MetricsEngine.nan_metrics)) MetricsEngine.ASSIGNMENTS.
Proof.
  apply Forall_forall. intros k Hk. apply key_in_In.
  assert (H : forallb (fun k => key_in k (keys MetricsEngine.nan_metrics))
                MetricsEngine.ASSIGNMENTS = true) by (vm_compute; reflexivity).
  rewrite forallb_forall in H. now apply H.
Qed.

(** C2.  Whatever the numeric kernels do (assign, skip or raise),
    [calculate] returns a mapping whose keys are exactly the 24
    [METRIC_KEYS]; the mapping is all NaN when the frame is empty, lacks
    [time_s] or has fewer than 20 rows, and when a statement of the [try]
    block raises. *)
Theorem metrics_calculate_never_raises
    (setup : MetricsEngine.t -> MetricsEngine.DataFrame -> option exn)
    (kernel : string -> MetricsEngine.t -> MetricsEngine.DataFrame ->
              dict value -> dict MetricsEngine.metric -> MetricsEngine.effect)
    (self : MetricsEngine.t) (results_df : MetricsEngine.DataFrame)
    (scenario_config : dict value) :
  exists metrics,
    MetricsEngine.calculate setup kernel self results_df scenario_config = Ok metrics
    /\ keys metrics = MetricsEngine.METRIC_KEYS
    /\ List.length metrics = 24%nat
    /\ NoDup (keys metrics)
    /\ (MetricsEngine.empty results_df = true
        \/ dict_mem "time_s"%string (MetricsEngine.columns results_df) = false
        \/ (MetricsEngine.index_len results_df < 20)%nat ->
        MetricsEngine.all_nan metrics = true)
    /\ (forall e,
          MetricsEngine.try_block setup kernel self results_df scenario_config
            MetricsEngine.nan_metrics = Raise e ->
          MetricsEngine.all_nan metrics = true).
Proof.
  assert (Hnan : keys MetricsEngine.nan_metrics = MetricsEngine.METRIC_KEYS
                 /\ List.length MetricsEngine.nan_metrics = 24%nat
                 /\ NoDup (keys MetricsEngine.nan_metrics)
                 /\ MetricsEngine.all_nan MetricsEngine.nan_metrics = true).
  { split; [reflexivity|]. split; [reflexivity|]. split; [|reflexivity].
    apply distinct_NoDup. vm_compute. reflexivity. }
  destruct Hnan as (Hk & Hl & Hd & Ha).
  unfold MetricsEngine.calculate.
  destruct (MetricsEngine.too_short results_df) eqn:Eshort.
  { exists MetricsEngine.nan_metrics. repeat split; auto. }
  destruct (MetricsEngine.try_block setup kernel self results_df scenario_config
              MetricsEngine.nan_metrics) as [m|e|] eqn:Etry.
  - assert (Hkm : keys m = MetricsEngine.METRIC_KEYS).
    { unfold MetricsEngine.try_block in Etry.
      destruct (setup self results_df); [discriminate|].
      apply assign_all_keys in Etry; [|apply assignments_are_metric_keys].
      now rewrite Etry. }
    exists m. split; [reflexivity|]. split; [exact Hkm|].
    split; [|split; [|split]].
    + unfold keys in Hkm. rewrite <- (length_map fst), Hkm. reflexivity.
    + rewrite Hkm, <- Hk. exact Hd.
    + intros Hshort. exfalso. unfold MetricsEngine.too_short in Eshort.
      apply orb_false_iff in Eshort. destruct Eshort as [Eshort Elt].
      apply orb_false_iff in Eshort. destruct Eshort as [Eempty Etime].
      destruct Hshort as [H|[H|H]].
      * congruence.
      * rewrite H in Etime. discriminate.
      * apply Nat.ltb_ge in Elt. lia.
    + discriminate.
  - exists MetricsEngine.nan_metrics. repeat split; auto.
  - exists MetricsEngine.nan_metrics. repeat split; auto.
Qed.

(** ** The theorems at concrete inputs *)

Example reset_at_full_power :
  ReactorModel.reset (ReactorModel.init Examples.reactor_params) 1
  = Ok Examples.reactor_at_full_power.
Proof. reflexivity. Qed.

Lemma reactor_power_nonneg_witness :
  exists m outs,
    ReactorModel.run Examples.reactor_params (9 # 10)
      [(2 # 100, 0); (2 # 100, - (5 # 1000)); (2 # 100, 5 # 1000)] = Ok (m, outs)
    /\ 0 <= ReactorModel.power_level m
    /\ Forall (fun out => 0 <= out) outs.
Proof.
  apply reactor_power_nonneg; [reflexivity | vm_compute; discriminate].
Defined.

Lemma reactor_kinetics_update_witness :
  exists m' out,
    ReactorModel.step Examples.reactor_at_full_power (2 # 100) (1 # 1000)
    = Ok (m', out)
    /\ ReactorModel.power_level m'
       == Py.max 0 (PointKinetics.euler_power Examples.reactor_at_full_power
                      (2 # 100) (1 # 1000))
    /\ Forall2 Qeq (ReactorModel.precursor_concentrations m')
         (PointKinetics.advance_precursors
            (ReactorModel.Lambda Examples.reactor_at_full_power)
            (PointKinetics.euler_power Examples.reactor_at_full_power
               (2 # 100) (1 # 1000))
            (2 # 100)
            (ReactorModel.beta_i Examples.reactor_at_full_power)
            (ReactorModel.lambda_i Examples.reactor_at_full_power)
            (ReactorModel.precursor_concentrations Examples.reactor_at_full_power)).
Proof.
  apply reactor_kinetics_update. reflexivity.
Defined.

Lemma grid_swing_equilibrium_witness :
  (exists d,
     GridModel.d_omega_pu_dt Examples.grid_at_rest 3000 3000 = Ok d /\ d == 0)
  /\ exists g',
       GridModel.step Examples.grid_at_rest (2 # 100) 3000 10 500 = Ok g'
       /\ GridModel.omega_pu g' == 1
       /\ GridModel.frequency g' == GridModel.f_nominal g'.
Proof.
  apply (grid_swing_equilibrium Examples.grid_at_rest Examples.constant_3000
           (2 # 100) 3000 10 500%Z 3000); reflexivity.
Defined.

Lemma controller_construction_rejects_witness :
  exists e,
    e = ValueError
    /\ BaseController.init Examples.pid_config (VFloat 0) = Raise e
    /\ BaseController.subclass_init (fun base => Ok base)
         Examples.pid_config (VFloat 0) = Raise e
    /\ PIDController.init Examples.no_parse Examples.pid_config (VFloat 0) = Raise e.
Proof.
  apply (controller_construction_rejects _ (fun base => Ok base)
           Examples.no_parse Examples.pid_config (VFloat 0)).
  right. reflexivity.
Defined.

Lemma sudden_load_increase_profile_witness :
  exists scenarios spec f,
    Scenarios.get_scenarios Examples.core_config = Ok scenarios
    /\ dict_get "sudden_load_increase_5pct"%string scenarios = Some spec
    /\ dict_get "load_profile_func"%string spec = Some (VFunc f)
    /\ forall (time_s : Q) (step : Z),
         (time_s < 20 -> f time_s step = Ok 3000)
         /\ (20 <= time_s -> f time_s step = Ok (3000 * (105 # 100))).
Proof.
  apply (sudden_load_increase_profile Examples.core_config
           (VFloat (2 # 100)) (VFloat 3000) (VFloat (98 # 100))
           (2 # 100) 3000 (98 # 100));
    try reflexivity.
  vm_compute. discriminate.
Defined.

Lemma scenarios_carry_reset_options_witness :
  exists reset_options,
    dict_get "reset_options"%string Examples.sudden_spec = Some (VDict reset_options)
    /\ forall sim_dt initial_load_base eta_base defined definition,
         Scenarios.read_core_config Examples.core_config
           = Ok (sim_dt, initial_load_base, eta_base) ->
         Scenarios.scenario_definitions sim_dt initial_load_base eta_base
           = Ok defined ->
         dict_get "sudden_load_increase_5pct"%string defined = Some definition ->
         dict_mem "reset_options"%string definition = false ->
         reset_options = [].
Proof.
  apply (scenarios_carry_reset_options Examples.core_config Examples.scenarios);
    reflexivity.
Defined.


Lemma get_scenarios_missing_key_witness :
  Scenarios.get_scenarios Examples.config_without_dt = Ok [].
Proof.
  apply get_scenarios_missing_key. right.
  exists [("duration"%string, VFloat 500)]. split; reflexivity.
Defined.

(* ================================================================= *)
(** * Further properties of the modelled code *)

(** ** The reactor *)

(** Every field [step] writes on a well-formed object, in closed form. *)
Lemma step_closed_form (m : ReactorModel.t) (dt rod : Q) :
  reactor_wf m ->
  let P1 := ReactorModel.power_level m
            + ((ReactorModel.total_reactivity m rod - ReactorModel.beta_total m)
                 / ReactorModel.Lambda m * ReactorModel.power_level m
               + np.sum (np.zip_with Qmult (ReactorModel.lambda_i m)
                           (ReactorModel.precursor_concentrations m))) * dt in
  exists m' out,
    ReactorModel.step m dt rod = Ok (m', out)
    /\ reactor_wf m'
    /\ ReactorModel.power_level m' = Py.max 0 P1
    /\ ReactorModel.precursor_concentrations m'
       = PointKinetics.advance_precursors (ReactorModel.Lambda m) P1 dt
           (ReactorModel.beta_i m) (ReactorModel.lambda_i m)
           (ReactorModel.precursor_concentrations m)
    /\ ReactorModel.T_fuel m'
       = ReactorModel.T_fuel m
         + 1 / ReactorModel.C_f m
           * (P1 * ReactorModel.P0 m
              - ReactorModel.Omega m
                * (ReactorModel.T_fuel m - ReactorModel.T_moderator m)) * dt
    /\ ReactorModel.T_moderator m'
       = ReactorModel.T_moderator m
         + 1 / ReactorModel.C_c m
           * (ReactorModel.Omega m
              * (ReactorModel.T_fuel m' - ReactorModel.T_moderator m)) * dt
    /\ out = ReactorModel.power_level m' * ReactorModel.P0 m.
Proof.
  intros Hwf P1. pose proof Hwf as [HL Hf Hc Hg Hp HP].
  destruct (step_total m dt rod Hwf) as (m' & out & E & Hwf' & _).
  exists m', out. split; [exact E|]. split; [exact Hwf'|].
  revert E.
  unfold ReactorModel.step, ReactorModel.dp_dt, ReactorModel.dc_dt, np.mul, np.sub.
  rewrite (broadcast_same _ _ _ (eq_sym Hp)). cbn [Py.bind].
  rewrite (py_div_ok _ _ HL). cbn [Py.bind].
  rewrite (div_scalar_ok _ _ HL). cbn [Py.bind].
  rewrite broadcast_same
    by (rewrite scale_length, length_map, zip_with_length; auto).
  cbn [Py.bind].
  rewrite iadd_same.
  2:{ rewrite scale_length, zip_with_length.
      - rewrite scale_length, length_map. congruence.
      - rewrite scale_length, length_map, zip_with_length; auto. }
  cbn [Py.bind].
  rewrite (py_div_ok _ _ Hf), (py_div_ok _ _ Hc). cbn [Py.bind].
  intros [= <- <-]. cbn. rewrite step_precursors. repeat split; reflexivity.
Qed.

Lemma advance_precursors_zero (L dt : Q) (bs ls cs : list Q) :
  Forall (fun c => c == 0) cs ->
  Forall (fun c => c == 0) (PointKinetics.advance_precursors L 0 dt bs ls cs).
Proof.
  intros H. revert bs ls. induction H as [|c cs Hc _ IH]; intros [|b bs] [|l ls];
    simpl; constructor.
  - unfold PointKinetics.precursor_derivative. rewrite Hc. ring.
  - apply IH.
Qed.

Lemma decay_sum_zero (ls cs : list Q) :
  Forall (fun c => c == 0) cs -> PointKinetics.decay_sum ls cs == 0.
Proof.
  intros H. revert ls. induction H as [|c cs Hc _ IH]; intros [|l ls]; simpl;
    try reflexivity.
  rewrite Hc, IH. ring.
Qed.

Lemma Forall2_Qeq_trans (xs ys zs : list Q) :
  Forall2 Qeq xs ys -> Forall2 Qeq ys zs -> Forall2 Qeq xs zs.
Proof.
  intros H. revert zs. induction H; intros zs Hz; inversion Hz; subst;
    constructor; eauto. etransitivity; eauto.
Qed.

Lemma Forall2_Qeq_zero (xs ys : list Q) :
  Forall2 Qeq xs ys -> Forall (fun c => c == 0) ys -> Forall (fun c => c == 0) xs.
Proof.
  intros H. induction H as [|x y xs ys Hxy _ IH]; intros H0;
    inversion H0; subst; constructor; auto.
  now rewrite Hxy.
Qed.

(** X1.  A core with no neutrons and no precursors stays there: on a
    well-formed object whose power and precursor concentrations are all
    zero, [step] returns 0 MW and leaves the power and every precursor
    concentration at zero, whatever the rod reactivity, the temperatures
    and the time step. *)
Theorem reactor_zero_state_is_fixed (m : ReactorModel.t) (dt rod_reactivity : Q) :
  ReactorModel.well_formed m = true ->
  ReactorModel.power_level m == 0 ->
  Forall (fun c => c == 0) (ReactorModel.precursor_concentrations m) ->
  exists m' out,
    ReactorModel.step m dt rod_reactivity = Ok (m', out)
    /\ out == 0
    /\ ReactorModel.power_level m' == 0
    /\ Forall (fun c => c == 0) (ReactorModel.precursor_concentrations m').
Proof.
  intros Hwf Hp Hc. apply well_formed_wf in Hwf.
  destruct (step_closed_form m dt rod_reactivity Hwf)
    as (m' & out & E & _ & Epow & Eprec & _ & _ & Eout).
  exists m', out. split; [exact E|].
  assert (HP1 : ReactorModel.power_level m
      + ((ReactorModel.total_reactivity m rod_reactivity - ReactorModel.beta_total m)
           / ReactorModel.Lambda m * ReactorModel.power_level m
         + np.sum (np.zip_with Qmult (ReactorModel.lambda_i m)
                     (ReactorModel.precursor_concentrations m))) * dt == 0).
  { rewrite np_sum_decay, (decay_sum_zero _ _ Hc), Hp. ring. }
  assert (Hpow : ReactorModel.power_level m' == 0).
  { rewrite Epow. rewrite (py_max_eq 0 _ 0 HP1). reflexivity. }
  split; [rewrite Eout, Hpow; ring|]. split; [exact Hpow|].
  rewrite Eprec.
  pose proof (advance_precursors_power (ReactorModel.Lambda m) _ 0 dt
                (ReactorModel.beta_i m) (ReactorModel.lambda_i m)
                (ReactorModel.precursor_concentrations m) HP1) as H12.
  pose proof (advance_precursors_zero (ReactorModel.Lambda m) dt
                (ReactorModel.beta_i m) (ReactorModel.lambda_i m) _ Hc) as H0.
  exact (Forall2_Qeq_zero _ _ H12 H0).
Qed.

(** X3.  The moderator exchanges heat with the fuel only.  On a
    well-formed object with [C_c > 0], [Omega >= 0] and [dt >= 0], the
    moderator temperature after [step] is not below the old one when the
    updated fuel temperature is not below it, and not above the old one
    when the updated fuel temperature is not above it. *)
Theorem reactor_moderator_follows_fuel (m : ReactorModel.t) (dt rod_reactivity : Q) :
  ReactorModel.well_formed m = true ->
  0 < ReactorModel.C_c m ->
  0 <= ReactorModel.Omega m ->
  0 <= dt ->
  exists m' out,
    ReactorModel.step m dt rod_reactivity = Ok (m', out)
    /\ (ReactorModel.T_moderator m <= ReactorModel.T_fuel m' ->
        ReactorModel.T_moderator m <= ReactorModel.T_moderator m')
    /\ (ReactorModel.T_fuel m' <= ReactorModel.T_moderator m ->
        ReactorModel.T_moderator m' <= ReactorModel.T_moderator m).
Proof.
  intros Hwf Hc HO Hdt. apply well_formed_wf in Hwf.
  destruct (step_closed_form m dt rod_reactivity Hwf)
    as (m' & out & E & _ & _ & _ & _ & Etm & _).
  exists m', out. split; [exact E|]. rewrite Etm.
  assert (Hk : 0 <= 1 / ReactorModel.C_c m * ReactorModel.Omega m * dt).
  { apply Qmult_le_0_compat; [|exact Hdt].
    apply Qmult_le_0_compat; [|exact HO].
    apply Qlt_le_weak. unfold Qdiv. rewrite Qmult_1_l.
    now apply Qinv_lt_0_compat. }
  set (k := 1 / ReactorModel.C_c m * ReactorModel.Omega m * dt) in *.
  set (d := ReactorModel.T_fuel m' - ReactorModel.T_moderator m).
  assert (Eq : 1 / ReactorModel.C_c m * (ReactorModel.Omega m * d) * dt == k * d)
    by (unfold k; ring).
  split; intros H; rewrite Eq.
  - assert (0 <= k * d) by (apply Qmult_le_0_compat; [exact Hk | unfold d; lra]).
    lra.
  - assert (0 <= k * (- d)) by (apply Qmult_le_0_compat; [exact Hk | unfold d; lra]).
    assert (k * (- d) == - (k * d)) by ring. lra.
Qed.

(** ** The grid *)

Lemma grid_valid_divisors (g : GridModel.t) :
  GridModel.valid g = true ->
  Qeq_bool (GridModel.S_base g) 0 = false
  /\ Qeq_bool (2 * GridModel.H g) 0 = false.
Proof.
  unfold GridModel.valid. intros H. apply andb_true_iff in H.
  destruct H as [HS HH]. now apply negb_true_iff in HS, HH.
Qed.

Lemma grid_fallback_step (L : Q) (g : GridModel.t) (dt mech time_s : Q) (n : Z) :
  grid_on_fallback L g ->
  exists g',
    GridModel.step g dt mech time_s n = Ok g'
    /\ grid_on_fallback L g'
    /\ GridModel.f_nominal g' = GridModel.f_nominal g
    /\ (GridModel.omega_pu g == 1 -> mech == L ->
        GridModel.omega_pu g' == 1 /\ GridModel.delta g' == GridModel.delta g).
Proof.
  intros [Hv Hp Hd Hf]. destruct (grid_valid_divisors g Hv) as [HS HH].
  unfold GridModel.step, GridModel.demand, GridModel.d_omega_pu_dt.
  rewrite Hp. cbn [Py.bind].
  rewrite !(py_div_ok _ _ HS), (py_div_ok _ _ HH). cbn [Py.bind].
  eexists. split; [reflexivity|]. split; [|split; [reflexivity|]].
  - constructor; cbn; auto. reflexivity.
  - intros Hw Hm. cbn.
    assert (E : 1 / (2 * GridModel.H g)
                * (mech / GridModel.S_base g - L / GridModel.S_base g
                   - GridModel.D g * (GridModel.omega_pu g - 1)) == 0).
    { rewrite Hw, Hm. field. apply Qeq_bool_false in HS, HH. split; [exact HS|].
      intros E. apply HH. rewrite E. ring. }
    rewrite E, Hw. split; ring.
Qed.

Lemma grid_reset_on_fallback (g0 : GridModel.t) (L : Q) :
  GridModel.valid g0 = true -> grid_on_fallback L (GridModel.reset g0 L).
Proof.
  intros Hv. constructor; cbn; auto. ring.
Qed.

Lemma grid_fallback_steps (L : Q) (inputs : list (Q * Q * Q * Z)) :
  forall g, grid_on_fallback L g ->
  exists g',
    GridModel.steps g inputs = Ok g'
    /\ grid_on_fallback L g'
    /\ GridModel.f_nominal g' = GridModel.f_nominal g
    /\ (GridModel.omega_pu g == 1 ->
        Forall (fun i => snd (fst (fst i)) == L) inputs ->
        GridModel.omega_pu g' == 1 /\ GridModel.delta g' == GridModel.delta g).
Proof.
  induction inputs as [|[[[dt mech] time_s] n] rest IH]; intros g Hg.
  - exists g. simpl. split; [reflexivity|]. split; [exact Hg|].
    split; [reflexivity|]. intros Hw _. split; [exact Hw | reflexivity].
  - destruct (grid_fallback_step L g dt mech time_s n Hg) as (g1 & E1 & Hg1 & Hf1 & Heq1).
    destruct (IH g1 Hg1) as (g' & E' & Hg' & Hf' & Heq').
    exists g'. simpl. rewrite E1. cbn [Py.bind]. rewrite E'.
    split; [reflexivity|]. split; [exact Hg'|]. split; [congruence|].
    intros Hw Hall. inversion Hall as [|? ? Hm Hrest]; subst. cbn in Hm.
    destruct (Heq1 Hw Hm) as [Hw1 Hd1].
    destruct (Heq' Hw1 Hrest) as [Hw' Hd']. split; [exact Hw'|].
    now rewrite Hd', Hd1.
Qed.

(** X4.  After [reset], on a grid whose divisors [S_base] and [2 * H]
    are not zero, any number of [step] calls with any time steps,
    mechanical powers, times and step indices completes; afterwards the
    frequency is the per-unit speed times the nominal frequency and the
    demand is still the initial load (the constant fallback profile stays
    installed). *)
Theorem grid_frequency_tracks_speed (g0 : GridModel.t) (initial_load_mw : Q)
    (inputs : list (Q * Q * Q * Z)) :
  GridModel.valid g0 = true ->
  exists g,
    GridModel.steps (GridModel.reset g0 initial_load_mw) inputs = Ok g
    /\ GridModel.frequency g == GridModel.omega_pu g * GridModel.f_nominal g0
    /\ GridModel.current_demand g = initial_load_mw.
Proof.
  intros Hv.
  destruct (grid_fallback_steps initial_load_mw inputs _
              (grid_reset_on_fallback g0 initial_load_mw Hv))
    as (g & E & [_ _ Hd Hf] & Hn & _).
  exists g. split; [exact E|]. split; [|exact Hd].
  rewrite Hf, Hn. reflexivity.
Qed.

(** X5.  Balance persists.  After [reset] on such a grid, when every
    [step] is handed a mechanical power equal to the initial load, after
    any number of steps the per-unit speed is 1, the frequency is the
    nominal one and the rotor angle is 0. *)
Theorem grid_balance_persists (g0 : GridModel.t) (initial_load_mw : Q)
    (inputs : list (Q * Q * Q * Z)) :
  GridModel.valid g0 = true ->
  Forall (fun i => snd (fst (fst i)) == initial_load_mw) inputs ->
  exists g,
    GridModel.steps (GridModel.reset g0 initial_load_mw) inputs = Ok g
    /\ GridModel.omega_pu g == 1
    /\ GridModel.frequency g == GridModel.f_nominal g0
    /\ GridModel.delta g == 0.
Proof.
  intros Hv Hall.
  destruct (grid_fallback_steps initial_load_mw inputs _
              (grid_reset_on_fallback g0 initial_load_mw Hv))
    as (g & E & [_ _ _ Hf] & Hn & Heq).
  destruct (Heq ltac:(reflexivity) Hall) as [Hw Hd].
  exists g. split; [exact E|]. split; [exact Hw|]. split.
  - rewrite Hf, Hw, Hn. cbn. ring.
  - rewrite Hd. reflexivity.
Qed.

(** X6.  A power imbalance sets the direction of the speed change.  On a
    grid with [H > 0], [S_base > 0] and a nominal frequency that is not
    negative, at per-unit speed 1, a [step] with [dt > 0] leaves the
    speed at or above 1 and the frequency at or above nominal when the
    mechanical power is at least the demand the profile returns, and at
    or below when the demand is at least the mechanical power: a surplus
    never slows the machine down, a deficit never speeds it up. *)
Theorem grid_imbalance_sets_direction (g : GridModel.t)
    (f : GridModel.load_profile) (dt mechanical_power_mw time_s : Q)
    (step_num : Z) (demand_mw : Q) :
  0 < GridModel.H g ->
  0 < GridModel.S_base g ->
  0 <= GridModel.f_nominal g ->
  0 < dt ->
  GridModel.load_profile_func g = Some f ->
  f time_s step_num = Ok demand_mw ->
  GridModel.omega_pu g == 1 ->
  exists g',
    GridModel.step g dt mechanical_power_mw time_s step_num = Ok g'
    /\ (demand_mw <= mechanical_power_mw ->
        1 <= GridModel.omega_pu g'
        /\ GridModel.f_nominal g <= GridModel.frequency g')
    /\ (mechanical_power_mw <= demand_mw ->
        GridModel.omega_pu g' <= 1
        /\ GridModel.frequency g' <= GridModel.f_nominal g).
Proof.
  intros HH HS Hf0 Hdt Hf Hd Hw.
  unfold GridModel.step, GridModel.demand, GridModel.d_omega_pu_dt.
  rewrite Hf, Hd. cbn [Py.bind].
  rewrite !py_div_nonzero by lra. cbn [Py.bind].
  eexists. split; [reflexivity|]. cbn.
  set (k := / (2 * GridModel.H g) * / GridModel.S_base g * dt).
  assert (Hk : 0 < k).
  { unfold k. apply Qmult_lt_0_compat; [|exact Hdt].
    apply Qmult_lt_0_compat; apply Qinv_lt_0_compat; lra. }
  assert (E : GridModel.omega_pu g
              + 1 / (2 * GridModel.H g)
                * (mechanical_power_mw / GridModel.S_base g
                   - demand_mw / GridModel.S_base g
                   - GridModel.D g * (GridModel.omega_pu g - 1)) * dt
              == 1 + k * (mechanical_power_mw - demand_mw)).
  { rewrite Hw. unfold k. field. split; lra. }
  rewrite E.
  set (s := k * (mechanical_power_mw - demand_mw)).
  assert (Ef : (1 + s) * GridModel.f_nominal g
               == GridModel.f_nominal g + s * GridModel.f_nominal g) by ring.
  rewrite Ef.
  split; intros Hle.
  - assert (Hs : 0 <= s) by (apply Qmult_le_0_compat; lra).
    assert (0 <= s * GridModel.f_nominal g) by (apply Qmult_le_0_compat; lra).
    split; lra.
  - assert (Hs : 0 <= k * (demand_mw - mechanical_power_mw))
      by (apply Qmult_le_0_compat; lra).
    assert (Es : k * (demand_mw - mechanical_power_mw) == - s)
      by (unfold s; ring).
    assert (0 <= (- s) * GridModel.f_nominal g)
      by (apply Qmult_le_0_compat; lra).
    assert ((- s) * GridModel.f_nominal g == - (s * GridModel.f_nominal g)) by ring.
    split; lra.
Qed.

(** ** The turbine *)

(** A clamp keeps a value on the side of a bound that lies inside the
    range. *)
Lemma clip_keeps_side (x lo hi a : Q) :
  (a <= x -> a <= hi -> a <= np.clip x lo hi)
  /\ (x <= a -> lo <= a -> np.clip x lo hi <= a).
Proof.
  unfold np.clip.
  destruct (Qltb x lo) eqn:E1; [apply Qltb_lt in E1 | apply Qltb_ge in E1].
  - destruct (Qltb hi lo) eqn:E2; [apply Qltb_lt in E2 | apply Qltb_ge in E2];
      split; intros; lra.
  - destruct (Qltb hi x) eqn:E2; [apply Qltb_lt in E2 | apply Qltb_ge in E2];
      split; intros; lra.
Qed.

(** An Euler step of a first-order lag with [dt >= 0] does not move away
    from the target. *)
Lemma lag_step_direction (tau dt x target : Q) :
  0 < tau -> 0 <= dt ->
  let x' := x + 1 / tau * (target - x) * dt in
  (x <= target -> x <= x') /\ (target <= x -> x' <= x).
Proof.
  intros Htau Hdt x'.
  assert (Hk : 0 <= 1 / tau * dt).
  { apply Qmult_le_0_compat; [|exact Hdt].
    apply Qlt_le_weak. unfold Qdiv. rewrite Qmult_1_l.
    now apply Qinv_lt_0_compat. }
  set (k := 1 / tau * dt) in *.
  assert (E : x' == x + k * (target - x)) by (unfold x', k; ring).
  split; intros H.
  - assert (0 <= k * (target - x)) by (apply Qmult_le_0_compat; lra). lra.
  - assert (0 <= k * (x - target)) by (apply Qmult_le_0_compat; lra).
    assert (k * (x - target) == - (k * (target - x))) by ring. lra.
Qed.

(** X7.  The valve never leaves its range.  With non-zero time constants
    [step] completes and the stored valve position lies in [[0, 1]],
    whatever the valve command, the time step and the position before;
    the value returned is the stored mechanical power. *)
Theorem turbine_valve_in_range (m : TurbineModel.t)
    (dt thermal_power_mw valve_command : Q) :
  ~ TurbineModel.tau_v m == 0 ->
  ~ TurbineModel.tau_t m == 0 ->
  exists m' out,
    TurbineModel.step m dt thermal_power_mw valve_command = Ok (m', out)
    /\ 0 <= TurbineModel.valve_position m'
    /\ TurbineModel.valve_position m' <= 1
    /\ out = TurbineModel.mechanical_power m'.
Proof.
  intros Hv Ht. unfold TurbineModel.step, TurbineModel.valve_after.
  rewrite (py_div_nonzero _ _ Hv). cbn [Py.bind].
  rewrite (py_div_nonzero _ _ Ht). cbn [Py.bind].
  eexists _, _. split; [reflexivity|]. cbn.
  split; [|split; [|reflexivity]]; apply clip_bounds; lra.
Qed.

(** X8.  The two lags move towards their targets.  With positive time
    constants, [dt >= 0] and a valve position in [[0, 1]], after [step]
    the valve position has not moved away from the command (it is not
    below its old value when the command is not below it, and not above
    when the command is not above), and the mechanical power has not
    moved away from the steam power at the new valve position
    ([valve * eta_transfer * thermal_power]). *)
Theorem turbine_lags_move_towards_target (m : TurbineModel.t)
    (dt thermal_power_mw valve_command : Q) :
  0 < TurbineModel.tau_v m ->
  0 < TurbineModel.tau_t m ->
  0 <= dt ->
  0 <= TurbineModel.valve_position m <= 1 ->
  exists m' out,
    TurbineModel.step m dt thermal_power_mw valve_command = Ok (m', out)
    /\ let v := TurbineModel.valve_position m in
       let v' := TurbineModel.valve_position m' in
       let p := TurbineModel.mechanical_power m in
       let p' := TurbineModel.mechanical_power m' in
       let steam := TurbineModel.effective_steam_power m v' thermal_power_mw in
       (v <= valve_command -> v <= v')
       /\ (valve_command <= v -> v' <= v)
       /\ (p <= steam -> p <= p')
       /\ (steam <= p -> p' <= p).
Proof.
  intros Hv Ht Hdt [Hv0 Hv1].
  unfold TurbineModel.step, TurbineModel.valve_after.
  rewrite py_div_nonzero by lra. cbn [Py.bind].
  rewrite py_div_nonzero by lra. cbn [Py.bind].
  eexists _, _. split; [reflexivity|]. cbn.
  destruct (lag_step_direction (TurbineModel.tau_v m) dt
              (TurbineModel.valve_position m) valve_command Hv Hdt)
    as [Hup Hdown].
  destruct (clip_keeps_side
              (TurbineModel.valve_position m
               + 1 / TurbineModel.tau_v m
                 * (valve_command - TurbineModel.valve_position m) * dt)
              0 1 (TurbineModel.valve_position m)) as [Hge Hle].
  split; [intros H; apply Hge; [now apply Hup | exact Hv1]|].
  split; [intros H; apply Hle; [now apply Hdown | exact Hv0]|].
  apply (lag_step_direction (TurbineModel.tau_t m) dt
           (TurbineModel.mechanical_power m) _ Ht Hdt).
Qed.

(** ** The inner regulator *)

Lemma clip_sign (x lo hi : Q) :
  lo <= 0 -> 0 <= hi ->
  (x <= 0 -> np.clip x lo hi <= 0) /\ (0 <= x -> 0 <= np.clip x lo hi).
Proof.
  intros Hlo Hhi. unfold np.clip.
  destruct (Qltb x lo) eqn:E1; [apply Qltb_lt in E1 | apply Qltb_ge in E1].
  - destruct (Qltb hi lo) eqn:E2; [apply Qltb_lt in E2 | apply Qltb_ge in E2];
      split; intros; lra.
  - destruct (Qltb hi x) eqn:E2; [apply Qltb_lt in E2 | apply Qltb_ge in E2];
      split; intros; lra.
Qed.

(** What [reset] and [step] keep of a regulator: the gains and limits of
    [__init__], the setpoint, and the integral inside its band. *)
Lemma reactor_controller_step_inv (c : ReactorController.t) (temp : Q) :
  let c' := fst (ReactorController.step c temp) in
  ReactorController.kp c' = ReactorController.kp c
  /\ ReactorController.ki c' = ReactorController.ki c
  /\ ReactorController.dt c' = ReactorController.dt c
  /\ ReactorController.setpoint c' = ReactorController.setpoint c
  /\ ReactorController._reactivity_limits c' = ReactorController._reactivity_limits c
  /\ (- (5) <= ReactorController._integral c <= 5 ->
      - (5) <= ReactorController._integral c' <= 5)
  /\ (ReactorController._integral c <= 0 -> ReactorController.setpoint c <= temp ->
      ReactorController._integral c' <= 0)
  /\ (0 <= ReactorController._integral c -> temp <= ReactorController.setpoint c ->
      0 <= ReactorController._integral c').
Proof.
  unfold ReactorController.step.
  destruct (Qleb (ReactorController.dt c) 0) eqn:E; cbn.
  - repeat split; auto; lra.
  - apply Qleb_gt in E.
    repeat split; auto; intros.
    + apply clip_bounds; lra.
    + apply clip_bounds; lra.
    + apply clip_sign; try lra.
      assert (0 <= (temp - ReactorController.setpoint c) * ReactorController.dt c)
        by (apply Qmult_le_0_compat; lra).
      assert ((temp - ReactorController.setpoint c) * ReactorController.dt c
              == - ((ReactorController.setpoint c - temp) * ReactorController.dt c))
        by ring.
      lra.
    + apply clip_sign; try lra.
      assert (0 <= (ReactorController.setpoint c - temp) * ReactorController.dt c)
        by (apply Qmult_le_0_compat; lra).
      lra.
Qed.

(** X9.  Anti-windup.  From a regulator whose stored integral lies in
    [[-5, 5]] (as after [__init__] or [reset]), after any number of
    [step] calls with any temperatures the stored integral still lies in
    [[-5, 5]], and the setpoint and time step are unchanged. *)
Theorem reactor_controller_integral_bounded (c : ReactorController.t)
    (temps : list Q) :
  - (5) <= ReactorController._integral c <= 5 ->
  let c' := fst (ReactorController.steps c temps) in
  - (5) <= ReactorController._integral c' <= 5
  /\ ReactorController.setpoint c' = ReactorController.setpoint c
  /\ ReactorController.dt c' = ReactorController.dt c.
Proof.
  revert c. induction temps as [|temp rest IH]; intros c Hc; cbn.
  - auto.
  - destruct (reactor_controller_step_inv c temp)
      as (_ & _ & Hdt & Hsp & _ & Hband & _).
    destruct (IH _ (Hband Hc)) as (Hi & Hsp' & Hdt').
    split; [exact Hi|]. split; congruence.
Qed.

Lemma reactor_controller_steps_sign (temps : list Q) :
  forall c,
    0 <= ReactorController.kp c -> 0 <= ReactorController.ki c ->
    fst (ReactorController._reactivity_limits c) <= 0 ->
    0 <= snd (ReactorController._reactivity_limits c) ->
    (ReactorController._integral c <= 0 ->
     Forall (fun temp => ReactorController.setpoint c <= temp) temps ->
     Forall (fun u => u <= 0) (snd (ReactorController.steps c temps)))
    /\ (0 <= ReactorController._integral c ->
        Forall (fun temp => temp <= ReactorController.setpoint c) temps ->
        Forall (fun u => 0 <= u) (snd (ReactorController.steps c temps))).
Proof.
  induction temps as [|temp rest IH]; intros c Hkp Hki Hlo Hhi.
  - split; intros; constructor.
  - destruct (reactor_controller_step_inv c temp)
      as (Ekp & Eki & _ & Esp & Elim & _ & Hneg & Hpos).
    specialize (IH (fst (ReactorController.step c temp))).
    rewrite Ekp, Eki, Elim, Esp in IH.
    destruct (IH Hkp Hki Hlo Hhi) as [IHhot IHcold].
    split; intros Hi Hall; inversion Hall as [|? ? Ht Hrest]; subst;
      cbn [ReactorController.steps snd]; constructor.
    + unfold ReactorController.step.
      destruct (Qleb (ReactorController.dt c) 0) eqn:E; cbn; [lra|].
      apply clip_sign; try assumption.
      pose proof (Hneg Hi Ht) as Hi'. unfold ReactorController.step in Hi'.
      rewrite E in Hi'. cbn in Hi'.
      assert (0 <= ReactorController.kp c * (temp - ReactorController.setpoint c))
        by (apply Qmult_le_0_compat; lra).
      assert (0 <= ReactorController.ki c
                   * - np.clip (ReactorController._integral c
                                + (ReactorController.setpoint c - temp)
                                  * ReactorController.dt c) (- (5)) 5)
        by (apply Qmult_le_0_compat; lra).
      assert (ReactorController.kp c * (temp - ReactorController.setpoint c)
              == - (ReactorController.kp c * (ReactorController.setpoint c - temp)))
        by ring.
      match goal with
      | H : 0 <= ReactorController.ki c * - ?x |- _ =>
          assert (ReactorController.ki c * - x == - (ReactorController.ki c * x)) by ring
      end.
      lra.
    + apply IHhot; auto.
    + unfold ReactorController.step.
      destruct (Qleb (ReactorController.dt c) 0) eqn:E; cbn; [lra|].
      apply clip_sign; try assumption.
      pose proof (Hpos Hi Ht) as Hi'. unfold ReactorController.step in Hi'.
      rewrite E in Hi'. cbn in Hi'.
      assert (0 <= ReactorController.kp c * (ReactorController.setpoint c - temp))
        by (apply Qmult_le_0_compat; lra).
      assert (0 <= ReactorController.ki c
                   * np.clip (ReactorController._integral c
                              + (ReactorController.setpoint c - temp)
                                * ReactorController.dt c) (- (5)) 5)
        by (apply Qmult_le_0_compat; lra).
      lra.
    + apply IHcold; auto.
Qed.

(** X10.  The regulator pushes towards the setpoint.  After
    [reset(setpoint)], as long as every moderator temperature it is shown
    is at or above the setpoint every rod reactivity it returns is
    [<= 0]; as long as every temperature is at or below the setpoint
    every rod reactivity is [>= 0]. *)
Theorem reactor_controller_pushes_to_setpoint (dt setpoint : Q) (temps : list Q) :
  let c := ReactorController.reset (ReactorController.init dt) setpoint in
  (Forall (fun temp => setpoint <= temp) temps ->
   Forall (fun u => u <= 0) (snd (ReactorController.steps c temps)))
  /\ (Forall (fun temp => temp <= setpoint) temps ->
      Forall (fun u => 0 <= u) (snd (ReactorController.steps c temps))).
Proof.
  intros c.
  destruct (reactor_controller_steps_sign temps c) as [Hhot Hcold];
    try (cbn; lra).
  split; intros H; [apply Hhot | apply Hcold]; cbn; try lra; exact H.
Qed.

(** ** The PID controller *)

Lemma pid_step_frame (c c' : PIDController.t) (observation : np.ndarray) (out : Q) :
  PIDController.step c observation = Ok (c', out) ->
  pid_frame c' = pid_frame c
  /\ PIDController.kp c' = PIDController.kp c
  /\ PIDController.ki c' = PIDController.ki c
  /\ PIDController.kd c' = PIDController.kd c.
Proof.
  unfold PIDController.step.
  destruct (Qleb _ _); [intros [= <- _]; auto|].
  destruct (Py.div _ _); try discriminate. cbn [Py.bind].
  destruct (PIDController.use_filter c) eqn:Ef.
  - destruct (Py.div _ _); try discriminate. cbn [Py.bind].
    intros [= <- _]. unfold pid_frame. cbn. rewrite Ef. auto.
  - cbn [Py.bind]. intros [= <- _]. unfold pid_frame. cbn. rewrite Ef. auto.
Qed.

Lemma pid_update_frame parse (c : PIDController.t) (new_params : dict value)
    (r : PIDController.t * option exn) :
  PIDController.update_parameters parse c new_params = Ok r ->
  pid_frame (fst r) = pid_frame c
  /\ PIDController._integral (fst r) = PIDController._integral c
  /\ PIDController._previous_error (fst r) = PIDController._previous_error c
  /\ PIDController._derivative_state (fst r) = PIDController._derivative_state c.
Proof.
  unfold PIDController.update_parameters. intros E.
  destruct (PIDController.float_get parse new_params "kp" _);
    [destruct (PIDController.float_get parse new_params "ki" _);
       [destruct (PIDController.float_get parse new_params "kd" _)| |]| |];
    try discriminate; injection E as <-; cbn; auto.
Qed.

Lemma pid_calls_frame parse (cs : list PIDController.call) :
  forall c c', PIDController.calls parse c cs = Ok c' -> pid_frame c' = pid_frame c.
Proof.
  induction cs as [|[observation | | new_params] rest IH]; intros c c'; simpl.
  - now intros [= <-].
  - destruct (PIDController.step c observation) as [[c1 out]| |] eqn:E;
      try discriminate. cbn [Py.bind fst]. intros H.
    rewrite (IH _ _ H). now apply pid_step_frame in E.
  - intros H. rewrite (IH _ _ H). reflexivity.
  - destruct (PIDController.update_parameters parse c new_params) as [r| |] eqn:Eu;
      try discriminate.
    cbn [Py.bind]. intros H. rewrite (IH _ _ H).
    now apply pid_update_frame in Eu.
Qed.

Lemma pid_init_state parse (config dt : value) (c : PIDController.t) :
  PIDController.init parse config dt = Ok c ->
  PIDController._integral c = 0
  /\ PIDController._previous_error c = 0
  /\ PIDController._derivative_state c = 0.
Proof.
  unfold PIDController.init, BaseController.subclass_init.
  destruct (BaseController.init config dt) as [base| |]; try discriminate.
  cbn [Py.bind]. unfold PIDController.init_body.
  repeat (match goal with
          | |- context [Py.bind ?m _] => destruct m; try discriminate; cbn [Py.bind]
          end).
  all: destruct (Qleb _ _); try discriminate.
  intros [= <-]. cbn. auto.
Qed.

(** X11.  The PID output is always clamped.  On a controller built by
    [PIDController.__init__] and driven through any sequence of [step],
    [reset] and [update_parameters] calls in which every gain stored is
    a number, a [step] on any observation (of any length) completes and
    returns a value between the [output_min] and [output_max] fixed at
    construction. *)
Theorem pid_output_always_clamped (str_to_float : string -> outcome Q)
    (config dt : value) (c0 c : PIDController.t)
    (history : list PIDController.call) (observation : np.ndarray) :
  PIDController.init str_to_float config dt = Ok c0 ->
  PIDController.calls str_to_float c0 history = Ok c ->
  exists c' out,
    PIDController.step c observation = Ok (c', out)
    /\ PIDController.output_min c0 <= out
    /\ out <= PIDController.output_max c0.
Proof.
  intros Hinit Hcalls. apply pid_init_inv in Hinit.
  destruct (pid_calls_inv _ _ _ _ Hinit Hcalls) as (Hc & _ & Hlo & Hhi).
  destruct (pid_step_total c observation Hc) as (c' & out & Es & _ & _ & H1 & H2).
  exists c', out. rewrite <- Hlo, <- Hhi. auto.
Qed.

(** X12.  [reset] returns a driven controller to its constructed state,
    up to the gains: after any sequence of calls on a controller built by
    [__init__], [reset] yields the constructed object with the current
    [kp], [ki], [kd] (so the constructed object itself when
    [update_parameters] changed no gain). *)
Theorem pid_reset_restores_construction (str_to_float : string -> outcome Q)
    (config dt : value) (c0 c : PIDController.t)
    (history : list PIDController.call) :
  PIDController.init str_to_float config dt = Ok c0 ->
  PIDController.calls str_to_float c0 history = Ok c ->
  PIDController.reset c
  = PIDController.with_gains c0
      (PIDController.kp c) (PIDController.ki c) (PIDController.kd c).
Proof.
  intros Hinit Hcalls.
  apply pid_init_state in Hinit. destruct Hinit as (Hi & Hp & Hd).
  apply pid_calls_frame in Hcalls. unfold pid_frame in Hcalls.
  injection Hcalls as E1 E2 E3 E4 E5 E6 E7.
  unfold PIDController.reset, PIDController.with_state, PIDController.with_gains.
  rewrite Hi, Hp, Hd. congruence.
Qed.

(** X13.  [update_parameters(get_parameters())] changes nothing and
    raises nothing. *)
Theorem pid_update_get_identity (str_to_float : string -> outcome Q)
    (c : PIDController.t) :
  PIDController.update_parameters str_to_float c (PIDController.get_parameters c)
  = Ok (c, None).
Proof.
  destruct c. reflexivity.
Qed.

(** X14.  [get_parameters] after [update_parameters].  When the three
    gains of [new_params] convert to floats (an absent gain keeps its
    current value), [update_parameters] raises nothing and
    [get_parameters] then returns exactly these gains and the old
    setpoint: a ['setpoint'] entry in [new_params] is ignored. *)
Theorem pid_get_after_update (str_to_float : string -> outcome Q)
    (c : PIDController.t) (new_params : dict value) (kp' ki' kd' : Q) :
  PIDController.float_get str_to_float new_params "kp" (PIDController.kp c) = Ok kp' ->
  PIDController.float_get str_to_float new_params "ki" (PIDController.ki c) = Ok ki' ->
  PIDController.float_get str_to_float new_params "kd" (PIDController.kd c) = Ok kd' ->
  exists c',
    PIDController.update_parameters str_to_float c new_params = Ok (c', None)
    /\ PIDController.get_parameters c'
       = [("kp"%string, VFloat kp'); ("ki"%string, VFloat ki');
          ("kd"%string, VFloat kd');
          ("setpoint"%string, VFloat (PIDController.setpoint c))].
Proof.
  intros Hkp Hki Hkd. unfold PIDController.update_parameters.
  rewrite Hkp, Hki, Hkd. eexists. split; reflexivity.
Qed.

(** X15.  [update_parameters] is not atomic: when [kp] converts and the
    ['ki'] entry does not, the call raises the exception of that
    conversion with [kp] already replaced, and [ki], [kd] as before. *)
Theorem pid_update_not_atomic (str_to_float : string -> outcome Q)
    (c : PIDController.t) (new_params : dict value) (kp' : Q) (e : exn) :
  PIDController.float_get str_to_float new_params "kp" (PIDController.kp c) = Ok kp' ->
  PIDController.float_get str_to_float new_params "ki" (PIDController.ki c) = Raise e ->
  exists c',
    PIDController.update_parameters str_to_float c new_params = Ok (c', Some e)
    /\ PIDController.get_parameters c'
       = [("kp"%string, VFloat kp'); ("ki"%string, VFloat (PIDController.ki c));
          ("kd"%string, VFloat (PIDController.kd c));
          ("setpoint"%string, VFloat (PIDController.setpoint c))].
Proof.
  intros Hkp Hki. unfold PIDController.update_parameters.
  rewrite Hkp, Hki. eexists. split; reflexivity.
Qed.

(** X16.  Inverted or equal output limits are rejected.  With a mapping
    whose gains and setpoint convert, a positive time step, and
    ['output_limits'] a pair of numbers [(lo, hi)] with [hi <= lo],
    [PIDController.__init__] raises [ValueError]. *)
Theorem pid_init_rejects_inverted_limits (str_to_float : string -> outcome Q)
    (d : dict value) (dt lo hi : value) (kp ki kd setpoint a b : Q) :
  BaseController.is_positive_number dt = true ->
  PIDController.float_get str_to_float d "kp" (20 # 100) = Ok kp ->
  PIDController.float_get str_to_float d "ki" (4 # 100) = Ok ki ->
  PIDController.float_get str_to_float d "kd" (5 # 100) = Ok kd ->
  PIDController.float_get str_to_float d "setpoint" 1800 = Ok setpoint ->
  dict_get "output_limits"%string d = Some (VList [lo; hi]) ->
  PIDController.float str_to_float lo = Ok a ->
  PIDController.float str_to_float hi = Ok b ->
  b <= a ->
  PIDController.init str_to_float (VDict d) dt = Raise ValueError.
Proof.
  intros Hdt Hkp Hki Hkd Hsp Hlim Hlo Hhi Hle.
  unfold PIDController.init, BaseController.subclass_init, BaseController.init.
  rewrite Hdt.
  assert (exists q, as_number dt = Some q) as [q Eq].
  { unfold BaseController.is_positive_number in Hdt.
    destruct dt; try discriminate; cbn; eauto. }
  rewrite Eq. cbn [Py.bind]. unfold PIDController.init_body.
  cbn [BaseController.config BaseController.dt].
  rewrite Hkp, Hki, Hkd, Hsp, Hlim. cbn [Py.bind PIDController.getitem_int nth_error].
  rewrite Hlo. cbn [Py.bind]. rewrite Hhi. cbn [Py.bind].
  apply Qleb_le in Hle. now rewrite Hle.
Qed.

(** ** The scenario library, continued *)

(** [get_scenarios] on a configuration whose reads succeed with numeric
    values and a non-zero time step: the result is the table of
    definitions after the final loop. *)
Lemma get_scenarios_ok (core_config : dict value)
    (sim_dt initial_load_base eta_base : value) (d L e : Q) :
  Scenarios.read_core_config core_config = Ok (sim_dt, initial_load_base, eta_base) ->
  as_number sim_dt = Some d -> ~ d == 0 ->
  as_number initial_load_base = Some L ->
  as_number eta_base = Some e ->
  exists defined,
    Scenarios.scenario_definitions sim_dt initial_load_base eta_base = Ok defined
    /\ Scenarios.get_scenarios core_config
       = Ok (Scenarios.ensure_reset_options defined)
    /\ keys defined
       = ["baseline_steady_state"; "gradual_load_increase_10pct";
          "sudden_load_increase_5pct"; "steady_state_efficiency_probe";
          "deceptive_sensor_noise"; "parameter_randomization_drills";
          "cascading_grid_fault_and_recovery";
          "combined_challenge_final_exam"]%string
    /\ (exists description reset_options,
          dict_get "baseline_steady_state"%string defined
          = Some [("description"%string, description);
                  ("load_profile_func"%string, VFunc (Scenarios.constant_load L));
                  ("max_steps"%string, VInt (Py.int (500 / d)));
                  ("reset_options"%string, reset_options)])
    /\ (exists description max_steps env_modifications flag,
          dict_get "cascading_grid_fault_and_recovery"%string defined
          = Some [("description"%string, description);
                  ("load_profile_func"%string,
                   VFunc (Scenarios.multi_step_load_profile
                            [(L, 0); (L * (8 # 10), 20);
                             (L * (85 # 100), 120); (L * (105 # 100), 150)]));
                  ("max_steps"%string, max_steps);
                  ("env_modifications"%string, env_modifications);
                  ("is_adversarial_drill"%string, flag)]).
Proof.
  intros Hr Hd Hz HL He.
  unfold Scenarios.get_scenarios. rewrite Hr.
  unfold Scenarios.scenario_definitions.
  rewrite !(steps_for_ok _ _ _ Hd Hz). unfold mul, operand.
  rewrite HL, He. cbn [Py.bind].
  eexists. split; [reflexivity|]. split; [reflexivity|]. split; [reflexivity|].
  split; [eexists _, _; reflexivity | eexists _, _, _, _; reflexivity].
Qed.

Lemma dict_get_set_other {V : Type} (k k' : string) (v : V) (d : dict V) :
  String.eqb k k' = false -> dict_get k (dict_set k' v d) = dict_get k d.
Proof.
  intros Hne. induction d as [|[k0 v0] d IH]; simpl.
  - now rewrite Hne.
  - destruct (String.eqb k' k0) eqn:E; simpl.
    + apply String.eqb_eq in E. subst k0. now rewrite Hne.
    + now rewrite IH.
Qed.

Lemma ensure_reset_options_keeps (name key : string) (scenarios : dict (dict value))
    (definition : dict value) (v : value) :
  dict_get name scenarios = Some definition ->
  dict_get key definition = Some v ->
  exists spec,
    dict_get name (Scenarios.ensure_reset_options scenarios) = Some spec
    /\ dict_get key spec = Some v.
Proof.
  intros Hn Hk. rewrite ensure_reset_options_get, Hn.
  eexists. split; [reflexivity|].
  destruct (dict_mem "reset_options" definition) eqn:Em; [exact Hk|].
  rewrite dict_get_set_other; [exact Hk|].
  destruct (String.eqb key "reset_options") eqn:E; [|reflexivity].
  apply String.eqb_eq in E. subst key. unfold dict_mem in Em.
  rewrite Hk in Em. discriminate.
Qed.

(** X17.  The load profile of ['baseline_steady_state'] is constant: for
    a configuration with a non-zero numeric time step and numeric base
    values, it returns the initial load for every time and step index. *)
Theorem baseline_profile_is_constant (core_config : dict value)
    (sim_dt initial_load_base eta_base : value) (d L e : Q) :
  Scenarios.read_core_config core_config = Ok (sim_dt, initial_load_base, eta_base) ->
  as_number sim_dt = Some d -> ~ d == 0 ->
  as_number initial_load_base = Some L ->
  as_number eta_base = Some e ->
  exists scenarios spec f,
    Scenarios.get_scenarios core_config = Ok scenarios
    /\ dict_get "baseline_steady_state"%string scenarios = Some spec
    /\ dict_get "load_profile_func"%string spec = Some (VFunc f)
    /\ forall (time_s : Q) (step : Z), f time_s step = Ok L.
Proof.
  intros Hr Hd Hz HL He.
  destruct (get_scenarios_ok _ _ _ _ d L e Hr Hd Hz HL He)
    as (defined & _ & Eget & _ & (description & ro & Ebase) & _).
  destruct (ensure_reset_options_keeps "baseline_steady_state" "load_profile_func"
              defined _ (VFunc (Scenarios.constant_load L)) Ebase eq_refl)
    as (spec & Espec & Ef).
  exists (Scenarios.ensure_reset_options defined), spec, (Scenarios.constant_load L).
  repeat split; auto.
Qed.

(** X19.  The end values of a ramp.  For every argument, the profile
    built by [gradual_load_change] returns a load and raises nothing (a
    duration of at most [1e-6], zero and negative ones included, counts as
    [1e-6], so nothing is divided by zero); the load is [initial] up to
    and including [start_t] and [final] from [start_t + duration] on, and
    at no time lies on the far side of [initial] from [final]: a rising
    ramp is never below [initial], a falling one never above. *)
Theorem gradual_load_change_end_values (initial final start_t duration : Q)
    (time_s : Q) (step : Z) :
  let duration' := if Qleb duration (1 # 1000000) then 1 # 1000000 else duration in
  exists load,
    Scenarios.gradual_load_change initial final start_t duration time_s step
    = Ok load
    /\ (initial <= final -> initial <= load)
    /\ (final <= initial -> load <= initial)
    /\ (time_s <= start_t -> load == initial)
    /\ (start_t + duration' <= time_s -> load == final).
Proof.
  intros duration'. unfold Scenarios.gradual_load_change. fold duration'.
  assert (Hd : 0 < duration').
  { unfold duration'. destruct (Qleb duration (1 # 1000000)) eqn:E; [lra|].
    apply Qleb_gt in E. lra. }
  destruct (Qltb time_s start_t) eqn:E1;
    [apply Qltb_lt in E1 | apply Qltb_ge in E1].
  { exists initial. split; [reflexivity|]. repeat split; intros; lra. }
  destruct (Qltb time_s (start_t + duration')) eqn:E2;
    [apply Qltb_lt in E2 | apply Qltb_ge in E2].
  2:{ exists final. split; [reflexivity|]. repeat split; intros; lra. }
  eexists. split; [reflexivity|].
  set (a := (time_s - start_t) / duration').
  assert (Ha0 : 0 <= a).
  { unfold a. apply Qle_shift_div_l; [exact Hd|]. lra. }
  split; [|split; [|split]].
  - intros H.
    assert (0 <= (final - initial) * a) by (apply Qmult_le_0_compat; lra).
    lra.
  - intros H.
    assert (0 <= (initial - final) * a) by (apply Qmult_le_0_compat; lra).
    assert ((initial - final) * a == - ((final - initial) * a)) by ring.
    lra.
  - intros H. assert (Et : time_s == start_t) by lra.
    unfold a. rewrite Et. field. lra.
  - intros H. lra.
Qed.

Lemma multi_step_scan_member (steps : list (Q * Q)) (time_s current : Q) :
  Scenarios.multi_step_scan steps time_s current = current
  \/ In (Scenarios.multi_step_scan steps time_s current) (map fst steps).
Proof.
  revert current. induction steps as [|[load start_time] rest IH]; intros current.
  - now left.
  - simpl. destruct (Qleb start_time time_s); [|now left].
    right. destruct (IH load) as [E|Hin]; [left; now rewrite E | right; exact Hin].
Qed.

(** X20.  A multi-step profile only ever returns a load of its list.
    With an empty list the profile raises [IndexError] when called; with
    a non-empty one it returns one of the listed loads, and the first of
    them at every time before the first start time. *)
Theorem multi_step_profile_returns_listed_load (steps : list (Q * Q))
    (time_s : Q) (step : Z) :
  match steps with
  | [] => Scenarios.multi_step_load_profile steps time_s step = Raise IndexError
  | (load0, start0) :: _ =>
      exists load,
        Scenarios.multi_step_load_profile steps time_s step = Ok load
        /\ In load (map fst steps)
        /\ (time_s < start0 -> load = load0)
  end.
Proof.
  destruct steps as [|[load0 start0] rest]; [reflexivity|].
  eexists. split; [reflexivity|]. split.
  - destruct (multi_step_scan_member ((load0, start0) :: rest) time_s load0)
      as [E|Hin]; [rewrite E; now left | exact Hin].
  - intros Hlt. simpl. apply Qleb_gt in Hlt. now rewrite Hlt.
Qed.

Lemma Qleb_true (a b : Q) : a <= b -> Qleb a b = true.
Proof. apply Qleb_le. Qed.

Lemma Qleb_false (a b : Q) : b < a -> Qleb a b = false.
Proof. apply Qleb_gt. Qed.

(** X21.  The load of ['cascading_grid_fault_and_recovery'].  For a
    configuration with a non-zero numeric time step and numeric base
    values, its profile returns the initial load [L] before 20 s,
    [0.8 * L] from 20 s to before 120 s, [0.85 * L] from 120 s to before
    150 s and [1.05 * L] from 150 s on, for every step index. *)
Theorem cascading_profile_levels (core_config : dict value)
    (sim_dt initial_load_base eta_base : value) (d L e : Q) :
  Scenarios.read_core_config core_config = Ok (sim_dt, initial_load_base, eta_base) ->
  as_number sim_dt = Some d -> ~ d == 0 ->
  as_number initial_load_base = Some L ->
  as_number eta_base = Some e ->
  exists scenarios spec f,
    Scenarios.get_scenarios core_config = Ok scenarios
    /\ dict_get "cascading_grid_fault_and_recovery"%string scenarios = Some spec
    /\ dict_get "load_profile_func"%string spec = Some (VFunc f)
    /\ forall (time_s : Q) (step : Z),
         (time_s < 20 -> f time_s step = Ok L)
         /\ (20 <= time_s -> time_s < 120 -> f time_s step = Ok (L * (8 # 10)))
         /\ (120 <= time_s -> time_s < 150 -> f time_s step = Ok (L * (85 # 100)))
         /\ (150 <= time_s -> f time_s step = Ok (L * (105 # 100))).
Proof.
  intros Hr Hd Hz HL He.
  destruct (get_scenarios_ok _ _ _ _ d L e Hr Hd Hz HL He)
    as (defined & _ & Eget & _ & _ & (description & ms & em & fl & Ecas)).
  destruct (ensure_reset_options_keeps "cascading_grid_fault_and_recovery"
              "load_profile_func" defined _ _ Ecas eq_refl)
    as (spec & Espec & Ef).
  eexists _, spec, _. split; [exact Eget|]. split; [exact Espec|].
  split; [exact Ef|].
  intros time_s step. unfold Scenarios.multi_step_load_profile.
  cbn [Scenarios.multi_step_scan].
  destruct (Qlt_le_dec time_s 0) as [H0|H0];
    [rewrite (Qleb_false 0 time_s H0) | rewrite (Qleb_true 0 time_s H0)].
  { repeat split; intros; try lra; reflexivity. }
  destruct (Qlt_le_dec time_s 20) as [H20|H20];
    [rewrite (Qleb_false 20 time_s H20) | rewrite (Qleb_true 20 time_s H20)].
  { repeat split; intros; try lra; reflexivity. }
  destruct (Qlt_le_dec time_s 120) as [H120|H120];
    [rewrite (Qleb_false 120 time_s H120) | rewrite (Qleb_true 120 time_s H120)].
  { repeat split; intros; try lra; reflexivity. }
  destruct (Qlt_le_dec time_s 150) as [H150|H150];
    [rewrite (Qleb_false 150 time_s H150) | rewrite (Qleb_true 150 time_s H150)].
  { repeat split; intros; try lra; reflexivity. }
  repeat split; intros; try lra; reflexivity.
Qed.

(** X22.  The library is complete.  For a configuration with a non-zero
    numeric time step and numeric base values, [get_scenarios] returns
    exactly eight scenarios, under these names and in this order, and
    each carries a description string, a load-profile function and an
    integer ['max_steps']. *)
Theorem get_scenarios_names_and_fields (core_config : dict value)
    (sim_dt initial_load_base eta_base : value) (d L e : Q) :
  Scenarios.read_core_config core_config = Ok (sim_dt, initial_load_base, eta_base) ->
  as_number sim_dt = Some d -> ~ d == 0 ->
  as_number initial_load_base = Some L ->
  as_number eta_base = Some e ->
  exists scenarios,
    Scenarios.get_scenarios core_config = Ok scenarios
    /\ keys scenarios
       = ["baseline_steady_state"; "gradual_load_increase_10pct";
          "sudden_load_increase_5pct"; "steady_state_efficiency_probe";
          "deceptive_sensor_noise"; "parameter_randomization_drills";
          "cascading_grid_fault_and_recovery";
          "combined_challenge_final_exam"]%string
    /\ Forall (fun entry => spec_has_required_fields (snd entry)) scenarios.
Proof.
  intros Hr Hd Hz HL He.
  unfold Scenarios.get_scenarios. rewrite Hr.
  unfold Scenarios.scenario_definitions.
  rewrite !(steps_for_ok _ _ _ Hd Hz). unfold mul, operand.
  rewrite HL, He. cbn [Py.bind].
  eexists. split; [reflexivity|]. split; [reflexivity|].
  repeat (apply Forall_cons;
          [split; [eexists; reflexivity | split; eexists; reflexivity]|]).
  apply Forall_nil.
Qed.

(** X23.  Only a missing key is swallowed.  When the reads of
    [core_config] succeed, a time step that is not a number makes
    [get_scenarios] raise [TypeError] and a time step equal to zero makes
    it raise [ZeroDivisionError]; no mapping is returned. *)
Theorem get_scenarios_bad_time_step_raises (core_config : dict value)
    (sim_dt initial_load_base eta_base : value) :
  Scenarios.read_core_config core_config = Ok (sim_dt, initial_load_base, eta_base) ->
  (as_number sim_dt = None ->
   Scenarios.get_scenarios core_config = Raise TypeError)
  /\ (forall d, as_number sim_dt = Some d -> d == 0 ->
      Scenarios.get_scenarios core_config = Raise ZeroDivisionError).
Proof.
  intros Hr. unfold Scenarios.get_scenarios. rewrite Hr.
  unfold Scenarios.scenario_definitions, Scenarios.steps_for, rdiv, operand.
  split.
  - intros Hn. now rewrite Hn.
  - intros d Hd Hz. rewrite Hd. cbn [Py.bind]. unfold Py.div.
    apply Qeq_bool_iff in Hz. now rewrite Hz.
Qed.

(** ** The metrics engine, continued *)



(** ** The callers in the optimization suite *)

Lemma calculate_call_raises {A : Type} (body : outcome A) :
  PyCall.call OptimizationUtils.CALCULATE_PARAMETERS 3 [] body = Raise TypeError.
Proof. reflexivity. Qed.

(** X25.  [run_single_sim_and_extract_detailed_metrics] never reports a
    successful run.  It calls [MetricsEngine.calculate] with three
    positional arguments where the method takes two, so every run that
    produced at least two rows ends in the [except] branch: whatever the
    configuration, the scenario, the controller and the frame the
    executor returns, [completed_successfully] is false, [metrics] is the
    empty mapping and the termination reason is never
    ['Completed Nominally']. *)
Theorem run_single_sim_never_succeeds
    (setup : MetricsEngine.t -> MetricsEngine.DataFrame -> option exn)
    (kernel : string -> MetricsEngine.t -> MetricsEngine.DataFrame ->
              dict value -> dict MetricsEngine.metric -> MetricsEngine.effect)
    (reset_controller : option exn)
    (execute : dict (dict value) -> value -> dict value -> string ->
               outcome MetricsEngine.DataFrame)
    (base_core_config scenario_config : dict value) (controller_name : string) :
  let r := OptimizationUtils.run_single_sim_and_extract_detailed_metrics
             setup kernel reset_controller execute
             base_core_config scenario_config controller_name in
  OptimizationUtils.completed_successfully r = false
  /\ OptimizationUtils.metrics r = []
  /\ OptimizationUtils.termination_reason r <> "Completed Nominally"%string.
Proof.
  unfold OptimizationUtils.run_single_sim_and_extract_detailed_metrics,
    OptimizationUtils.try_block.
  destruct (Scenarios.get_scenarios base_core_config) as [scenarios|e|];
    [|cbn; repeat split; discriminate..].
  destruct (OptimizationUtils.metrics_engine_of _) as [engine|e|];
    [|cbn; repeat split; discriminate..].
  destruct reset_controller as [e|]; [cbn; repeat split; discriminate|].
  destruct (execute _ _ _ _) as [results_df|e|];
    [|cbn; repeat split; discriminate..].
  rewrite calculate_call_raises.
  destruct (MetricsEngine.empty results_df
            || Nat.ltb (MetricsEngine.index_len results_df) 2);
    cbn; repeat split; discriminate.
Qed.

Lemma objective_call_raises {A : Type} (body : outcome A) :
  PyCall.call OptimizationUtils.PARAMETERS 0 PidGlobalOptimizer.CALL_KEYWORDS body
  = Raise TypeError.
Proof. reflexivity. Qed.

Lemma scenario_cost_never_returns setup kernel parse execute
    (core_params : dict value) (cost_weights : value)
    (current_pid_params : dict value) (scenario_name : string)
    (scenario_config : dict value) :
  forall r,
    PidGlobalOptimizer.scenario_cost setup kernel parse execute core_params
      cost_weights current_pid_params scenario_name scenario_config <> Ok r.
Proof.
  intros r. unfold PidGlobalOptimizer.scenario_cost.
  repeat (match goal with
          | |- context [Py.bind ?m _] =>
              lazymatch m with
              | PyCall.call _ _ _ _ => fail
              | _ => destruct m; try discriminate; cbn [Py.bind]
              end
          end).
  all: try (rewrite objective_call_raises; discriminate).
Qed.

Lemma total_cost_all_fail setup kernel parse execute
    (core_params : dict value) (cost_weights : value)
    (current_pid_params : dict value) (scenarios : dict (dict value)) :
  forall (t : Q) (k : nat),
  exists q,
    PidGlobalOptimizer.total_cost setup kernel parse execute core_params
      cost_weights current_pid_params scenarios (MetricsEngine.Num t) k
    = (MetricsEngine.Num q, (k + List.length scenarios)%nat)
    /\ q == t + inject_Z (Z.of_nat (List.length scenarios)) * 1000000.
Proof.
  induction scenarios as [|[name sc] rest IH]; intros t k.
  - exists t. split; [simpl; now rewrite Nat.add_0_r|]. simpl. ring.
  - cbn [PidGlobalOptimizer.total_cost].
    destruct (PidGlobalOptimizer.scenario_cost setup kernel parse execute
                core_params cost_weights current_pid_params name sc) as [r|e|] eqn:E.
    + exfalso. exact (scenario_cost_never_returns _ _ _ _ _ _ _ _ _ r E).
    + destruct (IH (t + 1000000) (S k)) as (q & Eq & Hq).
      exists q. cbn [PyFloat.add]. rewrite Eq. split.
      * f_equal. simpl. lia.
      * rewrite Hq. cbn [List.length]. rewrite Nat2Z.inj_succ, <- Z.add_1_r.
        rewrite inject_Z_plus. ring.
    + destruct (IH (t + 1000000) (S k)) as (q & Eq & Hq).
      exists q. cbn [PyFloat.add]. rewrite Eq. split.
      * f_equal. simpl. lia.
      * rewrite Hq. cbn [List.length]. rewrite Nat2Z.inj_succ, <- Z.add_1_r.
        rewrite inject_Z_plus. ring.
Qed.

(** X26.  The PID objective does not depend on the gains it is given.
    The objective calls [run_single_sim_and_extract_detailed_metrics]
    with a keyword [scenario_name] that the function does not have, so
    every scenario ends in the [except] branch: whenever the head of the
    objective reads its configuration, the value returned is 1,500,000
    times the number of scenarios, for every parameter vector and every
    list of parameter names. *)
Theorem pid_objective_ignores_gains
    (setup : MetricsEngine.t -> MetricsEngine.DataFrame -> option exn)
    (kernel : string -> MetricsEngine.t -> MetricsEngine.DataFrame ->
              dict value -> dict MetricsEngine.metric -> MetricsEngine.effect)
    (str_to_float : string -> outcome Q)
    (execute : PIDController.t -> dict (dict value) -> value -> dict value ->
               string -> outcome MetricsEngine.DataFrame)
    (params_vector : np.ndarray) (full_base_config : dict value)
    (scenarios_to_run : dict (dict value)) (param_names : list string)
    (cfg : dict value * value) :
  PidGlobalOptimizer.read_config full_base_config = Ok cfg ->
  exists cost,
    PidGlobalOptimizer._pid_objective_function setup kernel str_to_float execute
      params_vector full_base_config scenarios_to_run param_names = Ok cost
    /\ cost == inject_Z (Z.of_nat (List.length scenarios_to_run)) * 1500000.
Proof.
  intros Hcfg. unfold PidGlobalOptimizer._pid_objective_function.
  rewrite Hcfg. cbn [Py.bind].
  destruct (total_cost_all_fail setup kernel str_to_float execute (fst cfg) (snd cfg)
              (PidGlobalOptimizer.zip_params param_names params_vector [])
              scenarios_to_run 0 0) as (q & Eq & Hq).
  rewrite Eq. cbn [fst snd PyFloat.add Nat.add].
  eexists. split; [reflexivity|]. rewrite Hq. ring.
Qed.

(** ** The parameter manager *)

Lemma dict_get_keys {V : Type} (k : string) (v : V) (d : dict V) :
  dict_get k d = Some v -> In k (keys d).
Proof.
  intros H. apply dict_get_in in H. unfold keys.
  change k with (fst (k, v)). now apply in_map.
Qed.

Lemma override_spec py_ne (target : dict value) (cli_key : string)
    (cli_value : value) :
  keys (ParameterManager.override py_ne target cli_key cli_value) = keys target
  /\ forall k v,
       dict_get k (ParameterManager.override py_ne target cli_key cli_value) = Some v ->
       dict_get k target = Some v
       \/ (k = cli_key /\ v = cli_value /\ cli_value <> VNone).
Proof.
  unfold ParameterManager.override.
  assert (Hset : dict_mem cli_key target = true ->
            keys (dict_set cli_key cli_value target) = keys target
            /\ forall k v, dict_get k (dict_set cli_key cli_value target) = Some v ->
                 dict_get k target = Some v \/ (k = cli_key /\ v = cli_value)).
  { intros Hm. split.
    - apply keys_dict_set_present. unfold dict_mem in Hm.
      destruct (dict_get cli_key target) eqn:E; [|discriminate].
      eapply dict_get_keys; eauto.
    - intros k v H. destruct (String.eqb k cli_key) eqn:Ek.
      + apply String.eqb_eq in Ek. subst k.
        rewrite dict_get_set_same in H. injection H as <-. now right.
      + rewrite dict_get_set_other in H by exact Ek. now left. }
  assert (Hn : cli_value = VNone \/ cli_value <> VNone)
    by (destruct cli_value; (now left) || (right; discriminate)).
  destruct Hn as [->|Hn]; [split; [reflexivity | intros; now left]|].
  assert (E : match cli_value with
              | VNone => target
              | _ =>
                  match dict_get cli_key target with
                  | Some original_value =>
                      if py_ne original_value cli_value
                      then dict_set cli_key cli_value target
                      else target
                  | None => target
                  end
              end
              = match dict_get cli_key target with
                | Some original_value =>
                    if py_ne original_value cli_value
                    then dict_set cli_key cli_value target
                    else target
                | None => target
                end)
    by (destruct cli_value; congruence).
  rewrite E. clear E.
  destruct (dict_get cli_key target) as [original|] eqn:Eg;
    [|split; [reflexivity | intros; now left]].
  destruct (py_ne original cli_value);
    [|split; [reflexivity | intros; now left]].
  assert (Hm : dict_mem cli_key target = true)
    by (unfold dict_mem; now rewrite Eg).
  destruct (Hset Hm) as [Hk Hv]. split; [exact Hk|].
  intros k v H. destruct (Hv k v H) as [?|[? ?]]; [now left|].
  right. subst. auto.
Qed.

Lemma override_all_spec py_ne (cli_args_dict : dict value) :
  forall target,
    keys (ParameterManager.override_all py_ne target cli_args_dict) = keys target
    /\ forall k v,
         dict_get k (ParameterManager.override_all py_ne target cli_args_dict) = Some v ->
         dict_get k target = Some v
         \/ (In (k, v) cli_args_dict /\ v <> VNone).
Proof.
  unfold ParameterManager.override_all.
  induction cli_args_dict as [|[cli_key cli_value] rest IH]; intros target; simpl.
  - split; [reflexivity | intros; now left].
  - destruct (IH (ParameterManager.override py_ne target cli_key cli_value))
      as [Hk Hv].
    destruct (override_spec py_ne target cli_key cli_value) as [Hk1 Hv1].
    split; [now rewrite Hk, Hk1|].
    intros k v H. destruct (Hv k v H) as [H1|[Hin Hn]].
    + destruct (Hv1 k v H1) as [?|(-> & -> & Hn)]; [now left|].
      right. split; [now left | exact Hn].
    + right. split; [now right | exact Hn].
Qed.

(** X27.  CLI overrides never add or remove a parameter.  When
    [params['CORE_PARAMETERS']['rl_training_adv']] is a mapping,
    [update_with_cli_args] completes and changes nothing but that
    mapping; its keys and their order are the same afterwards, and every
    value in it is either the old one or a value of [cli_args_dict] given
    under the same key, which is not [None]. *)
Theorem cli_overrides_keep_the_keys (py_ne : value -> value -> bool)
    (params cli_args_dict core target : dict value) :
  dict_get "CORE_PARAMETERS"%string params = Some (VDict core) ->
  dict_get "rl_training_adv"%string core = Some (VDict target) ->
  exists target',
    ParameterManager.update_with_cli_args py_ne params cli_args_dict
    = Ok (dict_set "CORE_PARAMETERS"%string
            (VDict (dict_set "rl_training_adv"%string (VDict target') core))
            params)
    /\ keys target' = keys target
    /\ forall k v,
         dict_get k target' = Some v ->
         dict_get k target = Some v
         \/ (In (k, v) cli_args_dict /\ v <> VNone).
Proof.
  intros Hc Ht. unfold ParameterManager.update_with_cli_args.
  rewrite Hc. cbn [ParameterManager.contains Py.bind]. unfold dict_mem.
  rewrite Ht. cbn [negb getitem Py.bind]. rewrite Ht. cbn [Py.bind].
  eexists. split; [reflexivity|]. apply override_all_spec.
Qed.

(** ** The further properties at concrete inputs *)

Example calls_that_bind :
  PyCall.accepts OptimizationUtils.CALCULATE_PARAMETERS 2 [] = true
  /\ PyCall.accepts OptimizationUtils.PARAMETERS 0 OptimizationUtils.PARAMETERS = true
  /\ PyCall.accepts OptimizationUtils.PARAMETERS 2
       ["controller_instance"; "controller_name"]%string = true.
Proof. repeat split; reflexivity. Qed.

Lemma reactor_zero_state_is_fixed_witness :
  exists m' out,
    ReactorModel.step (ReactorModel.init Examples.reactor_params)
      (2 # 100) (5 # 1000) = Ok (m', out)
    /\ out == 0
    /\ ReactorModel.power_level m' == 0
    /\ Forall (fun c => c == 0) (ReactorModel.precursor_concentrations m').
Proof.
  apply reactor_zero_state_is_fixed;
    [reflexivity | reflexivity | repeat constructor].
Defined.

Lemma reactor_moderator_follows_fuel_witness :
  exists m' out,
    ReactorModel.step Examples.reactor_at_full_power (2 # 100) 0 = Ok (m', out)
    /\ (ReactorModel.T_moderator Examples.reactor_at_full_power
        <= ReactorModel.T_fuel m' ->
        ReactorModel.T_moderator Examples.reactor_at_full_power
        <= ReactorModel.T_moderator m')
    /\ (ReactorModel.T_fuel m'
        <= ReactorModel.T_moderator Examples.reactor_at_full_power ->
        ReactorModel.T_moderator m'
        <= ReactorModel.T_moderator Examples.reactor_at_full_power).
Proof.
  apply reactor_moderator_follows_fuel;
    [reflexivity | reflexivity | vm_compute; discriminate
    | vm_compute; discriminate].
Defined.

Lemma grid_frequency_tracks_speed_witness :
  exists g,
    GridModel.steps (GridModel.reset Examples.grid_at_rest 3000)
      [(2 # 100, 3100, 0, 0%Z); (2 # 100, 2950, 2 # 100, 1%Z)] = Ok g
    /\ GridModel.frequency g
       == GridModel.omega_pu g * GridModel.f_nominal Examples.grid_at_rest
    /\ GridModel.current_demand g = 3000.
Proof.
  apply grid_frequency_tracks_speed. reflexivity.
Defined.

Lemma grid_balance_persists_witness :
  exists g,
    GridModel.steps (GridModel.reset Examples.grid_at_rest 3000)
      [(2 # 100, 3000, 0, 0%Z); (2 # 100, 3000, 2 # 100, 1%Z)] = Ok g
    /\ GridModel.omega_pu g == 1
    /\ GridModel.frequency g == GridModel.f_nominal Examples.grid_at_rest
    /\ GridModel.delta g == 0.
Proof.
  apply grid_balance_persists; [reflexivity|].
  repeat constructor.
Defined.

Lemma grid_imbalance_sets_direction_witness :
  exists g',
    GridModel.step Examples.grid_at_rest (2 # 100) 3100 10 500 = Ok g'
    /\ (3000 <= 3100 ->
        1 <= GridModel.omega_pu g'
        /\ GridModel.f_nominal Examples.grid_at_rest <= GridModel.frequency g')
    /\ (3100 <= 3000 ->
        GridModel.omega_pu g' <= 1
        /\ GridModel.frequency g' <= GridModel.f_nominal Examples.grid_at_rest).
Proof.
  apply (grid_imbalance_sets_direction Examples.grid_at_rest
           Examples.constant_3000 (2 # 100) 3100 10 500%Z 3000);
    try reflexivity; vm_compute; discriminate.
Defined.

Lemma turbine_valve_in_range_witness :
  exists m' out,
    TurbineModel.step Examples.turbine 10 3000 5 = Ok (m', out)
    /\ 0 <= TurbineModel.valve_position m'
    /\ TurbineModel.valve_position m' <= 1
    /\ out = TurbineModel.mechanical_power m'.
Proof.
  apply turbine_valve_in_range; vm_compute; discriminate.
Defined.

Lemma turbine_lags_move_towards_target_witness :
  exists m' out,
    TurbineModel.step Examples.turbine (2 # 100) 3000 1 = Ok (m', out)
    /\ let v := TurbineModel.valve_position Examples.turbine in
       let v' := TurbineModel.valve_position m' in
       let p := TurbineModel.mechanical_power Examples.turbine in
       let p' := TurbineModel.mechanical_power m' in
       let steam := TurbineModel.effective_steam_power Examples.turbine v' 3000 in
       (v <= 1 -> v <= v')
       /\ (1 <= v -> v' <= v)
       /\ (p <= steam -> p <= p')
       /\ (steam <= p -> p' <= p).
Proof.
  apply turbine_lags_move_towards_target;
    try reflexivity; try (vm_compute; discriminate);
    split; vm_compute; discriminate.
Defined.

Lemma reactor_controller_integral_bounded_witness :
  let c := ReactorController.reset (ReactorController.init (2 # 100)) 300 in
  let c' := fst (ReactorController.steps c [1000; 1000; -4000]) in
  - (5) <= ReactorController._integral c' <= 5
  /\ ReactorController.setpoint c' = ReactorController.setpoint c
  /\ ReactorController.dt c' = ReactorController.dt c.
Proof.
  intros c.
  apply (reactor_controller_integral_bounded c [1000; 1000; -4000]).
  split; vm_compute; discriminate.
Defined.

Lemma pid_output_always_clamped_witness :
  exists c' out,
    PIDController.step Examples.pid_driven [0; 0; 0; 0; 100000; 0] = Ok (c', out)
    /\ PIDController.output_min Examples.pid <= out
    /\ out <= PIDController.output_max Examples.pid.
Proof.
  apply (pid_output_always_clamped Examples.no_parse
           Examples.pid_config (VFloat (2 # 100)) Examples.pid
           Examples.pid_driven Examples.pid_driven_history);
    reflexivity.
Defined.

Lemma pid_reset_restores_construction_witness :
  PIDController.reset Examples.pid_after_history
  = PIDController.with_gains Examples.pid
      (PIDController.kp Examples.pid_after_history)
      (PIDController.ki Examples.pid_after_history)
      (PIDController.kd Examples.pid_after_history).
Proof.
  apply (pid_reset_restores_construction Examples.no_parse
           Examples.pid_config (VFloat (2 # 100)) Examples.pid
           Examples.pid_after_history Examples.pid_history);
    reflexivity.
Defined.

Lemma pid_get_after_update_witness :
  exists c',
    PIDController.update_parameters Examples.no_parse Examples.pid
      [("kp"%string, VInt 2); ("setpoint"%string, VFloat 1500)] = Ok (c', None)
    /\ PIDController.get_parameters c'
       = [("kp"%string, VFloat (inject_Z 2)); ("ki"%string, VFloat (4 # 100));
          ("kd"%string, VFloat (5 # 100));
          ("setpoint"%string, VFloat (PIDController.setpoint Examples.pid))].
Proof.
  apply pid_get_after_update; reflexivity.
Defined.

Lemma pid_update_not_atomic_witness :
  exists c',
    PIDController.update_parameters Examples.no_parse Examples.pid
      [("kp"%string, VInt 2); ("ki"%string, VNone)] = Ok (c', Some TypeError)
    /\ PIDController.get_parameters c'
       = [("kp"%string, VFloat (inject_Z 2));
          ("ki"%string, VFloat (PIDController.ki Examples.pid));
          ("kd"%string, VFloat (PIDController.kd Examples.pid));
          ("setpoint"%string, VFloat (PIDController.setpoint Examples.pid))].
Proof.
  apply pid_update_not_atomic; reflexivity.
Defined.

Lemma pid_init_rejects_inverted_limits_witness :
  PIDController.init Examples.no_parse
    (VDict [("output_limits"%string, VList [VFloat 1; VFloat 0])])
    (VFloat (2 # 100))
  = Raise ValueError.
Proof.
  apply (pid_init_rejects_inverted_limits Examples.no_parse _ _
           (VFloat 1) (VFloat 0) (20 # 100) (4 # 100) (5 # 100) 1800 1 0);
    try reflexivity.
  vm_compute. discriminate.
Defined.

Lemma baseline_profile_is_constant_witness :
  exists scenarios spec f,
    Scenarios.get_scenarios Examples.core_config = Ok scenarios
    /\ dict_get "baseline_steady_state"%string scenarios = Some spec
    /\ dict_get "load_profile_func"%string spec = Some (VFunc f)
    /\ forall (time_s : Q) (step : Z), f time_s step = Ok 3000.
Proof.
  apply (baseline_profile_is_constant Examples.core_config
           (VFloat (2 # 100)) (VFloat 3000) (VFloat (98 # 100))
           (2 # 100) 3000 (98 # 100));
    try reflexivity.
  vm_compute. discriminate.
Defined.

Lemma cascading_profile_levels_witness :
  exists scenarios spec f,
    Scenarios.get_scenarios Examples.core_config = Ok scenarios
    /\ dict_get "cascading_grid_fault_and_recovery"%string scenarios = Some spec
    /\ dict_get "load_profile_func"%string spec = Some (VFunc f)
    /\ forall (time_s : Q) (step : Z),
         (time_s < 20 -> f time_s step = Ok 3000)
         /\ (20 <= time_s -> time_s < 120 -> f time_s step = Ok (3000 * (8 # 10)))
         /\ (120 <= time_s -> time_s < 150 -> f time_s step = Ok (3000 * (85 # 100)))
         /\ (150 <= time_s -> f time_s step = Ok (3000 * (105 # 100))).
Proof.
  apply (cascading_profile_levels Examples.core_config
           (VFloat (2 # 100)) (VFloat 3000) (VFloat (98 # 100))
           (2 # 100) 3000 (98 # 100));
    try reflexivity.
  vm_compute. discriminate.
Defined.

Lemma get_scenarios_names_and_fields_witness :
  exists scenarios,
    Scenarios.get_scenarios Examples.core_config = Ok scenarios
    /\ keys scenarios
       = ["baseline_steady_state"; "gradual_load_increase_10pct";
          "sudden_load_increase_5pct"; "steady_state_efficiency_probe";
          "deceptive_sensor_noise"; "parameter_randomization_drills";
          "cascading_grid_fault_and_recovery";
          "combined_challenge_final_exam"]%string
    /\ Forall (fun entry => spec_has_required_fields (snd entry)) scenarios.
Proof.
  apply (get_scenarios_names_and_fields Examples.core_config
           (VFloat (2 # 100)) (VFloat 3000) (VFloat (98 # 100))
           (2 # 100) 3000 (98 # 100));
    try reflexivity.
  vm_compute. discriminate.
Defined.

Lemma get_scenarios_bad_time_step_raises_witness :
  (as_number (VFloat 0) = None ->
   Scenarios.get_scenarios Examples.config_zero_dt = Raise TypeError)
  /\ (forall d, as_number (VFloat 0) = Some d -> d == 0 ->
      Scenarios.get_scenarios Examples.config_zero_dt = Raise ZeroDivisionError).
Proof.
  apply (get_scenarios_bad_time_step_raises Examples.config_zero_dt
           (VFloat 0) (VFloat (30085 # 10)) (VFloat (98 # 100))).
  reflexivity.
Defined.


Lemma pid_objective_ignores_gains_witness :
  exists cost,
    PidGlobalOptimizer._pid_objective_function Examples.idle_setup
      Examples.idle_kernel Examples.no_parse Examples.execute_20
      [3 # 10; 4 # 100; 5 # 100] Examples.full_config Examples.scenarios
      ["kp"; "ki"; "kd"]%string = Ok cost
    /\ cost == inject_Z (Z.of_nat (List.length Examples.scenarios)) * 1500000.
Proof.
  apply (pid_objective_ignores_gains Examples.idle_setup Examples.idle_kernel
           Examples.no_parse Examples.execute_20 _ Examples.full_config
           Examples.scenarios _ (Examples.core_config, VDict [])).
  reflexivity.
Defined.

Lemma cli_overrides_keep_the_keys_witness :
  exists target',
    ParameterManager.update_with_cli_args Examples.int_ne
      Examples.manager_params Examples.cli_args
    = Ok (dict_set "CORE_PARAMETERS"%string
            (VDict (dict_set "rl_training_adv"%string (VDict target')
                      [("rl_training_adv"%string, VDict Examples.rl_section)]))
            Examples.manager_params)
    /\ keys target' = keys Examples.rl_section
    /\ forall k v,
         dict_get k target' = Some v ->
         dict_get k Examples.rl_section = Some v
         \/ (In (k, v) Examples.cli_args /\ v <> VNone).
Proof.
  apply cli_overrides_keep_the_keys; reflexivity.
Defined.

Example cli_override_result :
  ParameterManager.override_all Examples.int_ne Examples.rl_section
    Examples.cli_args
  = [("total_timesteps"%string, VInt 5000); ("seed"%string, VInt 7)].
Proof. reflexivity. Qed.

Example objective_on_eight_scenarios :
  List.length Examples.scenarios = 8%nat.
Proof. reflexivity. Qed.
